(** * MyAIPortfolio: the retrieval-augmented chat loop of [portfolio_bot.py]

    A shallow embedding of [PersonalKnowledgeBase] (chunking, ingestion,
    search, refresh) and of [PortfolioChatBot] (tool dispatch and the
    two-round chat protocol), followed by the properties proved of them.

    Python values are modelled as follows.
    - [str] is [string]; a character is a code point below 256.
    - [int] is [Z]; list lengths and enumeration indices are [nat].
    - [float] is the kernel's binary64 [float].
    - An exception is a value of [exn]; a call that may raise returns
      [res A].
    - The model service, the clock and the JSON codec are Section
      variables; so is the query of the vector store where [search] is
      defined, and the store itself is modelled in memory where the
      knowledge base is. *)

From Stdlib Require Import List String Ascii ZArith PArith Lia Bool Arith.
From Stdlib Require Import Floats.
From Stdlib Require DecimalString DecimalNat DecimalFacts.
Import ListNotations.

Set Warnings "-register-all,-inexact-float".

Local Open Scope string_scope.
Local Open Scope list_scope.
Local Open Scope Z_scope.

(* ===================================================================== *)
(** * The Python primitives the program uses *)
(* ===================================================================== *)

Module Py.

(** The exception classes that can reach the modelled code. *)
Inductive exn : Type :=
| ValueError
| KeyError
| IndexError
| TypeError
| JSONDecodeError
| NotFoundError
| ServiceError (detail : string).

(** The outcome of a call: a value, or a raised exception. *)
Inductive res (A : Type) : Type :=
| Ok (a : A)
| Raise (e : exn).
Arguments Ok {A} a.
Arguments Raise {A} e.

Definition bind {A B} (r : res A) (k : A -> res B) : res B :=
  match r with
  | Ok a => k a
  | Raise e => Raise e
  end.

(** [try: r except: handler] *)
Definition try_except {A} (r : res A) (handler : exn -> A) : A :=
  match r with
  | Ok a => a
  | Raise e => handler e
  end.

(** ** Strings *)

(** [str.isspace] on one character, for code points below 256:
    TAB, LF, VT, FF, CR, FS, GS, RS, US, SPACE, NEL and NBSP. *)
Definition isspace (c : ascii) : bool :=
  let n := nat_of_ascii c in
  ((9 <=? n) && (n <=? 13) || (28 <=? n) && (n <=? 32)
   || (n =? 133) || (n =? 160))%nat.

(** Truthiness of a [str]. *)
Definition nonempty (s : string) : bool :=
  match s with
  | EmptyString => false
  | String _ _ => true
  end.

(** [str.split()] with no separator: the maximal runs of non-whitespace
    characters, in order.  [cur] is the run being read. *)
Fixpoint split_from (cur : string) (s : string) : list string :=
  match s with
  | EmptyString => if nonempty cur then [cur] else []
  | String c s' =>
      if isspace c
      then (if nonempty cur then cur :: split_from "" s' else split_from "" s')
      else split_from (cur ++ String c "")%string s'
  end.

Definition split (s : string) : list string := split_from "" s.

Fixpoint lstrip (s : string) : string :=
  match s with
  | EmptyString => EmptyString
  | String c s' => if isspace c then lstrip s' else s
  end.

Fixpoint rstrip (s : string) : string :=
  match s with
  | EmptyString => EmptyString
  | String c s' =>
      match rstrip s' with
      | EmptyString => if isspace c then EmptyString else String c EmptyString
      | r => String c r
      end
  end.

(** [str.strip()] *)
Definition strip (s : string) : string := rstrip (lstrip s).

(** [sep.join(l)] *)
Definition join (sep : string) (l : list string) : string :=
  String.concat sep l.

(** [str(n)] for a non-negative [int]. *)
Definition str_of_nat (n : nat) : string :=
  DecimalString.NilEmpty.string_of_uint (Nat.to_uint n).

(** [s.lower()] on one character (ASCII letters). *)
Definition lower_char (c : ascii) : ascii :=
  let n := nat_of_ascii c in
  if ((65 <=? n) && (n <=? 90))%nat then ascii_of_nat (n + 32) else c.

Fixpoint lower (s : string) : string :=
  match s with
  | EmptyString => EmptyString
  | String c s' => String (lower_char c) (lower s')
  end.

(** ** Ranges and slices *)

(** The number of elements of [range(lo, hi, step)] for a non-zero
    [step]. *)
Definition range_length (lo hi step : Z) : Z :=
  if 0 <? step
  then (if lo <? hi then (hi - lo - 1) / step + 1 else 0)
  else (if hi <? lo then (lo - hi - 1) / (- step) + 1 else 0).

(** [range(lo, hi, step)]; a zero step raises [ValueError]. *)
Definition range (lo hi step : Z) : res (list Z) :=
  if step =? 0 then Raise ValueError
  else Ok (map (fun k => lo + Z.of_nat k * step)
               (seq 0 (Z.to_nat (range_length lo hi step)))).

(** A slice bound [k] brought into [0 .. len]: a negative bound counts
    from the end. *)
Definition slice_bound (len k : Z) : Z :=
  if k <? 0 then Z.max 0 (k + len) else Z.min k len.

(** [l[start:stop]] *)
Definition slice {A} (l : list A) (start stop : Z) : list A :=
  let len := Z.of_nat (List.length l) in
  let a := slice_bound len start in
  let b := slice_bound len stop in
  firstn (Z.to_nat (b - a)) (skipn (Z.to_nat a) l).

(** [l[-n:]] for a positive literal [n]: the last [n] elements, or all of
    [l] when it is shorter. *)
Definition last_n {A} (n : nat) (l : list A) : list A :=
  slice l (- Z.of_nat n) (Z.of_nat (List.length l)).

End Py.

Import Py.

Declare Scope py_scope.
Delimit Scope py_scope with py.
Notation "x <- r ;; k" := (Py.bind r (fun x => k))
  (at level 61, r at next level, right associativity) : py_scope.
Local Open Scope py_scope.

(* ===================================================================== *)
(** * PersonalKnowledgeBase: chunking *)
(* ===================================================================== *)

Module Chunker.

(** One iteration of the loop of [_chunk_text]. *)
Definition chunk_step (words : list string) (chunk_size : Z)
    (chunks : list string) (i : Z) : list string :=
  let chunk := join " " (slice words i (i + chunk_size)) in
  if nonempty (strip chunk) then chunks ++ [chunk] else chunks.

(** [PersonalKnowledgeBase._chunk_text(text, chunk_size, overlap)] *)
Definition _chunk_text (text : string) (chunk_size overlap : Z)
    : res (list string) :=
  let words := split text in
  idx <- range 0 (Z.of_nat (List.length words)) (chunk_size - overlap) ;;
  Ok (fold_left (chunk_step words chunk_size) idx []).

(** The call with the defaults [chunk_size=500, overlap=50]. *)
Definition _chunk_text_default (text : string) : res (list string) :=
  _chunk_text text 500 50.

End Chunker.

Import Chunker.

(* ===================================================================== *)
(** * Values exchanged with the collaborators *)
(* ===================================================================== *)

(** A JSON document, as [json.loads] builds it and [json.dumps] reads it;
    also the shape of the [dict]s the program returns. *)
Inductive json : Type :=
| JNull
| JBool (b : bool)
| JInt (z : Z)
| JFloat (f : float)
| JStr (s : string)
| JList (l : list json)
| JDict (d : list (string * json)).

(** [d[key]] on an association list of a [dict]. *)
Fixpoint lookup {A} (key : string) (d : list (string * A)) : res A :=
  match d with
  | [] => Raise KeyError
  | (k, v) :: d' => if String.eqb k key then Ok v else lookup key d'
  end.

(** [v[key]] for a string [key]: only a [dict] can be subscripted so. *)
Definition getitem (v : json) (key : string) : res json :=
  match v with
  | JDict d => lookup key d
  | _ => Raise TypeError
  end.

(** [l[i]] *)
Definition index {A} (l : list A) (i : nat) : res A :=
  match nth_error l i with
  | Some a => Ok a
  | None => Raise IndexError
  end.

(** [v[i]] where [v] may be [None]. *)
Definition index_opt {A} (v : option (list A)) (i : nat) : res A :=
  match v with
  | Some l => index l i
  | None => Raise TypeError
  end.

(** A metadata value of the vector store: the program writes strings and
    integers. *)
Inductive metaval : Type :=
| MStr (s : string)
| MInt (z : Z).

Definition Metadata : Type := list (string * metaval).

(** [str(v)], as an f-string formats a metadata value. *)
Definition str_of_metaval (v : metaval) : string :=
  match v with
  | MStr s => s
  | MInt z => DecimalString.NilEmpty.string_of_int (Z.to_int z)
  end.

Definition json_of_metaval (v : metaval) : json :=
  match v with
  | MStr s => JStr s
  | MInt z => JInt z
  end.

(** The [dict] returned by [collection.query]: the keys [documents] and
    [metadatas] are always there, with value [None] or one list per query
    text; the code tests for the key [distances], so it may be missing
    ([None] at the outside) or hold [None] (inside). *)
Record QueryResult : Type := {
  qr_documents : option (list (list string));
  qr_metadatas : option (list (list (option Metadata)));
  qr_distances : option (option (list (list float)))
}.

(** One element of the list [search] returns. *)
Module SearchResult.
Record t : Type := {
  content : string;
  source : metaval;
  relevance_score : float
}.
End SearchResult.

(* ===================================================================== *)
(** * PersonalKnowledgeBase: search *)
(* ===================================================================== *)

Module Search.

Section WithCollection.

(** [self.collection.query(query_texts=[query], n_results=top_k)] *)
Variable collection_query : json -> Z -> res QueryResult.

(** The entry [search] builds for the [i]-th document. *)
Definition format_result (results : QueryResult) (i : nat) (doc : string)
    : res SearchResult.t :=
  metas <- index_opt (qr_metadatas results) 0 ;;
  meta <- index metas i ;;
  src <- match meta with
         | Some m => lookup "source" m
         | None => Raise TypeError
         end ;;
  score <- match qr_distances results with
           | Some distances =>
               ds <- index_opt distances 0 ;;
               d <- index ds i ;;
               Ok (1 - d)%float
           | None => Ok 1%float
           end ;;
  Ok {| SearchResult.content := doc;
        SearchResult.source := src;
        SearchResult.relevance_score := score |}.

(** The loop [for i, doc in enumerate(results['documents'][0])], from
    index [i] on. *)
Fixpoint format_from (results : QueryResult) (i : nat) (docs : list string)
    (formatted_results : list SearchResult.t) : res (list SearchResult.t) :=
  match docs with
  | [] => Ok formatted_results
  | doc :: docs' =>
      r <- format_result results i doc ;;
      format_from results (S i) docs' (formatted_results ++ [r])
  end.

(** The body of the [try] block of [search]. *)
Definition search_body (query : json) (top_k : Z) : res (list SearchResult.t) :=
  results <- collection_query query top_k ;;
  match qr_documents results with
  | Some (((_ :: _) as docs) :: _) => format_from results 0 docs []
  | _ => Ok []
  end.

(** [PersonalKnowledgeBase.search(query, top_k)]: any exception of the
    body is caught and the empty list returned. *)
Definition search (query : json) (top_k : Z) : list SearchResult.t :=
  try_except (search_body query top_k) (fun _ => []).

End WithCollection.

End Search.

(* ===================================================================== *)
(** * PersonalKnowledgeBase: ingestion and refresh *)
(* ===================================================================== *)

Module KnowledgeBase.

(** A path yielded by [about_me_folder.rglob('*')]; [name] is
    [stem + suffix]. *)
Record Path : Type := {
  stem : string;
  suffix : string;
  is_file : bool
}.

Definition name (p : Path) : string := (stem p ++ suffix p)%string.

(** The folder as the program sees it: the paths in the order [rglob]
    yields them, and what each reader returns for a path (the extracted
    text, or the empty string when reading fails). *)
Record Folder : Type := {
  rglob : list Path;
  _read_text_file : Path -> string;
  _read_pdf : Path -> string;
  _read_docx : Path -> string
}.

(** An entry of the collection. *)
Record Entry : Type := {
  entry_id : string;
  entry_document : string;
  entry_metadata : Metadata
}.

(** The knowledge base.  [collection] is the content of the collection
    named [glory_portfolio] in the persistent store, the only name the
    program uses: [None] when the store has no such collection, in which
    case every use of [self.collection] raises.  [distance] is the
    distance the store computes between a query text and a stored
    document under the configured embedding function.  [add_error] is
    what the store answers to the documents of a batch: [None] when it
    embeds them and takes the batch, and otherwise the exception it
    raises (the embedding fails, or the batch is over the store's
    limit). *)
Record KB : Type := {
  about_me_folder : Folder;
  collection : option (list Entry);
  distance : string -> string -> float;
  add_error : list string -> option exn
}.

Definition with_collection (kb : KB) (c : option (list Entry)) : KB :=
  {| about_me_folder := about_me_folder kb;
     collection := c;
     distance := distance kb;
     add_error := add_error kb |}.

(** ** The vector store

    The store is the chromadb library, a collaborator outside the
    repository.  Its four calls are modelled on one collection held in
    memory. *)

(** Modelled from the spec: the vector store backend's
    [delete_collection], as [client.delete_collection(name="glory_portfolio")]
    uses it; deleting a collection that does not exist raises. *)
Definition delete_collection (kb : KB) : res unit * KB :=
  match collection kb with
  | Some _ => (Ok tt, with_collection kb None)
  | None => (Raise NotFoundError, kb)
  end.

(** Modelled from the spec: the vector store backend's
    [create_collection], as [client.create_collection(name="glory_portfolio", ...)]
    uses it; the new collection is empty, and creating a collection that
    exists raises. *)
Definition create_collection (kb : KB) : res unit * KB :=
  match collection kb with
  | Some _ => (Raise ValueError, kb)
  | None => (Ok tt, with_collection kb (Some []))
  end.

Fixpoint zip3 (ids docs : list string) (metas : list Metadata) : list Entry :=
  match ids, docs, metas with
  | i :: ids', d :: docs', m :: metas' =>
      {| entry_id := i; entry_document := d; entry_metadata := m |}
      :: zip3 ids' docs' metas'
  | _, _, _ => []
  end.

Fixpoint has_duplicates (l : list string) : bool :=
  match l with
  | [] => false
  | x :: l' => existsb (String.eqb x) l' || has_duplicates l'
  end.

(** Modelled from the spec: the vector store backend's batch insertion,
    as [collection.add(documents, metadatas, ids)] uses it; the whole
    batch is inserted, or nothing is and the call raises: when the
    collection is gone, when an id occurs twice, or when the store
    cannot embed the documents or refuses the batch. *)
Definition collection_add (documents : list string) (metadatas : list Metadata)
    (ids : list string) (kb : KB) : res unit * KB :=
  match collection kb with
  | None => (Raise NotFoundError, kb)
  | Some entries =>
      if has_duplicates (map entry_id entries ++ ids)
      then (Raise ValueError, kb)
      else
        match add_error kb documents with
        | Some e => (Raise e, kb)
        | None =>
            (Ok tt,
             with_collection kb
               (Some (entries ++ zip3 ids documents metadatas)))
        end
  end.

(** Insertion of an entry by increasing distance. *)
Fixpoint insert_by (d : Entry * float) (l : list (Entry * float))
    : list (Entry * float) :=
  match l with
  | [] => [d]
  | x :: l' => if (snd d <=? snd x)%float then d :: l else x :: insert_by d l'
  end.

(** Modelled from the spec: the vector store backend's [query], as
    [collection.query(query_texts=[query], n_results=top_k)] uses it; it
    returns the [top_k] nearest entries with their distances, and a query
    that is not a string, a non-positive [top_k] or a missing collection
    raise. *)
Definition collection_query (kb : KB) (query : json) (top_k : Z)
    : res QueryResult :=
  match collection kb, query with
  | None, _ => Raise NotFoundError
  | Some entries, JStr q =>
      if top_k <=? 0 then Raise TypeError
      else
        let ranked :=
          fold_right insert_by []
            (map (fun e => (e, distance kb q (entry_document e))) entries) in
        let best := firstn (Z.to_nat top_k) ranked in
        Ok {| qr_documents := Some [map (fun x => entry_document (fst x)) best];
              qr_metadatas := Some [map (fun x => Some (entry_metadata (fst x))) best];
              qr_distances := Some (Some [map snd best]) |}
  | Some _, _ => Raise ValueError
  end.

(** [PersonalKnowledgeBase.search] on the knowledge base [kb]. *)
Definition search (kb : KB) (query : json) (top_k : Z) : list SearchResult.t :=
  Search.search (collection_query kb) query top_k.

(** ** Ingestion *)

Definition supported_extensions : list string :=
  [".txt"; ".md"; ".pdf"; ".docx"].

Definition mem (s : string) (l : list string) : bool :=
  existsb (String.eqb s) l.

(** The lists [_load_documents] fills, and its document counter. *)
Record Batch : Type := {
  documents : list string;
  metadatas : list Metadata;
  ids : list string;
  doc_count : nat
}.

Definition empty_batch : Batch :=
  {| documents := []; metadatas := []; ids := []; doc_count := 0 |}.

(** [f"{filepath.stem}_chunk_{doc_count}_{i}"] *)
Definition doc_id (filepath : Path) (doc_count i : nat) : string :=
  (stem filepath ++ "_chunk_" ++ str_of_nat doc_count ++ "_" ++ str_of_nat i)%string.

(** One iteration of [for i, chunk in enumerate(chunks)]. *)
Definition add_chunk (filepath : Path) (b : Batch) (ic : nat * string) : Batch :=
  let (i, chunk) := ic in
  {| documents := documents b ++ [chunk];
     metadatas := metadatas b ++
       [[("source", MStr (name filepath));
         ("chunk_index", MInt (Z.of_nat i));
         ("file_type", MStr (suffix filepath))]];
     ids := ids b ++ [doc_id filepath (doc_count b) i];
     doc_count := doc_count b |}.

Definition enumerate {A} (l : list A) : list (nat * A) :=
  combine (seq 0 (List.length l)) l.

(** One iteration of [for filepath in self.about_me_folder.rglob('*')]. *)
Definition load_file (folder : Folder) (b : Batch) (filepath : Path)
    : res Batch :=
  if is_file filepath && mem (lower (suffix filepath)) supported_extensions
  then
    let content :=
      if String.eqb (lower (suffix filepath)) ".pdf"
      then _read_pdf folder filepath
      else if String.eqb (lower (suffix filepath)) ".docx"
      then _read_docx folder filepath
      else _read_text_file folder filepath in
    if negb (nonempty (strip content)) then Ok b
    else
      chunks <- _chunk_text_default content ;;
      let b' := fold_left (add_chunk filepath) (enumerate chunks) b in
      Ok {| documents := documents b'; metadatas := metadatas b';
            ids := ids b'; doc_count := S (doc_count b') |}
  else Ok b.

(** The scan of the folder: the loop over all paths. *)
Fixpoint load_files (folder : Folder) (b : Batch) (paths : list Path)
    : res Batch :=
  match paths with
  | [] => Ok b
  | p :: paths' => b' <- load_file folder b p ;; load_files folder b' paths'
  end.

Definition scan (folder : Folder) : res Batch :=
  load_files folder empty_batch (rglob folder).

(** [PersonalKnowledgeBase._load_documents()] *)
Definition _load_documents (kb : KB) : res unit * KB :=
  match scan (about_me_folder kb) with
  | Raise e => (Raise e, kb)
  | Ok b =>
      match documents b with
      | _ :: _ => collection_add (documents b) (metadatas b) (ids b) kb
      | [] => (Ok tt, kb)
      end
  end.

(** ** Refresh *)

(** [PersonalKnowledgeBase.refresh_knowledge_base()] *)
Definition refresh_knowledge_base (kb : KB) : res unit * KB :=
  let kb1 := snd (delete_collection kb) in
  match create_collection kb1 with
  | (Raise e, kb2) => (Raise e, kb2)
  | (Ok _, kb2) => _load_documents kb2
  end.

(** The same method, one call to the vector store at a time.  A program
    point names the statement to run next. *)
Inductive pc : Type :=
| AtDelete
| AtCreate
| AtLoad
| Returned
| Raised (e : exn).

Definition refresh_step (s : pc * KB) : pc * KB :=
  match s with
  | (AtDelete, kb) => (AtCreate, snd (delete_collection kb))
  | (AtCreate, kb) =>
      match create_collection kb with
      | (Ok _, kb') => (AtLoad, kb')
      | (Raise e, kb') => (Raised e, kb')
      end
  | (AtLoad, kb) =>
      match _load_documents kb with
      | (Ok _, kb') => (Returned, kb')
      | (Raise e, kb') => (Raised e, kb')
      end
  | (Returned, kb) => (Returned, kb)
  | (Raised e, kb) => (Raised e, kb)
  end.

(** The states a refresh started on [kb] goes through: before each of
    its three steps, and after the last. *)
Definition refresh_states (kb : KB) : list (pc * KB) :=
  let s0 := (AtDelete, kb) in
  let s1 := refresh_step s0 in
  let s2 := refresh_step s1 in
  let s3 := refresh_step s2 in
  [s0; s1; s2; s3].

End KnowledgeBase.

(* ===================================================================== *)
(** * PortfolioChatBot *)
(* ===================================================================== *)

Module ChatBot.

(** [Message]: a stored chat message.  The content of an assistant
    message is what the model returned, which may be [None]. *)
Record Message : Type := {
  role : string;
  content : option string;
  timestamp : string
}.

(** A tool call of a model response. *)
Record ToolCall : Type := {
  tc_id : string;
  tc_name : string;
  tc_arguments : string
}.

(** [response.choices[i].message] *)
Record AssistantMessage : Type := {
  am_content : option string;
  am_tool_calls : option (list ToolCall)
}.

Record ChatCompletion : Type := {
  choices : list AssistantMessage
}.

(** The tool call echoed in the round-2 context. *)
Record ToolCallDict : Type := {
  tcd_id : string;
  tcd_type : string;
  tcd_name : string;
  tcd_arguments : string
}.

(** One [dict] of the [messages] list sent to the model service. *)
Record ApiMessage : Type := {
  m_role : string;
  m_content : option string;
  m_tool_calls : option (list ToolCallDict);
  m_tool_call_id : option string
}.

(** The keyword arguments of [client.chat.completions.create]. *)
Record Request : Type := {
  req_model : string;
  req_messages : list ApiMessage;
  req_tools : option json;
  req_tool_choice : option string;
  req_temperature : float;
  req_max_tokens : Z
}.

Record Bot : Type := {
  model : string;
  max_tokens : Z;
  system_prompt : string;
  conversation_history : list Message
}.

(** [PortfolioChatBot._get_tools()] *)
Definition _get_tools : json :=
  JList [
    JDict [
      ("type", JStr "function");
      ("function", JDict [
        ("name", JStr "search_knowledge_base");
        ("description", JStr "Search Glory's personal knowledge base for information about their experience, skills, projects, education, interests, and background");
        ("parameters", JDict [
          ("type", JStr "object");
          ("properties", JDict [
            ("query", JDict [
              ("type", JStr "string");
              ("description", JStr "The search query to find relevant information about Glory")])]);
          ("required", JList [JStr "query"])])])]].

Section WithServices.

(** The state of the outside world: the model service and the clock. *)
Variable World : Type.

(** [self.client.chat.completions.create] applied to a request *)
Variable completions_create : Request -> World -> res ChatCompletion * World.

(** [datetime.now().isoformat()] *)
Variable now_isoformat : World -> string * World.

(** [json.loads] and [json.dumps] *)
Variable json_loads : string -> res json.
Variable json_dumps : json -> string.

(** [self.knowledge_base.collection.query] *)
Variable collection_query : json -> Z -> res QueryResult.

(** [f"[From {r['source']}]\n{r['content']}"] *)
Definition format_context (r : SearchResult.t) : string :=
  ("[From " ++ str_of_metaval (SearchResult.source r) ++ "]"
   ++ String (ascii_of_nat 10) "" ++ SearchResult.content r)%string.

Definition newline2 : string :=
  String (ascii_of_nat 10) (String (ascii_of_nat 10) "").

(** [PortfolioChatBot._execute_function(function_name, arguments)] *)
Definition _execute_function (function_name : string) (arguments : json)
    : res json :=
  if String.eqb function_name "search_knowledge_base"
  then
    query <- getitem arguments "query" ;;
    let results := Search.search collection_query query 3 in
    match results with
    | _ :: _ =>
        let context := join newline2 (map format_context results) in
        Ok (JDict [
          ("success", JBool true);
          ("context", JStr context);
          ("sources", JList (map (fun r => json_of_metaval (SearchResult.source r)) results));
          ("num_results", JInt (Z.of_nat (List.length results)))])
    | [] =>
        Ok (JDict [
          ("success", JBool false);
          ("message", JStr "No relevant information found in knowledge base")])
    end
  else Ok (JDict [("error", JStr ("Unknown function: " ++ function_name)%string)]).

(** ** The state a call of [chat] runs in *)

(** The bot, the world, and the requests the model service has received
    so far, oldest first. *)
Record St : Type := {
  bot : Bot;
  world : World;
  sent : list Request
}.

(** A computation that reads and writes the state and may raise; what it
    wrote before raising stays written. *)
Definition M (A : Type) : Type := St -> res A * St.

Definition ret {A} (a : A) : M A := fun st => (Ok a, st).

Definition mbind {A B} (m : M A) (k : A -> M B) : M B :=
  fun st =>
    match m st with
    | (Ok a, st') => k a st'
    | (Raise e, st') => (Raise e, st')
    end.

Definition lift {A} (r : res A) : M A := fun st => (r, st).

Notation "x <~ m ;; k" := (mbind m (fun x => k))
  (at level 61, m at next level, right associativity).

(** [Message(role=..., content=...)]: [__post_init__] reads the clock. *)
Definition new_message (r : string) (c : option string) : M Message :=
  fun st =>
    let (t, w) := now_isoformat (world st) in
    (Ok {| role := r; content := c; timestamp := t |},
     {| bot := bot st; world := w; sent := sent st |}).

(** [self.conversation_history.append(msg)] *)
Definition append_history (msg : Message) : M unit :=
  fun st =>
    let b := bot st in
    (Ok tt,
     {| bot := {| model := model b; max_tokens := max_tokens b;
                  system_prompt := system_prompt b;
                  conversation_history := conversation_history b ++ [msg] |};
        world := world st; sent := sent st |}).

Definition get_bot : M Bot := fun st => (Ok (bot st), st).

(** A call of the model service; the service has then received [req],
    as it was when the call was made. *)
Definition create (req : Request) : M ChatCompletion :=
  fun st =>
    let (r, w) := completions_create req (world st) in
    (r, {| bot := bot st; world := w; sent := sent st ++ [req] |}).

(** [{"role": msg.role, "content": msg.content}] *)
Definition api_of_message (msg : Message) : ApiMessage :=
  {| m_role := role msg; m_content := content msg;
     m_tool_calls := None; m_tool_call_id := None |}.

(** The [messages] list built before round 1: the system prompt, then
    [self.conversation_history[-10:]]. *)
Definition context_of (b : Bot) : list ApiMessage :=
  {| m_role := "system"; m_content := Some (system_prompt b);
     m_tool_calls := None; m_tool_call_id := None |}
  :: map api_of_message (last_n 10 (conversation_history b)).

(** The two messages added to [messages] after a tool call. *)
Definition tool_messages (assistant_message : AssistantMessage)
    (tool_call : ToolCall) (function_args function_result : json)
    : list ApiMessage :=
  [ {| m_role := "assistant";
       m_content := am_content assistant_message;
       m_tool_calls := Some [ {| tcd_id := tc_id tool_call;
                                 tcd_type := "function";
                                 tcd_name := tc_name tool_call;
                                 tcd_arguments := json_dumps function_args |} ];
       m_tool_call_id := None |};
    {| m_role := "tool";
       m_content := Some (json_dumps function_result);
       m_tool_calls := None;
       m_tool_call_id := Some (tc_id tool_call) |} ].

(** The branch of [chat] taken when the response carries tool calls. *)
Definition tool_round (b : Bot) (messages : list ApiMessage)
    (assistant_message : AssistantMessage) (tool_call : ToolCall)
    : M (option string) :=
  function_args <~ lift (json_loads (tc_arguments tool_call)) ;;
  function_result <~ lift (_execute_function (tc_name tool_call) function_args) ;;
  let messages' :=
    messages ++ tool_messages assistant_message tool_call
                              function_args function_result in
  final_response <~ create {| req_model := model b;
                              req_messages := messages';
                              req_tools := None;
                              req_tool_choice := None;
                              req_temperature := 0.7%float;
                              req_max_tokens := max_tokens b |} ;;
  final_message <~ lift (index (choices final_response) 0) ;;
  ret (am_content final_message).

(** [PortfolioChatBot.chat(user_message)] *)
Definition chat (user_message : string) : M (option string) :=
  user <~ new_message "user" (Some user_message) ;;
  _ <~ append_history user ;;
  b <~ get_bot ;;
  let messages := context_of b in
  response <~ create {| req_model := model b;
                        req_messages := messages;
                        req_tools := Some _get_tools;
                        req_tool_choice := Some "auto";
                        req_temperature := 0.7%float;
                        req_max_tokens := max_tokens b |} ;;
  assistant_message <~ lift (index (choices response) 0) ;;
  final_content <~
    match am_tool_calls assistant_message with
    | Some (tool_call :: _) =>
        tool_round b messages assistant_message tool_call
    | _ => ret (am_content assistant_message)
    end ;;
  reply <~ new_message "assistant" final_content ;;
  _ <~ append_history reply ;;
  ret final_content.

(** [PortfolioChatBot.reset_conversation()] *)
Definition reset_conversation : M unit :=
  fun st =>
    let b := bot st in
    (Ok tt,
     {| bot := {| model := model b; max_tokens := max_tokens b;
                  system_prompt := system_prompt b;
                  conversation_history := [] |};
        world := world st; sent := sent st |}).

End WithServices.

Arguments bot {World} _.
Arguments world {World} _.
Arguments sent {World} _.
Arguments Build_St {World} _ _ _.

End ChatBot.

(* ===================================================================== *)
(** * PersonalKnowledgeBase: construction *)
(* ===================================================================== *)

Module Startup.

Import KnowledgeBase.

(** The three calls [__init__] makes before its [try], each with what it
    gives on the machine the program runs on:
    [self.about_me_folder.mkdir(exist_ok=True)],
    [chromadb.PersistentClient(path="./chroma_db")] and
    [embedding_functions.SentenceTransformerEmbeddingFunction(...)].
    Each may raise, and nothing catches it. *)
Record Setup : Type := {
  mkdir : res unit;
  PersistentClient : res unit;
  SentenceTransformerEmbeddingFunction : res unit
}.

(** Modelled from the spec: the vector store backend's lookup of a
    collection by name, as [client.get_collection(name="glory_portfolio", ...)]
    uses it; it raises when there is no such collection. *)
Definition get_collection (kb : KB) : res unit :=
  match collection kb with
  | Some _ => Ok tt
  | None => Raise NotFoundError
  end.

(** [PersonalKnowledgeBase.__init__(about_me_folder)], on the folder and
    the store it finds.  The folder, the client and the embedding
    function come first, outside the [try].  Then an existing collection
    is taken as it is, and only when there is none is one created and
    the folder loaded; what [create_collection] or [_load_documents]
    raise in the [except] branch leaves [__init__]. *)
Definition __init__ (env : Setup) (kb : KB) : res unit * KB :=
  match mkdir env with
  | Raise e => (Raise e, kb)
  | Ok _ =>
      match PersistentClient env with
      | Raise e => (Raise e, kb)
      | Ok _ =>
          match SentenceTransformerEmbeddingFunction env with
          | Raise e => (Raise e, kb)
          | Ok _ =>
              match get_collection kb with
              | Ok _ => (Ok tt, kb)
              | Raise _ =>
                  match create_collection kb with
                  | (Raise e, kb') => (Raise e, kb')
                  | (Ok _, kb') => _load_documents kb'
                  end
              end
          end
      end
  end.

End Startup.

(* ===================================================================== *)
(** * The HTTP server of [api_server.py] *)
(* ===================================================================== *)

Module Server.

Import ChatBot.

(** What an endpoint gives back: its return value, or the
    [HTTPException] it raises. *)
Inductive http (A : Type) : Type :=
| Returns (a : A)
| HTTPException (status_code : Z) (detail : string).
Arguments Returns {A} a.
Arguments HTTPException {A} status_code detail.

Record ChatRequest : Type := {
  message : string;
  session_id : option string
}.

Record ChatResponse : Type := {
  response : string;
  response_session_id : string;
  response_timestamp : string
}.

(** ** The dictionary [chat_sessions]

    A [dict] keeps its keys in insertion order, and an assignment to a
    key that is there replaces its value in place. *)

Fixpoint dict_get {A} (key : string) (d : list (string * A)) : option A :=
  match d with
  | [] => None
  | (k, v) :: d' => if String.eqb k key then Some v else dict_get key d'
  end.

Fixpoint dict_set {A} (key : string) (v : A) (d : list (string * A))
    : list (string * A) :=
  match d with
  | [] => [(key, v)]
  | (k, v') :: d' =>
      if String.eqb k key then (key, v) :: d' else (k, v') :: dict_set key v d'
  end.

Section WithServices.

Variable World : Type.
Variable completions_create : Request -> World -> res ChatCompletion * World.
Variable now_isoformat : World -> string * World.
Variable json_loads : string -> res json.
Variable json_dumps : json -> string.
Variable collection_query : json -> Z -> res QueryResult.

(** [datetime.now().timestamp()], as an f-string writes it. *)
Variable now_timestamp : World -> string * World.

(** [PersonalKnowledgeBase(about_me_folder)], which may raise. *)
Variable knowledge_base_init : World -> res unit * World.

(** The text [PortfolioChatBot.__init__] assigns to [self.system_prompt]. *)
Variable the_system_prompt : string.

(** [str(e)] for an exception [e]. *)
Variable str_of_exn : exn -> string.

(** The server: the sessions, the world, and the requests the model
    service has received. *)
Record Srv : Type := {
  chat_sessions : list (string * Bot);
  srv_world : World;
  srv_sent : list Request
}.

(** [PortfolioChatBot(api_key, base_url, about_me_folder)], with the
    defaults of [model] and [max_tokens]. *)
Definition new_bot (w : World) : res Bot * World :=
  match knowledge_base_init w with
  | (Ok _, w') =>
      (Ok {| model := "deepseek/deepseek-chat";
             max_tokens := 700;
             system_prompt := the_system_prompt;
             conversation_history := [] |}, w')
  | (Raise e, w') => (Raise e, w')
  end.

(** The branch of [get_or_create_session] that makes a session. *)
Definition create_session (s : Srv) : res (string * Bot) * Srv :=
  let (ts, w1) := now_timestamp (srv_world s) in
  let new_session_id :=
    ("session_" ++ ts ++ "_"
     ++ str_of_nat (List.length (chat_sessions s)))%string in
  match new_bot w1 with
  | (Raise e, w2) =>
      (Raise e, {| chat_sessions := chat_sessions s;
                   srv_world := w2; srv_sent := srv_sent s |})
  | (Ok b, w2) =>
      (Ok (new_session_id, b),
       {| chat_sessions := dict_set new_session_id b (chat_sessions s);
          srv_world := w2; srv_sent := srv_sent s |})
  end.

(** [get_or_create_session(session_id)] *)
Definition get_or_create_session (sid : option string) (s : Srv)
    : res (string * Bot) * Srv :=
  match sid with
  | Some id =>
      if nonempty id
      then match dict_get id (chat_sessions s) with
           | Some b => (Ok (id, b), s)
           | None => create_session s
           end
      else create_session s
  | None => create_session s
  end.

(** The endpoint [POST /chat].  The bot is an object the dictionary
    refers to, so what [bot.chat] does to it is seen under its key.
    [ChatResponse] wants a [str]: once its arguments are evaluated, the
    clock read among them, a [None] answer fails its validation with a
    [ValueError], inside the [try] like any other exception. *)
Definition chat (request : ChatRequest) (s : Srv) : http ChatResponse * Srv :=
  match get_or_create_session (session_id request) s with
  | (Raise e, s1) => (HTTPException 500 (str_of_exn e), s1)
  | (Ok (id, b), s1) =>
      let (r, st) :=
        ChatBot.chat World completions_create now_isoformat json_loads
          json_dumps collection_query (message request)
          {| bot := b; world := srv_world s1; sent := srv_sent s1 |} in
      let sessions := dict_set id (bot st) (chat_sessions s1) in
      match r with
      | Raise e =>
          (HTTPException 500 (str_of_exn e),
           {| chat_sessions := sessions;
              srv_world := world st; srv_sent := sent st |})
      | Ok answer =>
          let (t, w) := now_isoformat (world st) in
          (match answer with
           | Some text =>
               Returns {| response := text; response_session_id := id;
                          response_timestamp := t |}
           | None => HTTPException 500 (str_of_exn ValueError)
           end,
           {| chat_sessions := sessions;
              srv_world := w; srv_sent := sent st |})
      end
  end.

(** [bot.reset_conversation()] on a bot of the dictionary. *)
Definition reset_bot (b : Bot) (s : Srv) : Bot :=
  bot (snd (reset_conversation World
              {| bot := b; world := srv_world s; sent := srv_sent s |})).

(** The endpoint [POST /reset]. *)
Definition reset_session (id : string) (s : Srv) : http json * Srv :=
  match dict_get id (chat_sessions s) with
  | Some b =>
      (Returns (JDict [("status", JStr "success");
                       ("message",
                        JStr ("Session " ++ id ++ " has been reset")%string)]),
       {| chat_sessions := dict_set id (reset_bot b s) (chat_sessions s);
          srv_world := srv_world s; srv_sent := srv_sent s |})
  | None => (HTTPException 404 "Session not found", s)
  end.

(** The endpoint [GET /sessions]. *)
Definition get_sessions (s : Srv) : json :=
  JDict [("active_sessions", JInt (Z.of_nat (List.length (chat_sessions s))));
         ("session_ids", JList (map (fun kv => JStr (fst kv)) (chat_sessions s)))].

(** A call of one of the endpoints that touch the sessions. *)
Inductive call : Type :=
| PostChat (request : ChatRequest)
| PostReset (id : string).

Definition handle (c : call) (s : Srv) : Srv :=
  match c with
  | PostChat request => snd (chat request s)
  | PostReset id => snd (reset_session id s)
  end.

End WithServices.

Arguments chat_sessions {World} _.
Arguments srv_world {World} _.
Arguments srv_sent {World} _.
Arguments Build_Srv {World} _ _ _.

(** ** The life of the server

    The endpoints run one at a time, none of them awaits.  The server
    starts without sessions.  The knowledge base is not held in the
    dictionary: [POST /refresh_knowledge] may have rebuilt the index
    between two calls, so each call of [POST /chat] comes with the
    backend of its moment.  [GET /], [GET /health], [GET /sessions] and
    [POST /refresh_knowledge] assign nothing to the dictionary and to no
    history; they may read the clock. *)
Section Lifetime.

Variable World : Type.
Variable completions_create : Request -> World -> res ChatCompletion * World.
Variable now_isoformat : World -> string * World.
Variable json_loads : string -> res json.
Variable json_dumps : json -> string.
Variable now_timestamp : World -> string * World.
Variable knowledge_base_init : World -> res unit * World.
Variable the_system_prompt : string.
Variable str_of_exn : exn -> string.

Inductive reachable : Srv World -> Prop :=
| reachable_start (w : World) :
    reachable {| chat_sessions := []; srv_world := w; srv_sent := [] |}
| reachable_handle (collection_query : json -> Z -> res QueryResult)
    (c : call) (s : Srv World) :
    reachable s ->
    reachable (handle World completions_create now_isoformat json_loads
                 json_dumps collection_query now_timestamp
                 knowledge_base_init the_system_prompt str_of_exn c s)
| reachable_other (w : World) (s : Srv World) :
    reachable s ->
    reachable {| chat_sessions := chat_sessions s; srv_world := w;
                 srv_sent := srv_sent s |}.

End Lifetime.

End Server.

(* ===================================================================== *)
(** * A sample folder, store and model service *)
(* ===================================================================== *)

Module Sample.

Import KnowledgeBase.

(** Two files with the stem [notes], a directory, a file with only
    whitespace, and a file of an unsupported type. *)
Definition folder : Folder :=
  {| rglob :=
       [ {| stem := "resume"; suffix := ".txt"; is_file := true |};
         {| stem := "notes"; suffix := ".md"; is_file := true |};
         {| stem := "archive"; suffix := ""; is_file := false |};
         {| stem := "notes"; suffix := ".TXT"; is_file := true |};
         {| stem := "blank"; suffix := ".txt"; is_file := true |};
         {| stem := "photo"; suffix := ".png"; is_file := true |} ];
     _read_text_file := fun p =>
       if String.eqb (stem p) "resume" then "Python Go Rust"
       else if String.eqb (stem p) "notes" then "likes hiking"
       else "   ";
     _read_pdf := fun _ => "";
     _read_docx := fun _ => "" |}.

Definition old_entry : Entry :=
  {| entry_id := "cv_chunk_0_0";
     entry_document := "Old resume text";
     entry_metadata := [("source", MStr "cv.txt"); ("chunk_index", MInt 0);
                        ("file_type", MStr ".txt")] |}.

(** A knowledge base whose index holds one entry of an earlier build. *)
Definition kb : KB :=
  {| about_me_folder := folder;
     collection := Some [old_entry];
     distance := fun _ _ => 0.25%float;
     add_error := fun _ => None |}.

(** The same store under a metric that is not normalised to [0, 1]. *)
Definition far_kb : KB :=
  {| about_me_folder := folder;
     collection := Some [old_entry];
     distance := fun _ _ => 1.5%float;
     add_error := fun _ => None |}.

(** A backend that answers without the [distances] key. *)
Definition no_distances_query (query : json) (top_k : Z) : res QueryResult :=
  Ok {| qr_documents := Some [["Old resume text"]];
        qr_metadatas := Some [[Some [("source", MStr "cv.txt")]]];
        qr_distances := None |}.

(** A scripted model service and a counting clock: the world is the
    replies still to give and the number of clock readings so far. *)
Definition World : Type := list ChatBot.ChatCompletion * nat.

Definition completions_create (req : ChatBot.Request) (w : World)
    : res ChatBot.ChatCompletion * World :=
  match fst w with
  | reply :: replies => (Ok reply, (replies, snd w))
  | [] => (Raise (ServiceError "no reply"), w)
  end.

Definition now_isoformat (w : World) : string * World :=
  (str_of_nat (snd w), (fst w, S (snd w))).

(** A stand-in for the JSON codec: the arguments text is read as the
    query itself, and every document is written as the same text. *)
Definition json_loads (s : string) : res json :=
  Ok (JDict [("query", JStr s)]).

Definition json_dumps (v : json) : string := "<json>".

Definition bot : ChatBot.Bot :=
  {| ChatBot.model := "deepseek/deepseek-chat";
     ChatBot.max_tokens := 700;
     ChatBot.system_prompt := "You are Glory's AI Personal Assistant";
     ChatBot.conversation_history := [] |}.

(** The model answers directly. *)
Definition direct_reply : ChatBot.ChatCompletion :=
  {| ChatBot.choices :=
       [ {| ChatBot.am_content := Some "Hi there!";
            ChatBot.am_tool_calls := None |} ] |}.

(** The model asks for a search, then answers. *)
Definition tool_reply : ChatBot.ChatCompletion :=
  {| ChatBot.choices :=
       [ {| ChatBot.am_content := None;
            ChatBot.am_tool_calls :=
              Some [ {| ChatBot.tc_id := "call_1";
                        ChatBot.tc_name := "search_knowledge_base";
                        ChatBot.tc_arguments := "skills" |} ] |} ] |}.

Definition final_reply : ChatBot.ChatCompletion :=
  {| ChatBot.choices :=
       [ {| ChatBot.am_content := Some "Glory is skilled in Python and Go.";
            ChatBot.am_tool_calls := None |} ] |}.

Definition chat (user_message : string)
    : ChatBot.M World (option string) :=
  ChatBot.chat World completions_create now_isoformat json_loads json_dumps
               (collection_query kb) user_message.

Definition start (replies : list ChatBot.ChatCompletion) : ChatBot.St World :=
  {| ChatBot.bot := bot; ChatBot.world := (replies, 0%nat);
     ChatBot.sent := [] |}.

End Sample.

(* ===================================================================== *)
(** * Properties of the chunker *)
(* ===================================================================== *)

Import Chunker.

(** ** Words and whitespace *)

(** Some character of [s] is not whitespace. *)
Fixpoint has_word_char (s : string) : bool :=
  match s with
  | EmptyString => false
  | String c s' => negb (isspace c) || has_word_char s'
  end.

(** No character of [s] is whitespace. *)
Fixpoint no_space (s : string) : bool :=
  match s with
  | EmptyString => true
  | String c s' => negb (isspace c) && no_space s'
  end.

(** What [split] promises of each word. *)
Definition is_word (w : string) : Prop :=
  nonempty w = true /\ no_space w = true.

Lemma no_space_app a b :
  no_space (a ++ b)%string = no_space a && no_space b.
Proof.
  induction a as [|c a IH]; simpl; [reflexivity|].
  rewrite IH. now rewrite andb_assoc.
Qed.

Lemma nonempty_app_char a c : nonempty (a ++ String c "")%string = true.
Proof. destruct a; reflexivity. Qed.

Lemma split_from_words s : forall cur,
  no_space cur = true -> Forall is_word (split_from cur s).
Proof.
  induction s as [|c s IH]; intros cur Hcur; simpl.
  - destruct (nonempty cur) eqn:E; repeat constructor; assumption.
  - destruct (isspace c) eqn:Ec.
    + destruct (nonempty cur) eqn:E.
      * constructor; [split; assumption | apply IH; reflexivity].
      * apply IH; reflexivity.
    + apply IH. rewrite no_space_app, Hcur. simpl. now rewrite Ec.
Qed.

Lemma split_words s : Forall is_word (split s).
Proof. apply split_from_words. reflexivity. Qed.

Lemma word_has_word_char w : is_word w -> has_word_char w = true.
Proof.
  intros [Hne Hns]. destruct w as [|c w]; [discriminate|].
  simpl in *. apply andb_true_iff in Hns as [-> _]. reflexivity.
Qed.

Lemma has_word_char_app a b :
  has_word_char (a ++ b)%string = has_word_char a || has_word_char b.
Proof.
  induction a as [|c a IH]; simpl; [reflexivity|].
  rewrite IH. now rewrite orb_assoc.
Qed.

Lemma join_has_word_char sep w ws :
  is_word w -> has_word_char (join sep (w :: ws)) = true.
Proof.
  intros Hw. apply word_has_word_char in Hw.
  unfold join. destruct ws as [|w' ws]; simpl; [assumption|].
  rewrite has_word_char_app, Hw. reflexivity.
Qed.

Lemma lstrip_has_word_char s : has_word_char (lstrip s) = has_word_char s.
Proof.
  induction s as [|c s IH]; simpl; [reflexivity|].
  destruct (isspace c) eqn:E; simpl; [assumption | now rewrite E].
Qed.

Lemma rstrip_nonempty s : has_word_char s = true -> nonempty (rstrip s) = true.
Proof.
  induction s as [|c s IH]; simpl; [discriminate|].
  intros H. destruct (rstrip s) eqn:E; [|reflexivity].
  destruct (isspace c); [|reflexivity].
  simpl in H. specialize (IH H). discriminate.
Qed.

Lemma strip_nonempty s : has_word_char s = true -> nonempty (strip s) = true.
Proof.
  intros H. unfold strip. apply rstrip_nonempty.
  now rewrite lstrip_has_word_char.
Qed.

(** ** The loop as a filter *)

Definition chunk_at (words : list string) (chunk_size i : Z) : string :=
  join " " (slice words i (i + chunk_size)).

Lemma chunk_fold words chunk_size idx : forall chunks,
  fold_left (chunk_step words chunk_size) idx chunks
  = chunks ++ filter (fun c => nonempty (strip c))
                     (map (chunk_at words chunk_size) idx).
Proof.
  induction idx as [|i idx IH]; intros chunks; simpl.
  - now rewrite app_nil_r.
  - rewrite IH. unfold chunk_step, chunk_at.
    destruct (nonempty (strip _)); [now rewrite <- app_assoc | reflexivity].
Qed.

Lemma filter_all {A} (f : A -> bool) l :
  Forall (fun x => f x = true) l -> filter f l = l.
Proof.
  induction 1 as [|x l Hx _ IH]; simpl; [reflexivity|].
  now rewrite Hx, IH.
Qed.

(** ** Slices that start inside the list *)

Lemma slice_inside {A} (l : list A) i n :
  0 <= i < Z.of_nat (List.length l) -> 0 < n ->
  slice l i (i + n) <> [].
Proof.
  intros Hi Hn. unfold slice, slice_bound.
  destruct (Z.ltb_spec i 0); [lia|].
  destruct (Z.ltb_spec (i + n) 0); [lia|].
  rewrite (Z.min_l i) by lia.
  remember (skipn (Z.to_nat i) l) as rest eqn:Hrest.
  assert (Hlen : List.length rest = (List.length l - Z.to_nat i)%nat)
    by (subst; apply length_skipn).
  destruct rest as [|x rest]; [simpl in Hlen; lia|].
  destruct (Z.to_nat (Z.min (i + n) (Z.of_nat (List.length l)) - i)) eqn:E;
    [lia | discriminate].
Qed.

Lemma slice_In {A} (l : list A) a b x : In x (slice l a b) -> In x l.
Proof.
  unfold slice. intros H.
  rewrite <- (firstn_skipn (Z.to_nat (slice_bound (Z.of_nat (List.length l)) a)) l).
  apply in_or_app. right.
  remember (skipn _ l) as rest. clear Heqrest.
  rewrite <- (firstn_skipn (Z.to_nat (slice_bound (Z.of_nat (List.length l)) b
                                      - slice_bound (Z.of_nat (List.length l)) a)) rest).
  apply in_or_app. now left.
Qed.

(** ** Ranges *)

Lemma range_positive hi step :
  0 < step ->
  range 0 hi step
  = Ok (map (fun k => Z.of_nat k * step)
            (seq 0 (Z.to_nat (if 0 <? hi then (hi - 1) / step + 1 else 0)))).
Proof.
  intros Hs. unfold range, range_length.
  destruct (Z.eqb_spec step 0); [lia|].
  destruct (Z.ltb_spec 0 step); [|lia].
  now replace (hi - 0 - 1) with (hi - 1) by lia.
Qed.

Lemma range_negative hi step :
  0 <= hi -> step < 0 -> range 0 hi step = Ok [].
Proof.
  intros Hh Hs. unfold range, range_length.
  destruct (Z.eqb_spec step 0); [lia|].
  destruct (Z.ltb_spec 0 step); [lia|].
  destruct (Z.ltb_spec hi 0); [lia|]. reflexivity.
Qed.

Lemma range_zero lo hi : range lo hi 0 = Raise ValueError.
Proof. reflexivity. Qed.

(** Every index of [range(0, hi, step)] lies below [hi]. *)
Lemma range_indices_inside hi step k :
  0 < step ->
  Z.of_nat k < Z.of_nat (Z.to_nat (if 0 <? hi then (hi - 1) / step + 1 else 0)) ->
  0 <= Z.of_nat k * step < hi.
Proof.
  intros Hs Hk. destruct (Z.ltb_spec 0 hi); [|simpl in Hk; lia].
  assert (0 <= (hi - 1) / step) by (apply Z.div_pos; lia).
  assert (Z.of_nat k <= (hi - 1) / step) by lia.
  assert (step * ((hi - 1) / step) <= hi - 1) by (apply Z.mul_div_le; lia).
  nia.
Qed.

(** ** The chunks of a text *)

(** With a positive step every index yields a chunk, so the number of
    chunks is the number of indices. *)
Lemma chunk_text_positive text chunk_size overlap :
  0 < chunk_size - overlap -> 0 < chunk_size ->
  let W := Z.of_nat (List.length (split text)) in
  _chunk_text text chunk_size overlap
  = Ok (map (chunk_at (split text) chunk_size)
            (map (fun k => Z.of_nat k * (chunk_size - overlap))
                 (seq 0 (Z.to_nat (if 0 <? W
                                   then (W - 1) / (chunk_size - overlap) + 1
                                   else 0))))).
Proof.
  intros Hstep Hsize W. unfold _chunk_text.
  rewrite range_positive by assumption. simpl. f_equal.
  rewrite chunk_fold. simpl. apply filter_all.
  apply Forall_forall. intros c Hc.
  apply in_map_iff in Hc as [i [<- Hi]].
  apply in_map_iff in Hi as [k [<- Hk]].
  apply in_seq in Hk. fold W in Hk.
  assert (Hin : 0 <= Z.of_nat k * (chunk_size - overlap) < W)
    by (apply range_indices_inside; [assumption | lia]).
  apply strip_nonempty. unfold chunk_at.
  pose proof (slice_inside (split text) _ chunk_size Hin Hsize) as Hne.
  remember (slice (split text) _ _) as ws eqn:Hws.
  destruct ws as [|w ws]; [contradiction|].
  apply join_has_word_char.
  assert (Hall : Forall is_word (w :: ws)).
  { rewrite Hws. apply Forall_forall. intros x Hx.
    apply slice_In in Hx.
    eapply Forall_forall; [apply split_words | exact Hx]. }
  now inversion Hall.
Qed.

(** [ceil(a / b)] for a positive [b]. *)
Definition ceil_div (a b : Z) : Z := (a + b - 1) / b.

Lemma ceil_div_spec a b : 0 < b -> b * (ceil_div a b - 1) < a <= b * ceil_div a b.
Proof.
  intros Hb. unfold ceil_div.
  pose proof (Z.div_mod (a + b - 1) b ltac:(lia)) as Hdm.
  pose proof (Z.mod_pos_bound (a + b - 1) b Hb) as Hm.
  nia.
Qed.

(** C3. With the defaults [chunk_size=500] and [overlap=50], a text of
    [W] whitespace-separated words is cut into exactly [ceil(W / 450)]
    chunks, that is, the one [n] with [450 (n - 1) < W <= 450 n]; so a
    text without words (empty, or whitespace only) yields no chunk. *)
Theorem chunk_count_default (text : string) :
  let W := Z.of_nat (List.length (split text)) in
  exists chunks,
    _chunk_text_default text = Ok chunks /\
    Z.of_nat (List.length chunks) = ceil_div W 450 /\
    450 * (Z.of_nat (List.length chunks) - 1) < W
      <= 450 * Z.of_nat (List.length chunks) /\
    (W = 0 -> chunks = []).
Proof.
  intros W. unfold _chunk_text_default.
  rewrite chunk_text_positive by lia. fold W.
  eexists. split; [reflexivity|].
  rewrite !length_map, length_seq.
  assert (Hn : Z.of_nat (Z.to_nat (if 0 <? W then (W - 1) / (500 - 50) + 1 else 0))
               = ceil_div W 450).
  { unfold ceil_div. change (500 - 50) with 450.
    destruct (Z.ltb_spec 0 W).
    - replace (W + 450 - 1) with (W - 1 + 1 * 450) by lia.
      rewrite Z.div_add by lia.
      assert (0 <= (W - 1) / 450) by (apply Z.div_pos; lia). lia.
    - assert (W = 0) by lia. subst W. rewrite H0. reflexivity. }
  split; [exact Hn|]. split.
  - rewrite Hn. apply ceil_div_spec. lia.
  - intros H0. rewrite H0. reflexivity.
Qed.

(** C2, as the code has it.  When [overlap >= chunk_size] the chunker
    does not loop: an equal overlap makes the step zero and the call is
    rejected with [ValueError], a larger overlap makes the step negative
    and the call returns no chunk. *)
Theorem chunk_text_nonpositive_step (text : string) (chunk_size overlap : Z) :
  overlap >= chunk_size ->
  (overlap = chunk_size /\
   _chunk_text text chunk_size overlap = Raise ValueError)
  \/ (overlap > chunk_size /\
      _chunk_text text chunk_size overlap = Ok []).
Proof.
  intros H. unfold _chunk_text.
  destruct (Z.eq_dec overlap chunk_size) as [->|Hne].
  - left. split; [reflexivity|]. now rewrite Z.sub_diag, range_zero.
  - right. split; [lia|]. rewrite range_negative by lia. reflexivity.
Qed.

Lemma chunk_text_nonpositive_step_witness :
  (3 = 2 /\ _chunk_text "a b c" 2 3 = Raise ValueError)
  \/ (3 > 2 /\ _chunk_text "a b c" 2 3 = Ok []).
Proof. apply (chunk_text_nonpositive_step "a b c" 2 3). lia. Defined.

(** C2, as stated, fails: with [overlap = chunk_size] the call raises. *)
Lemma chunk_text_equal_overlap_raises :
  5 >= 5 /\ _chunk_text "hello world" 5 5 = Raise ValueError.
Proof. split; [lia | reflexivity]. Qed.

Example chunk_small :
  _chunk_text "a b  c d e" 2 1 = Ok ["a b"; "b c"; "c d"; "d e"; "e"].
Proof. reflexivity. Qed.

Example chunk_negative_size :
  _chunk_text "a b c d" (-1) (-3) = Ok ["a b c"].
Proof. reflexivity. Qed.

Example chunk_empty : _chunk_text_default "" = Ok [].
Proof. reflexivity. Qed.

(* ===================================================================== *)
(** * Properties of ingestion *)
(* ===================================================================== *)

Import KnowledgeBase.

(** ** Reading a chunk id from the right *)

Definition underscore : ascii := "_"%char.

(** No character of [s] is an underscore. *)
Fixpoint no_underscore (s : string) : bool :=
  match s with
  | EmptyString => true
  | String c s' => negb (Ascii.eqb c underscore) && no_underscore s'
  end.

Lemma string_app_assoc (a b c : string) :
  ((a ++ b) ++ c = a ++ (b ++ c))%string.
Proof. induction a as [|x a IH]; simpl; [reflexivity | now rewrite IH]. Qed.

Lemma no_underscore_app_underscore a b :
  no_underscore (a ++ String underscore b)%string = false.
Proof.
  induction a as [|c a IH]; simpl.
  - reflexivity.
  - rewrite IH. apply andb_false_r.
Qed.

Lemma no_underscore_uint d :
  no_underscore (DecimalString.NilEmpty.string_of_uint d) = true.
Proof. induction d; simpl; auto. Qed.

Lemma no_underscore_str_of_nat n : no_underscore (str_of_nat n) = true.
Proof. apply no_underscore_uint. Qed.

Lemma str_of_nat_inj n m : str_of_nat n = str_of_nat m -> n = m.
Proof.
  unfold str_of_nat. intros H.
  apply DecimalNat.Unsigned.to_uint_inj.
  pose proof (DecimalString.NilEmpty.usu (Nat.to_uint n)) as Hn.
  pose proof (DecimalString.NilEmpty.usu (Nat.to_uint m)) as Hm.
  rewrite H in Hn. congruence.
Qed.

(** The text after the last underscore determines the text before it. *)
Lemma split_at_last_underscore : forall a b x y,
  (a ++ String underscore x = b ++ String underscore y)%string ->
  no_underscore x = true -> no_underscore y = true ->
  a = b /\ x = y.
Proof.
  induction a as [|c a IH]; intros [|c' b] x y H Hx Hy; simpl in H.
  - injection H as ->. now split.
  - injection H as <- ->. now rewrite no_underscore_app_underscore in Hx.
  - injection H as -> <-. now rewrite no_underscore_app_underscore in Hy.
  - injection H as -> H. destruct (IH _ _ _ H Hx Hy) as [-> ->]. now split.
Qed.

(** A chunk id determines its document number and its chunk number,
    whatever the stems are. *)
Lemma doc_id_inj p p' d d' i i' :
  doc_id p d i = doc_id p' d' i' -> d = d' /\ i = i'.
Proof.
  unfold doc_id. intros H.
  change "_chunk_" with ("_chunk" ++ String underscore "")%string in H.
  change "_" with (String underscore "") in H.
  assert (Hshape : forall s a b,
    (s ++ ("_chunk" ++ String underscore "") ++ a ++ String underscore "" ++ b
     = ((s ++ "_chunk") ++ String underscore a) ++ String underscore b)%string).
  { intros s a b. rewrite !string_app_assoc. reflexivity. }
  rewrite !Hshape in H.
  apply split_at_last_underscore in H as [H Hi];
    try apply no_underscore_str_of_nat.
  apply split_at_last_underscore in H as [_ Hd];
    try apply no_underscore_str_of_nat.
  split; apply str_of_nat_inj; assumption.
Qed.

(** ** The scan of the folder *)

Lemma add_chunks_ids p chunks : forall start b,
  ids (fold_left (add_chunk p)
                 (combine (seq start (List.length chunks)) chunks) b)
  = ids b ++ map (doc_id p (doc_count b)) (seq start (List.length chunks))
  /\ doc_count (fold_left (add_chunk p)
                          (combine (seq start (List.length chunks)) chunks) b)
     = doc_count b.
Proof.
  induction chunks as [|c chunks IH]; intros start b;
    cbn [fold_left combine seq List.length map].
  - now rewrite app_nil_r.
  - destruct (IH (S start) (add_chunk p b (start, c))) as [Hids Hcount].
    rewrite Hids, Hcount. simpl. now rewrite <- app_assoc.
Qed.

Lemma chunk_text_default_ok text :
  exists chunks, _chunk_text_default text = Ok chunks.
Proof.
  unfold _chunk_text_default. rewrite chunk_text_positive by lia.
  eexists. reflexivity.
Qed.

(** Every id of the batch was made for a document numbered below the
    counter, and no id occurs twice. *)
Definition batch_ok (b : Batch) : Prop :=
  NoDup (ids b) /\
  forall id, In id (ids b) ->
    exists p d i, id = doc_id p d i /\ (d < doc_count b)%nat.

Lemma batch_ok_empty : batch_ok empty_batch.
Proof. split; [constructor | intros id []]. Qed.

Lemma load_file_ok folder b p :
  batch_ok b -> exists b', load_file folder b p = Ok b' /\ batch_ok b'.
Proof.
  intros [Hnd Hold]. unfold load_file.
  destruct (is_file p && mem (lower (suffix p)) supported_extensions);
    [|exists b; repeat split; assumption].
  match goal with |- context [strip ?c] => set (content := c) end.
  destruct (nonempty (strip content)); cbn [negb];
    [|exists b; repeat split; assumption].
  destruct (chunk_text_default_ok content) as [chunks ->]. cbn [Py.bind].
  eexists. split; [reflexivity|].
  unfold enumerate.
  destruct (add_chunks_ids p chunks 0 b) as [Hids Hcount].
  unfold batch_ok. simpl. rewrite Hids, Hcount. split.
  - apply NoDup_app; [assumption | |].
    + apply NoDup_map_NoDup_ForallPairs; [|apply seq_NoDup].
      intros i i' _ _ H. now apply doc_id_inj in H.
    + intros id Hin Hnew.
      apply Hold in Hin as [q [d [i [-> Hd]]]].
      apply in_map_iff in Hnew as [i' [H _]].
      apply doc_id_inj in H as [H _]. lia.
  - intros id Hin. apply in_app_or in Hin as [Hin|Hin].
    + apply Hold in Hin as [q [d [i [-> Hd]]]].
      exists q, d, i. split; [reflexivity | lia].
    + apply in_map_iff in Hin as [i [<- _]].
      exists p, (doc_count b), i. split; [reflexivity | lia].
Qed.

Lemma load_files_ok folder paths : forall b,
  batch_ok b -> exists b', load_files folder b paths = Ok b' /\ batch_ok b'.
Proof.
  induction paths as [|p paths IH]; intros b Hb; simpl.
  - now exists b.
  - destruct (load_file_ok folder b p Hb) as [b1 [-> Hb1]]. simpl.
    apply IH. assumption.
Qed.

Lemma chunk_ids_distinct_batch (folder : Folder) :
  exists b, scan folder = Ok b /\ NoDup (ids b).
Proof.
  destruct (load_files_ok folder (rglob folder) empty_batch batch_ok_empty)
    as [b [H [Hnd _]]].
  now exists b.
Qed.

(** C9. A run of [_load_documents] scans the whole folder without
    raising, and the chunk ids it generates are pairwise distinct, also
    when several files have the same stem. *)
Theorem chunk_ids_distinct (folder : Folder) :
  exists b, scan folder = Ok b /\ NoDup (ids b)
    /\ forall j k idj idk,
         nth_error (ids b) j = Some idj -> nth_error (ids b) k = Some idk ->
         j <> k -> idj <> idk.
Proof.
  destruct (chunk_ids_distinct_batch folder) as [b [H Hnd]].
  exists b. repeat split; [assumption | assumption |].
  intros j k idj idk Hj Hk Hjk Heq. subst idk.
  apply Hjk. eapply NoDup_nth_error; try eassumption.
  - apply nth_error_Some. congruence.
  - congruence.
Qed.

Example same_stem_ids :
  option_map ids (match scan Sample.folder with Ok b => Some b | Raise _ => None end)
  = Some ["resume_chunk_0_0"; "notes_chunk_1_0"; "notes_chunk_2_0"].
Proof. reflexivity. Qed.

(* ===================================================================== *)
(** * Properties of search *)
(* ===================================================================== *)

Section SearchFacts.

Variable collection_query : json -> Z -> res QueryResult.

(** What the formatting loop returns when no lookup raises: one entry
    per document, in order, after what was already there. *)
Lemma format_from_ok results docs : forall i acc out,
  Search.format_from results i docs acc = Ok out ->
  exists rs,
    out = acc ++ rs /\
    List.length rs = List.length docs /\
    forall k r, nth_error rs k = Some r ->
      exists doc, nth_error docs k = Some doc /\
                  Search.format_result results (i + k) doc = Ok r.
Proof.
  induction docs as [|doc docs IH]; intros i acc out H; simpl in H.
  - injection H as <-. exists []. rewrite app_nil_r. repeat split.
    intros [|k] r Hk; discriminate.
  - destruct (Search.format_result results i doc) as [r0|e] eqn:E;
      [|discriminate].
    simpl in H. apply IH in H as [rs [-> [Hlen Hnth]]].
    exists (r0 :: rs). rewrite <- app_assoc. repeat split.
    + simpl. now rewrite Hlen.
    + intros [|k] r Hk; simpl in Hk.
      * injection Hk as <-. exists doc. rewrite Nat.add_0_r. now split.
      * apply Hnth in Hk as [doc' [Hd Hf]]. exists doc'.
        rewrite Nat.add_succ_r. now split.
Qed.

(** The results of [search] when it returns some: the backend answered,
    its first list of documents is not empty, and every document was
    formatted. *)
Lemma search_nonempty query top_k k r :
  nth_error (Search.search collection_query query top_k) k = Some r ->
  exists results docs rest doc,
    collection_query query top_k = Ok results /\
    qr_documents results = Some (docs :: rest) /\
    List.length (Search.search collection_query query top_k) = List.length docs /\
    nth_error docs k = Some doc /\
    Search.format_result results k doc = Ok r.
Proof.
  unfold Search.search, Search.search_body.
  destruct (collection_query query top_k) as [results|e]; simpl;
    [|destruct k; discriminate].
  destruct (qr_documents results) as [[|[|d0 docs] rest]|] eqn:Hdocs; simpl;
    try (destruct k; discriminate).
  destruct (Search.format_result results 0 d0) as [r0|e] eqn:E0; simpl;
    [|destruct k; discriminate].
  destruct (Search.format_from results 1 docs [r0]) as [out|e] eqn:E; simpl;
    [|destruct k; discriminate].
  intros Hk.
  assert (Hall : Search.format_from results 0 (d0 :: docs) [] = Ok out)
    by (simpl; rewrite E0; exact E).
  apply format_from_ok in Hall as [rs [-> [Hlen Hnth]]]. simpl in Hk.
  destruct (Hnth k r Hk) as [doc [Hd Hf]].
  exists results, (d0 :: docs), rest, doc. simpl in *. now repeat split.
Qed.

Lemma search_length query top_k :
  Search.search collection_query query top_k = []
  \/ exists results docs rest,
       collection_query query top_k = Ok results /\
       qr_documents results = Some (docs :: rest) /\
       List.length (Search.search collection_query query top_k) = List.length docs.
Proof.
  destruct (Search.search collection_query query top_k) as [|r rs] eqn:E;
    [now left | right].
  assert (Hk : nth_error (Search.search collection_query query top_k) 0 = Some r)
    by now rewrite E.
  apply search_nonempty in Hk as [results [docs [rest [doc [H1 [H2 [H3 _]]]]]]].
  exists results, docs, rest. rewrite <- E. now repeat split.
Qed.

Lemma search_backend_raises query top_k e :
  collection_query query top_k = Raise e ->
  Search.search collection_query query top_k = [].
Proof.
  intros H. unfold Search.search, Search.search_body. now rewrite H.
Qed.

Lemma search_no_documents query top_k results rest :
  collection_query query top_k = Ok results ->
  qr_documents results = Some ([] :: rest) ->
  Search.search collection_query query top_k = [].
Proof.
  intros H Hd. unfold Search.search, Search.search_body.
  now rewrite H; simpl; rewrite Hd.
Qed.

End SearchFacts.

(** ** The in-memory vector store *)

Lemma collection_query_documents kb query top_k results :
  collection_query kb query top_k = Ok results ->
  exists entries docs,
    collection kb = Some entries /\
    qr_documents results = Some [docs] /\
    (List.length docs <= Z.to_nat top_k)%nat /\
    (List.length docs <= List.length entries)%nat.
Proof.
  unfold collection_query.
  destruct (collection kb) as [entries|]; [|discriminate].
  destruct query; try discriminate.
  destruct (top_k <=? 0); [discriminate|].
  intros H. injection H as <-. simpl.
  eexists. eexists. split; [reflexivity|]. split; [reflexivity|].
  rewrite length_map, length_firstn.
  assert (Hlen : forall l : list (Entry * float),
            List.length (fold_right insert_by [] l) = List.length l).
  { induction l as [|x l IH]; simpl; [reflexivity|].
    rewrite <- IH. generalize (fold_right insert_by [] l). intros l'.
    induction l' as [|y l' IH']; simpl; [reflexivity|].
    destruct (snd x <=? snd y)%float; simpl; [reflexivity | now rewrite IH']. }
  rewrite Hlen, length_map. lia.
Qed.

(** C8. [search] returns at most [top_k] results when the backend
    returns at most [top_k] documents, as the in-memory store does; it
    returns the empty list when the backend raises, when the backend has
    no document to return, and on a store whose collection is empty. *)
Theorem search_at_most_top_k
    (backend_query : json -> Z -> res QueryResult) (query : json) (top_k : Z) :
  0 <= top_k ->
  (forall results docs rest,
     backend_query query top_k = Ok results ->
     qr_documents results = Some (docs :: rest) ->
     Z.of_nat (List.length docs) <= top_k) ->
  Z.of_nat (List.length (Search.search backend_query query top_k)) <= top_k
  /\ (forall e, backend_query query top_k = Raise e ->
        Search.search backend_query query top_k = [])
  /\ (forall results rest,
        backend_query query top_k = Ok results ->
        qr_documents results = Some ([] :: rest) ->
        Search.search backend_query query top_k = [])
  /\ (forall kb, collection kb = Some [] ->
        KnowledgeBase.search kb query top_k = [])
  /\ (forall kb,
        Z.of_nat (List.length (KnowledgeBase.search kb query top_k)) <= top_k).
Proof.
  intros Hk Hcontract. repeat split.
  - destruct (search_length backend_query query top_k)
      as [->|[results [docs [rest [H1 [H2 ->]]]]]]; [simpl; lia|].
    eapply Hcontract; eassumption.
  - apply search_backend_raises.
  - apply search_no_documents.
  - intros kb Hempty. unfold KnowledgeBase.search.
    destruct (search_length (collection_query kb) query top_k)
      as [H|[results [docs [rest [H1 [H2 H3]]]]]]; [exact H|].
    apply collection_query_documents in H1
      as [entries [docs' [He [Hd [_ Hlen]]]]].
    rewrite Hempty in He. injection He as <-.
    rewrite H2 in Hd. injection Hd as <- _.
    destruct docs; [|simpl in Hlen; lia].
    destruct (Search.search (collection_query kb) query top_k);
      [reflexivity | discriminate].
  - intros kb. unfold KnowledgeBase.search.
    destruct (search_length (collection_query kb) query top_k)
      as [->|[results [docs [rest [H1 [H2 ->]]]]]]; [simpl; lia|].
    apply collection_query_documents in H1
      as [entries [docs' [He [Hd [Hlen _]]]]].
    rewrite H2 in Hd. injection Hd as <- _. lia.
Qed.

(* ===================================================================== *)
(** * Properties of refresh *)
(* ===================================================================== *)

Lemma search_missing_collection kb query top_k :
  collection kb = None -> KnowledgeBase.search kb query top_k = [].
Proof.
  intros H. unfold KnowledgeBase.search.
  apply search_backend_raises with (e := NotFoundError).
  unfold collection_query. now rewrite H.
Qed.

Lemma search_empty_collection kb query top_k :
  collection kb = Some [] -> KnowledgeBase.search kb query top_k = [].
Proof.
  intros Hempty. unfold KnowledgeBase.search.
  destruct (search_length (collection_query kb) query top_k)
    as [H|[results [docs [rest [H1 [H2 H3]]]]]]; [exact H|].
  apply collection_query_documents in H1
    as [entries [docs' [He [Hd [_ Hlen]]]]].
  rewrite Hempty in He. injection He as <-.
  rewrite H2 in Hd. injection Hd as <- _.
  destruct docs; [|simpl in Hlen; lia].
  destruct (Search.search (collection_query kb) query top_k);
    [reflexivity | discriminate].
Qed.

Lemma has_duplicates_NoDup l : NoDup l -> has_duplicates l = false.
Proof.
  induction 1 as [|x l Hx _ IH]; simpl; [reflexivity|].
  rewrite IH, orb_false_r.
  destruct (existsb (String.eqb x) l) eqn:E; [|reflexivity].
  apply existsb_exists in E as [y [Hy Heq]].
  apply String.eqb_eq in Heq. now subst.
Qed.

(** The entries a load of the folder puts into an empty collection. *)
Definition new_entries (b : Batch) : list Entry :=
  zip3 (ids b) (documents b) (metadatas b).

(** What the store answers to the batch of a scan; [_load_documents]
    calls the store only when there are documents. *)
Definition batch_error (kb : KB) (b : Batch) : option exn :=
  match documents b with
  | [] => None
  | _ :: _ => add_error kb (documents b)
  end.

(** On an empty collection [_load_documents] leaves the whole batch in
    it, or raises what the store raises and leaves it empty. *)
Lemma load_documents_fresh kb :
  collection kb = Some [] ->
  exists b, scan (about_me_folder kb) = Ok b /\
    _load_documents kb
    = match batch_error kb b with
      | None => (Ok tt, with_collection kb (Some (new_entries b)))
      | Some e => (Raise e, kb)
      end.
Proof.
  intros Hc. destruct (chunk_ids_distinct_batch (about_me_folder kb)) as [b [Hb Hnd]].
  exists b. split; [assumption|].
  unfold _load_documents, batch_error. rewrite Hb.
  destruct (documents b) as [|d ds] eqn:Hd.
  - f_equal. unfold new_entries. rewrite Hd.
    destruct kb; simpl in *; subst.
    unfold with_collection; simpl. destruct (ids b); reflexivity.
  - rewrite <- Hd. unfold collection_add. rewrite Hc. simpl.
    rewrite has_duplicates_NoDup by assumption.
    destruct (add_error kb (documents b)); reflexivity.
Qed.

(** The three steps of a refresh, one after the other. *)
Lemma refresh_states_trace kb :
  exists b, scan (about_me_folder kb) = Ok b /\
    refresh_states kb =
      [ (AtDelete, kb);
        (AtCreate, with_collection kb None);
        (AtLoad, with_collection kb (Some []));
        match batch_error kb b with
        | None => (Returned, with_collection kb (Some (new_entries b)))
        | Some e => (Raised e, with_collection kb (Some []))
        end ].
Proof.
  destruct (load_documents_fresh (with_collection kb (Some [])) eq_refl)
    as [b [Hb Hload]].
  exists b. split; [exact Hb|].
  destruct kb as [f c d a]. unfold with_collection, batch_error in *.
  cbn [about_me_folder collection distance add_error] in *.
  unfold refresh_states.
  destruct c; cbn -[_load_documents new_entries];
    unfold with_collection; cbn -[_load_documents new_entries];
    rewrite Hload;
    destruct (match documents b with [] => None | _ :: _ => a (documents b) end);
    reflexivity.
Qed.

(** The method and its step-by-step reading end in the same state. *)
Lemma refresh_knowledge_base_steps kb :
  exists b, scan (about_me_folder kb) = Ok b /\
    refresh_knowledge_base kb
    = match batch_error kb b with
      | None => (Ok tt, with_collection kb (Some (new_entries b)))
      | Some e => (Raise e, with_collection kb (Some []))
      end /\
    nth_error (refresh_states kb) 3
    = Some (match fst (refresh_knowledge_base kb) with
            | Ok _ => Returned
            | Raise e => Raised e
            end, snd (refresh_knowledge_base kb)).
Proof.
  destruct (refresh_states_trace kb) as [b [Hb Htrace]].
  destruct (load_documents_fresh (with_collection kb (Some [])) eq_refl)
    as [b' [Hb' Hload]].
  cbn in Hb'. rewrite Hb in Hb'. injection Hb' as <-.
  exists b. split; [exact Hb|].
  assert (Hrun : refresh_knowledge_base kb
                 = match batch_error kb b with
                   | None => (Ok tt, with_collection kb (Some (new_entries b)))
                   | Some e => (Raise e, with_collection kb (Some []))
                   end).
  { clear Htrace. destruct kb as [f c d a].
    unfold with_collection, batch_error in *.
    cbn [about_me_folder collection distance add_error] in *.
    unfold refresh_knowledge_base.
    destruct c; cbn -[_load_documents new_entries];
      unfold with_collection; cbn -[_load_documents new_entries];
      rewrite Hload;
      destruct (match documents b with [] => None | _ :: _ => a (documents b) end);
      reflexivity. }
  split; [exact Hrun|]. rewrite Htrace, Hrun.
  destruct (batch_error kb b); reflexivity.
Qed.

(** C1, as the code has it.  A refresh is three calls to the vector
    store: delete the collection, create it anew, add the whole batch.
    At each point of it the index is the old one, missing, empty, or the
    whole new batch, never a part of the batch; and while it is missing
    or empty every search returns the empty list. *)
Theorem refresh_visible_states (kb : KB) (s : pc * KB) :
  In s (refresh_states kb) ->
  (collection (snd s) = collection kb
   \/ collection (snd s) = None
   \/ collection (snd s) = Some []
   \/ exists b, scan (about_me_folder kb) = Ok b /\
                collection (snd s) = Some (new_entries b))
  /\ (collection (snd s) = None \/ collection (snd s) = Some [] ->
      forall query top_k, KnowledgeBase.search (snd s) query top_k = []).
Proof.
  intros Hin. split.
  - destruct (refresh_states_trace kb) as [b [Hb Htrace]].
    rewrite Htrace in Hin.
    destruct Hin as [<-|[<-|[<-|[<-|[]]]]]; simpl.
    + now left.
    + right. now left.
    + right. right. now left.
    + destruct (batch_error kb b); simpl.
      * right. right. now left.
      * right. right. right. now exists b.
  - intros [H|H] query top_k.
    + now apply search_missing_collection.
    + now apply search_empty_collection.
Qed.

Lemma refresh_visible_states_witness :
  (collection (snd (AtLoad, with_collection Sample.kb (Some [])))
     = collection Sample.kb
   \/ collection (snd (AtLoad, with_collection Sample.kb (Some []))) = None
   \/ collection (snd (AtLoad, with_collection Sample.kb (Some []))) = Some []
   \/ exists b, scan (about_me_folder Sample.kb) = Ok b /\
        collection (snd (AtLoad, with_collection Sample.kb (Some [])))
        = Some (new_entries b))
  /\ (collection (snd (AtLoad, with_collection Sample.kb (Some []))) = None
      \/ collection (snd (AtLoad, with_collection Sample.kb (Some []))) = Some [] ->
      forall query top_k,
        KnowledgeBase.search (snd (AtLoad, with_collection Sample.kb (Some [])))
                             query top_k = []).
Proof.
  apply (refresh_visible_states Sample.kb
           (AtLoad, with_collection Sample.kb (Some []))).
  vm_compute. right. right. left. reflexivity.
Defined.

(** C1, as stated, fails: refreshing a store that holds one entry
    passes through a state, after the collection is created anew and
    before the batch is added, in which the index is empty and a search
    that had a result before, and has results after, returns none. *)
Lemma refresh_exposes_empty_index :
  let before := Sample.kb in
  let during := snd (refresh_step (refresh_step (AtDelete, Sample.kb))) in
  let after := snd (refresh_knowledge_base Sample.kb) in
  In (AtLoad, during) (refresh_states Sample.kb)
  /\ collection before = Some [Sample.old_entry]
  /\ collection during = Some []
  /\ List.length (KnowledgeBase.search before (JStr "skills") 3) = 1%nat
  /\ KnowledgeBase.search during (JStr "skills") 3 = []
  /\ List.length (KnowledgeBase.search after (JStr "skills") 3) = 3%nat.
Proof.
  cbv zeta. split; [right; right; left; reflexivity|].
  repeat split; vm_compute; reflexivity.
Qed.

(* ===================================================================== *)
(** * Properties of the tool dispatch *)
(* ===================================================================== *)

Import ChatBot.

(** C7. A tool name other than [search_knowledge_base] is answered
    with the error descriptor naming it, whatever the arguments are, and
    nothing is raised. *)
Theorem unknown_function_error
    (backend_query : json -> Z -> res QueryResult)
    (function_name : string) (arguments : json) :
  function_name <> "search_knowledge_base" ->
  _execute_function backend_query function_name arguments
  = Ok (JDict [("error", JStr ("Unknown function: " ++ function_name)%string)]).
Proof.
  intros H. unfold _execute_function.
  destruct (String.eqb_spec function_name "search_knowledge_base");
    [contradiction | reflexivity].
Qed.

Lemma unknown_function_error_witness :
  _execute_function Sample.no_distances_query "get_weather"
                    (JDict [("city", JStr "Lagos")])
  = Ok (JDict [("error", JStr "Unknown function: get_weather")]).
Proof.
  apply (unknown_function_error Sample.no_distances_query "get_weather"
           (JDict [("city", JStr "Lagos")])).
  discriminate.
Defined.

(** C6, as the code has it.  When the search finds nothing, the tool
    [search_knowledge_base] answers with [success] false and the message
    "No relevant information found in knowledge base". *)
Theorem search_tool_no_results
    (backend_query : json -> Z -> res QueryResult) (arguments query : json) :
  getitem arguments "query" = Ok query ->
  Search.search backend_query query 3 = [] ->
  _execute_function backend_query "search_knowledge_base" arguments
  = Ok (JDict [("success", JBool false);
               ("message", JStr "No relevant information found in knowledge base")]).
Proof.
  intros Hq Hs. unfold _execute_function. simpl String.eqb. cbv iota.
  rewrite Hq. cbn [Py.bind]. now rewrite Hs.
Qed.

Lemma search_tool_no_results_witness :
  _execute_function
    (collection_query (with_collection Sample.kb (Some [])))
    "search_knowledge_base" (JDict [("query", JStr "xyz-nonexistent-term")])
  = Ok (JDict [("success", JBool false);
               ("message", JStr "No relevant information found in knowledge base")]).
Proof.
  apply (search_tool_no_results
           (collection_query (with_collection Sample.kb (Some [])))
           (JDict [("query", JStr "xyz-nonexistent-term")])
           (JStr "xyz-nonexistent-term")); reflexivity.
Defined.

(** C6, as stated, fails: the message of the code is longer than the
    one the claim gives. *)
Lemma search_tool_message_differs :
  Search.search (collection_query (with_collection Sample.kb (Some [])))
                (JStr "xyz-nonexistent-term") 3 = []
  /\ _execute_function
       (collection_query (with_collection Sample.kb (Some [])))
       "search_knowledge_base" (JDict [("query", JStr "xyz-nonexistent-term")])
     = Ok (JDict [("success", JBool false);
                  ("message", JStr "No relevant information found in knowledge base")])
  /\ _execute_function
       (collection_query (with_collection Sample.kb (Some [])))
       "search_knowledge_base" (JDict [("query", JStr "xyz-nonexistent-term")])
     <> Ok (JDict [("success", JBool false);
                   ("message", JStr "No relevant information found")]).
Proof.
  split; [reflexivity|]. split; [reflexivity|]. discriminate.
Qed.

Example search_tool_hit :
  _execute_function (collection_query Sample.kb) "search_knowledge_base"
                    (JDict [("query", JStr "resume")])
  = Ok (JDict [("success", JBool true);
               ("context", JStr ("[From cv.txt]" ++ String (ascii_of_nat 10) ""
                                 ++ "Old resume text")%string);
               ("sources", JList [JStr "cv.txt"]);
               ("num_results", JInt 1)]).
Proof. reflexivity. Qed.

Lemma search_at_most_top_k_witness :
  Z.of_nat (List.length (Search.search (collection_query Sample.kb)
                                        (JStr "skills") 3)) <= 3
  /\ (forall e, collection_query Sample.kb (JStr "skills") 3 = Raise e ->
        Search.search (collection_query Sample.kb) (JStr "skills") 3 = [])
  /\ (forall results rest,
        collection_query Sample.kb (JStr "skills") 3 = Ok results ->
        qr_documents results = Some ([] :: rest) ->
        Search.search (collection_query Sample.kb) (JStr "skills") 3 = [])
  /\ (forall kb, collection kb = Some [] ->
        KnowledgeBase.search kb (JStr "skills") 3 = [])
  /\ (forall kb,
        Z.of_nat (List.length (KnowledgeBase.search kb (JStr "skills") 3)) <= 3).
Proof.
  apply (search_at_most_top_k (collection_query Sample.kb) (JStr "skills") 3).
  - lia.
  - intros results docs rest H Hd.
    apply collection_query_documents in H as [entries [docs' [_ [Hd' [Hlen _]]]]].
    rewrite Hd in Hd'. injection Hd' as <- _. lia.
Defined.

(* ===================================================================== *)
(** * Properties of the chat protocol *)
(* ===================================================================== *)

(** [l[-n:]] keeps the last [n] elements. *)
Lemma last_n_skipn {A} (n : nat) (l : list A) :
  (0 < n)%nat -> last_n n l = skipn (List.length l - n) l.
Proof.
  intros Hn. unfold last_n, slice, slice_bound.
  destruct (Z.ltb_spec (Z.of_nat (List.length l)) 0); [lia|].
  rewrite Z.min_id.
  destruct (Z.ltb_spec (- Z.of_nat n) 0); [|lia].
  replace (Z.to_nat (Z.max 0 (- Z.of_nat n + Z.of_nat (List.length l))))
    with (List.length l - n)%nat by lia.
  apply firstn_all2. rewrite length_skipn. lia.
Qed.

Lemma last_n_length {A} (n : nat) (l : list A) :
  (0 < n)%nat -> List.length (last_n n l) = Nat.min (List.length l) n.
Proof. intros Hn. rewrite last_n_skipn, length_skipn by assumption. lia. Qed.

(** Projections of the states [chat] builds. *)
Ltac chat_simpl :=
  cbn [bot world sent snd fst conversation_history model max_tokens
       system_prompt].

Ltac chat_done :=
  chat_simpl; rewrite <- ?app_assoc; split; reflexivity.

Section ChatFacts.

Variable World : Type.
Variable completions_create : Request -> World -> res ChatCompletion * World.
Variable now_isoformat : World -> string * World.
Variable json_loads : string -> res json.
Variable json_dumps : json -> string.
Variable collection_query : json -> Z -> res QueryResult.

Local Abbreviation chat :=
  (ChatBot.chat World completions_create now_isoformat json_loads json_dumps
                collection_query).
Local Abbreviation State := (St World).

(** The bot with one more stored message. *)
Definition remember (b : Bot) (msg : Message) : Bot :=
  {| model := model b; max_tokens := max_tokens b;
     system_prompt := system_prompt b;
     conversation_history := conversation_history b ++ [msg] |}.

(** The user message [chat] stores first, stamped by the clock. *)
Definition user_message_of (user_message : string) (st : State) : Message :=
  {| role := "user"; content := Some user_message;
     timestamp := fst (now_isoformat (world st)) |}.

(** The request of round 1. *)
Definition round1_request (user_message : string) (st : State) : Request :=
  let b := remember (bot st) (user_message_of user_message st) in
  {| req_model := model b;
     req_messages := context_of b;
     req_tools := Some _get_tools;
     req_tool_choice := Some "auto";
     req_temperature := 0.7%float;
     req_max_tokens := max_tokens b |}.

(** Whatever happens later, [chat] first stores the user message and
    sends the round-1 request; every state it can end in extends those. *)
Lemma chat_round1 user_message (st : State) :
  exists later newer,
    sent (snd (chat user_message st))
    = sent st ++ round1_request user_message st :: later /\
    conversation_history (bot (snd (chat user_message st)))
    = conversation_history (bot st)
      ++ user_message_of user_message st :: newer.
Proof.
  unfold ChatBot.chat, mbind, new_message, append_history, get_bot, create,
    lift, ret, round1_request, user_message_of, remember, tool_round.
  chat_simpl.
  destruct (now_isoformat (world st)) as [t w1]. chat_simpl.
  match goal with |- context [completions_create ?r w1] =>
    destruct (completions_create r w1) as [[response|e] w2] end;
    chat_simpl; [|exists [], []; chat_done].
  destruct (index (choices response) 0) as [am|e];
    [|exists [], []; chat_done].
  destruct (am_tool_calls am) as [[|tc tcs]|].
  1,3: chat_simpl; destruct (now_isoformat w2) as [t2 w3];
    eexists [], [_]; chat_done.
  unfold mbind, lift, create, ret. chat_simpl.
  destruct (json_loads (tc_arguments tc)) as [args|e];
    [|exists [], []; chat_done].
  destruct (_execute_function collection_query (tc_name tc) args) as [result|e];
    [|exists [], []; chat_done].
  chat_simpl.
  match goal with |- context [completions_create ?r w2] =>
    destruct (completions_create r w2) as [[final|e] w3] end;
    chat_simpl; [|eexists [_], []; chat_done].
  destruct (index (choices final) 0) as [fm|e]; chat_simpl;
    [|eexists [_], []; chat_done].
  destruct (now_isoformat w3) as [t3 w4].
  eexists [_], [_]; chat_done.
Qed.

(** The context of round 1, message by message. *)
Lemma round1_messages user_message (st : State) :
  let stored :=
    conversation_history (bot st) ++ [user_message_of user_message st] in
  req_messages (round1_request user_message st)
  = {| m_role := "system"; m_content := Some (system_prompt (bot st));
       m_tool_calls := None; m_tool_call_id := None |}
    :: map (fun msg => {| m_role := role msg; m_content := content msg;
                          m_tool_calls := None; m_tool_call_id := None |})
           (skipn (List.length stored - 10) stored).
Proof.
  intros stored. unfold round1_request, context_of, remember. chat_simpl.
  cbn [req_messages]. fold stored.
  rewrite last_n_skipn by lia. reflexivity.
Qed.

(** The paths of [chat].  It raises with the user message stored, or
    returns with the answer stored after it; and it has sent the round-1
    request alone, or, after a tool call whose arguments were parsed and
    whose tool returned, that request and a second one which adds the
    assistant's tool-call message and the tool message to the round-1
    context. *)
Lemma chat_paths user_message (st : State) :
  ((exists e,
      fst (chat user_message st) = Raise e /\
      conversation_history (bot (snd (chat user_message st)))
      = conversation_history (bot st) ++ [user_message_of user_message st])
   \/ (exists final_content t,
         fst (chat user_message st) = Ok final_content /\
         conversation_history (bot (snd (chat user_message st)))
         = conversation_history (bot st)
           ++ [user_message_of user_message st;
               {| role := "assistant"; content := final_content;
                  timestamp := t |}]))
  /\ (sent (snd (chat user_message st))
      = sent st ++ [round1_request user_message st]
      \/ exists response w2 assistant_message tool_call others
                function_args function_result,
           completions_create (round1_request user_message st)
                              (snd (now_isoformat (world st)))
           = (Ok response, w2)
           /\ index (choices response) 0 = Ok assistant_message
           /\ am_tool_calls assistant_message = Some (tool_call :: others)
           /\ json_loads (tc_arguments tool_call) = Ok function_args
           /\ _execute_function collection_query (tc_name tool_call)
                                function_args
              = Ok function_result
           /\ sent (snd (chat user_message st))
              = sent st
                ++ [round1_request user_message st;
                    {| req_model := model (bot st);
                       req_messages :=
                         req_messages (round1_request user_message st)
                         ++ [ {| m_role := "assistant";
                                 m_content := am_content assistant_message;
                                 m_tool_calls :=
                                   Some [ {| tcd_id := tc_id tool_call;
                                             tcd_type := "function";
                                             tcd_name := tc_name tool_call;
                                             tcd_arguments :=
                                               json_dumps function_args |} ];
                                 m_tool_call_id := None |};
                              {| m_role := "tool";
                                 m_content :=
                                   Some (json_dumps function_result);
                                 m_tool_calls := None;
                                 m_tool_call_id := Some (tc_id tool_call) |} ];
                       req_tools := None;
                       req_tool_choice := None;
                       req_temperature := 0.7%float;
                       req_max_tokens := max_tokens (bot st) |}]).
Proof.
  unfold ChatBot.chat, mbind, new_message, append_history, get_bot, create,
    lift, ret, round1_request, user_message_of, remember, tool_round,
    tool_messages.
  chat_simpl.
  destruct (now_isoformat (world st)) as [t w1]. chat_simpl.
  match goal with |- context [completions_create ?r w1] =>
    destruct (completions_create r w1) as [[response|e] w2] eqn:E1 end;
    chat_simpl;
    [|split; [left; now exists e | left; reflexivity]].
  destruct (index (choices response) 0) as [am|e] eqn:E2;
    [|split; [left; now exists e | left; reflexivity]].
  destruct (am_tool_calls am) as [[|tc tcs]|] eqn:E3.
  1,3: chat_simpl; destruct (now_isoformat w2) as [t2 w3]; chat_simpl;
    (split; [right; exists (am_content am), t2; now rewrite <- app_assoc
            | left; reflexivity]).
  unfold mbind, lift, create, ret. chat_simpl.
  destruct (json_loads (tc_arguments tc)) as [args|e] eqn:E4;
    [|split; [left; now exists e | left; reflexivity]].
  destruct (_execute_function collection_query (tc_name tc) args)
    as [result|e] eqn:E5;
    [|split; [left; now exists e | left; reflexivity]].
  chat_simpl. cbn [req_messages].
  assert (Hsecond : forall A (x : A) (l : list A) y, (l ++ [x]) ++ [y] = l ++ [x; y])
    by (intros; now rewrite <- app_assoc).
  match goal with |- context [completions_create ?r w2] =>
    destruct (completions_create r w2) as [[final|e] w3] end;
    chat_simpl.
  2: { split; [left; now exists e|].
       right. exists response, w2, am, tc, tcs, args, result.
       repeat (split; [first [reflexivity | assumption]|]). apply Hsecond. }
  destruct (index (choices final) 0) as [fm|e]; chat_simpl.
  2: { split; [left; now exists e|].
       right. exists response, w2, am, tc, tcs, args, result.
       repeat (split; [first [reflexivity | assumption]|]). apply Hsecond. }
  destruct (now_isoformat w3) as [t3 w4]. chat_simpl.
  split; [right; exists (am_content fm), t3; now rewrite <- app_assoc|].
  right. exists response, w2, am, tc, tcs, args, result.
  repeat (split; [first [reflexivity | assumption]|]). apply Hsecond.
Qed.

(** C4. A call of [chat] sends the model a request whose context
    is the system prompt followed by exactly the last [min n 10] of the
    [n] messages stored at that point, the new user message included,
    each with its stored role and content and in the stored order, while
    the stored history keeps all [n] of them.  That is the first request;
    a second one, when a tool was called, carries the same context
    followed by the assistant's tool-call message and the tool message,
    and there is no third. *)
Theorem chat_context_window (user_message : string) (st : State) :
  let stored :=
    conversation_history (bot st)
    ++ [ {| role := "user"; content := Some user_message;
            timestamp := fst (now_isoformat (world st)) |} ] in
  let n := List.length stored in
  let context :=
    {| m_role := "system"; m_content := Some (system_prompt (bot st));
       m_tool_calls := None; m_tool_call_id := None |}
    :: map (fun msg => {| m_role := role msg; m_content := content msg;
                          m_tool_calls := None; m_tool_call_id := None |})
           (skipn (n - 10) stored) in
  exists request later newer,
    sent (snd (chat user_message st)) = sent st ++ request :: later /\
    req_messages request = context /\
    List.length (skipn (n - 10) stored) = Nat.min n 10 /\
    List.length (req_messages request) = S (Nat.min n 10) /\
    conversation_history (bot (snd (chat user_message st))) = stored ++ newer /\
    (later = []
     \/ exists request2 tool_call_message tool_message,
          later = [request2]
          /\ req_messages request2
             = context ++ [tool_call_message; tool_message]
          /\ m_role tool_call_message = "assistant"
          /\ m_tool_calls tool_call_message <> None
          /\ m_role tool_message = "tool"
          /\ m_tool_call_id tool_message <> None).
Proof.
  intros stored n context.
  pose proof (round1_messages user_message st) as Hctx.
  cbv zeta in Hctx. unfold user_message_of in Hctx.
  fold stored in Hctx. fold n in Hctx. fold context in Hctx.
  assert (Hlen : List.length (skipn (n - 10) stored) = Nat.min n 10)
    by (rewrite length_skipn; unfold n; lia).
  destruct (chat_round1 user_message st) as [later0 [newer [_ Hhist]]].
  destruct (chat_paths user_message st) as [_ Hsent].
  exists (round1_request user_message st).
  destruct Hsent as [Hsent|[response [w2 [am [tc [others [args [result
                      [_ [_ [_ [_ [_ Hsent]]]]]]]]]]]]].
  - exists [], newer. split; [exact Hsent|]. split; [exact Hctx|].
    split; [exact Hlen|]. split; [|split; [|now left]].
    + rewrite Hctx. unfold context. cbn [List.length].
      now rewrite length_map, Hlen.
    + rewrite Hhist. unfold stored, user_message_of.
      now rewrite <- app_assoc.
  - eexists [_], newer. split; [exact Hsent|]. split; [exact Hctx|].
    split; [exact Hlen|]. split; [|split].
    + rewrite Hctx. unfold context. cbn [List.length].
      now rewrite length_map, Hlen.
    + rewrite Hhist. unfold stored, user_message_of.
      now rewrite <- app_assoc.
    + right. eexists _, _, _. split; [reflexivity|].
      cbn [req_messages]. rewrite Hctx.
      split; [reflexivity|].
      cbn [m_role m_tool_calls m_tool_call_id].
      repeat split; discriminate.
Qed.

(** C10. A call of [chat] that returns has appended exactly two
    messages to the stored history, the user message and then one
    assistant message carrying the returned answer, whether or not a tool
    was called.  When a tool was called, the assistant's tool-call
    message (its content, and the id, the name and the re-serialised
    arguments of the first tool call of the round-1 answer) and the tool
    message (the serialised result of the tool, under the id of the
    call) are the two messages the round-2 request adds to the round-1
    context, and neither is stored. *)
Theorem chat_appends_two (user_message : string) (st st' : State)
    (final_content : option string) :
  chat user_message st = (Ok final_content, st') ->
  exists t1 t2,
    conversation_history (bot st')
    = conversation_history (bot st)
      ++ [ {| role := "user"; content := Some user_message; timestamp := t1 |};
           {| role := "assistant"; content := final_content; timestamp := t2 |} ]
    /\ (sent st' = sent st ++ [round1_request user_message st]
        \/ exists response w2 assistant_message tool_call others
                  function_args function_result request2,
             completions_create (round1_request user_message st)
                                (snd (now_isoformat (world st)))
             = (Ok response, w2)
             /\ index (choices response) 0 = Ok assistant_message
             /\ am_tool_calls assistant_message = Some (tool_call :: others)
             /\ json_loads (tc_arguments tool_call) = Ok function_args
             /\ _execute_function collection_query (tc_name tool_call)
                                  function_args
                = Ok function_result
             /\ sent st' = sent st ++ [round1_request user_message st; request2]
             /\ req_tools request2 = None
             /\ req_messages request2
                = req_messages (round1_request user_message st)
                  ++ [ {| m_role := "assistant";
                          m_content := am_content assistant_message;
                          m_tool_calls :=
                            Some [ {| tcd_id := tc_id tool_call;
                                      tcd_type := "function";
                                      tcd_name := tc_name tool_call;
                                      tcd_arguments :=
                                        json_dumps function_args |} ];
                          m_tool_call_id := None |};
                       {| m_role := "tool";
                          m_content := Some (json_dumps function_result);
                          m_tool_calls := None;
                          m_tool_call_id := Some (tc_id tool_call) |} ]).
Proof.
  intros H.
  destruct (chat_paths user_message st) as [Hhist Hsent].
  rewrite H in Hhist, Hsent. cbn [fst snd] in Hhist, Hsent.
  destruct Hhist as [[e [He _]]|[fc [t2 [Hfc Hhist]]]]; [discriminate|].
  injection Hfc as <-.
  exists (fst (now_isoformat (world st))), t2. split; [exact Hhist|].
  destruct Hsent as [Hsent|[response [w2 [am [tc [others [args [result
                      [H1 [H2 [H3 [H4 [H5 Hsent]]]]]]]]]]]]];
    [now left|].
  right. exists response, w2, am, tc, others, args, result.
  eexists. split; [exact H1|]. split; [exact H2|]. split; [exact H3|].
  split; [exact H4|]. split; [exact H5|]. split; [exact Hsent|].
  split; reflexivity.
Qed.

End ChatFacts.

Lemma chat_appends_two_witness :
  exists t1 t2,
    conversation_history
      (bot (snd (Sample.chat "What are Glory's skills?"
                             (Sample.start [Sample.tool_reply; Sample.final_reply]))))
    = conversation_history
        (bot (Sample.start [Sample.tool_reply; Sample.final_reply]))
      ++ [ {| role := "user"; content := Some "What are Glory's skills?";
              timestamp := t1 |};
           {| role := "assistant";
              content := Some "Glory is skilled in Python and Go.";
              timestamp := t2 |} ]
    /\ (sent (snd (Sample.chat "What are Glory's skills?"
                               (Sample.start [Sample.tool_reply; Sample.final_reply])))
        = sent (Sample.start [Sample.tool_reply; Sample.final_reply])
          ++ [round1_request Sample.World Sample.now_isoformat
                "What are Glory's skills?"
                (Sample.start [Sample.tool_reply; Sample.final_reply])]
        \/ exists response w2 assistant_message tool_call others
                  function_args function_result request2,
             Sample.completions_create
               (round1_request Sample.World Sample.now_isoformat
                  "What are Glory's skills?"
                  (Sample.start [Sample.tool_reply; Sample.final_reply]))
               (snd (Sample.now_isoformat
                       (world (Sample.start
                                 [Sample.tool_reply; Sample.final_reply]))))
             = (Ok response, w2)
             /\ index (choices response) 0 = Ok assistant_message
             /\ am_tool_calls assistant_message = Some (tool_call :: others)
             /\ Sample.json_loads (tc_arguments tool_call) = Ok function_args
             /\ _execute_function (collection_query Sample.kb)
                                  (tc_name tool_call) function_args
                = Ok function_result
             /\ sent (snd (Sample.chat "What are Glory's skills?"
                                    (Sample.start [Sample.tool_reply; Sample.final_reply])))
                = sent (Sample.start [Sample.tool_reply; Sample.final_reply])
                  ++ [round1_request Sample.World Sample.now_isoformat
                        "What are Glory's skills?"
                        (Sample.start [Sample.tool_reply; Sample.final_reply]);
                      request2]
             /\ req_tools request2 = None
             /\ req_messages request2
                = req_messages
                    (round1_request Sample.World Sample.now_isoformat
                       "What are Glory's skills?"
                       (Sample.start [Sample.tool_reply; Sample.final_reply]))
                  ++ [ {| m_role := "assistant";
                          m_content := am_content assistant_message;
                          m_tool_calls :=
                            Some [ {| tcd_id := tc_id tool_call;
                                      tcd_type := "function";
                                      tcd_name := tc_name tool_call;
                                      tcd_arguments :=
                                        Sample.json_dumps function_args |} ];
                          m_tool_call_id := None |};
                       {| m_role := "tool";
                          m_content :=
                            Some (Sample.json_dumps function_result);
                          m_tool_calls := None;
                          m_tool_call_id := Some (tc_id tool_call) |} ]).
Proof.
  apply (chat_appends_two Sample.World Sample.completions_create
           Sample.now_isoformat Sample.json_loads Sample.json_dumps
           (collection_query Sample.kb) "What are Glory's skills?"
           (Sample.start [Sample.tool_reply; Sample.final_reply])
           (snd (Sample.chat "What are Glory's skills?"
                             (Sample.start [Sample.tool_reply; Sample.final_reply])))
           (Some "Glory is skilled in Python and Go.")).
  vm_compute. reflexivity.
Defined.

(** ** The scenarios of the protocol, run on the sample service *)

(** The model answers directly: the answer is returned and the history
    holds the user message and the answer. *)
Example chat_direct :
  let r := Sample.chat "Hello" (Sample.start [Sample.direct_reply]) in
  fst r = Ok (Some "Hi there!")
  /\ map role (conversation_history (bot (snd r))) = ["user"; "assistant"]
  /\ map content (conversation_history (bot (snd r)))
     = [Some "Hello"; Some "Hi there!"]
  /\ List.length (sent (snd r)) = 1%nat.
Proof. vm_compute. repeat split. Qed.

(** The model asks for a search: the round-2 context carries the tool
    call and its result, the history does not. *)
Example chat_with_tool :
  let r := Sample.chat "What are Glory's skills?"
             (Sample.start [Sample.tool_reply; Sample.final_reply]) in
  fst r = Ok (Some "Glory is skilled in Python and Go.")
  /\ map role (conversation_history (bot (snd r))) = ["user"; "assistant"]
  /\ map (fun q => map m_role (req_messages q)) (sent (snd r))
     = [ ["system"; "user"]; ["system"; "user"; "assistant"; "tool"] ].
Proof. vm_compute. repeat split. Qed.

(** The model service fails: [chat] raises, and the user message stays
    stored without an answer. *)
Example chat_service_failure :
  let r := Sample.chat "Hello" (Sample.start []) in
  fst r = Raise (ServiceError "no reply")
  /\ map role (conversation_history (bot (snd r))) = ["user"].
Proof. vm_compute. repeat split. Qed.

(** Fifteen turns: the context of the fifteenth request is the system
    prompt and ten messages, and the history holds thirty messages. *)
Fixpoint turns (n : nat) (st : St Sample.World) : St Sample.World :=
  match n with
  | O => st
  | S n' => snd (Sample.chat "Hello" (turns n' st))
  end.

Example fifteen_turns :
  let st := turns 15 (Sample.start (repeat Sample.direct_reply 15)) in
  List.length (conversation_history (bot st)) = 30%nat
  /\ option_map (fun q => List.length (req_messages q)) (nth_error (sent st) 14)
     = Some 11%nat.
Proof. vm_compute. repeat split. Qed.

(* ===================================================================== *)
(** * Relevance scores *)
(* ===================================================================== *)

(** [0 <= x <= 1] on binary64 numbers; false for NaN. *)
Definition in_unit_interval (x : float) : bool :=
  ((0 <=? x) && (x <=? 1))%float.

(** The arithmetic of binary64 numbers, as the kernel specifies it, for
    the one subtraction [search] makes. *)
Module Binary64.

Definition one : spec_float := S754_finite false 4503599627370496 (-52).

Definition zero : spec_float := S754_zero false.

Lemma Prim2SF_one : Prim2SF 1 = one.
Proof. reflexivity. Qed.

Lemma Prim2SF_zero : Prim2SF 0 = zero.
Proof. reflexivity. Qed.

Definition below_one (x : spec_float) : Prop :=
  match x with
  | S754_zero false => True
  | S754_finite false m e =>
      e < -52 \/ (e = -52 /\ (m <= 4503599627370496)%positive)
  | _ => False
  end.

Lemma SFleb_zero_pos m e : SFleb zero (S754_finite false m e) = true.
Proof. reflexivity. Qed.

Lemma SFcompare_pos_one m e :
  SFcompare (S754_finite false m e) one
  = Some match Z.compare e (-52) with
         | Lt => Lt
         | Gt => Gt
         | Eq => Pos.compare_cont Eq m 4503599627370496
         end.
Proof. reflexivity. Qed.

Lemma SFleb_pos_one m e :
  e < -52 \/ (e = -52 /\ (m <= 4503599627370496)%positive) ->
  SFleb (S754_finite false m e) one = true.
Proof.
  intros H. unfold SFleb. rewrite SFcompare_pos_one.
  destruct H as [H|[-> H]].
  - apply Z.compare_lt_iff in H. rewrite H. reflexivity.
  - rewrite Z.compare_refl, Pos.compare_cont_spec.
    unfold Pos.le in H.
    destruct (m ?= 4503599627370496)%positive;
      [reflexivity | reflexivity | now elim H].
Qed.

Lemma below_one_leb x :
  below_one x -> SFleb zero x = true /\ SFleb x one = true.
Proof.
  destruct x as [[|]|[|]| |[|] m e]; cbn [below_one]; try contradiction.
  - split; reflexivity.
  - intros H. split; [apply SFleb_zero_pos | now apply SFleb_pos_one].
Qed.

Lemma digits2_size p : digits2_pos p = Pos.size p.
Proof. induction p; simpl; now rewrite ?IHp. Qed.

Lemma digits2_lt p : Z.pos p < 2 ^ Z.pos (digits2_pos p).
Proof.
  rewrite digits2_size. pose proof (Pos.size_gt p) as H.
  rewrite <- Pos2Z.inj_pow. lia.
Qed.

Lemma digits2_le_of_lt p k : 0 <= k -> Z.pos p < 2 ^ k -> Z.pos (digits2_pos p) <= k.
Proof.
  intros Hk H. rewrite digits2_size.
  pose proof (Pos.size_le p) as Hle.
  assert (H2 : 2 ^ Z.pos (Pos.size p) <= 2 * Z.pos p).
  { rewrite <- Pos2Z.inj_pow. change (2 * Z.pos p) with (Z.pos p~0). lia. }
  destruct (Z.le_gt_cases (Z.pos (Pos.size p)) k) as [|Hgt]; [assumption|].
  assert (2 ^ (k + 1) <= 2 ^ Z.pos (Pos.size p))
    by (apply Z.pow_le_mono_r; lia).
  rewrite Z.pow_add_r in H0 by lia. lia.
Qed.

Lemma nat_iter_xO n m :
  Z.pos (Nat.iter n xO m) = Z.pos m * 2 ^ Z.of_nat n.
Proof.
  induction n as [|n IH]; [simpl; lia|].
  rewrite Nat2Z.inj_succ, Z.pow_succ_r by lia.
  change (Nat.iter (S n) xO m) with (xO (Nat.iter n xO m)).
  rewrite Pos2Z.inj_xO, IH. ring.
Qed.

Lemma iter_xO m d : Z.pos (Pos.iter xO m d) = Z.pos m * 2 ^ Z.pos d.
Proof.
  rewrite Pos2Nat.inj_iter.
  change (nat_rect (fun _ => positive) m (fun _ => xO) (Pos.to_nat d))
    with (Nat.iter (Pos.to_nat d) xO m).
  now rewrite nat_iter_xO, positive_nat_Z.
Qed.

Lemma iter_pos_nat {A} (f : A -> A) p x :
  SpecFloat.iter_pos f p x = Nat.iter (Pos.to_nat p) f x.
Proof.
  revert x. induction p as [p IH|p IH|]; intros x; simpl SpecFloat.iter_pos.
  - rewrite !IH, <- Nat.iter_succ_r, <- Nat.iter_add.
    f_equal. rewrite Pos2Nat.inj_xI. lia.
  - rewrite !IH, <- Nat.iter_add.
    f_equal. rewrite Pos2Nat.inj_xO. lia.
  - reflexivity.
Qed.

Lemma shr_1_m r : 0 <= shr_m r -> shr_m (shr_1 r) = shr_m r / 2.
Proof.
  destruct r as [[|[p|p|]|p] r s]; simpl; intros H; try reflexivity; try lia.
  - rewrite Pos2Z.inj_xI. symmetry.
    replace (2 * Z.pos p + 1) with (1 + Z.pos p * 2) by lia.
    rewrite Z.div_add by lia. reflexivity.
  - rewrite Pos2Z.inj_xO. symmetry.
    replace (2 * Z.pos p) with (Z.pos p * 2) by lia.
    now rewrite Z.div_mul by lia.
Qed.

Lemma iter_shr_1_m n : forall r, 0 <= shr_m r ->
  shr_m (Nat.iter n shr_1 r) = shr_m r / 2 ^ Z.of_nat n.
Proof.
  induction n as [|n IH]; intros r H.
  - simpl. now rewrite Z.div_1_r.
  - simpl Nat.iter. rewrite shr_1_m.
    + rewrite IH by assumption.
      rewrite Nat2Z.inj_succ, Z.pow_succ_r by lia.
      rewrite Z.div_div by lia. f_equal. lia.
    + rewrite IH by assumption. apply Z.div_pos; [assumption|].
      apply Z.pow_pos_nonneg; lia.
Qed.

Lemma shr_m_shift m l e n :
  0 <= m ->
  let '(r, e') := shr (shr_record_of_loc m l) e n in
  (n <= 0 /\ shr_m r = m /\ e' = e)
  \/ (0 < n /\ shr_m r = m / 2 ^ n /\ e' = e + n).
Proof.
  intros Hm. unfold shr.
  assert (Hrec : shr_m (shr_record_of_loc m l) = m)
    by (destruct l as [|[| |]]; reflexivity).
  destruct n as [|p|p].
  - left. repeat split; [lia | assumption].
  - right. rewrite iter_pos_nat, iter_shr_1_m by (rewrite Hrec; assumption).
    rewrite Hrec, positive_nat_Z. repeat split; lia.
  - left. repeat split; [lia | assumption].
Qed.

Lemma fexp_64 k : fexp prec emax k = Z.max (k - 53) (-1074).
Proof. reflexivity. Qed.

Lemma two_pow_52 : Z.pos 4503599627370496 = 2 ^ 52.
Proof. reflexivity. Qed.

Lemma round_nearest_even_bounds m l :
  m <= round_nearest_even m l <= m + 1.
Proof.
  destruct l as [|[| |]]; cbn [round_nearest_even];
    try destruct (Z.even m); lia.
Qed.

Lemma Zdigits2_le m k : 0 <= k -> 0 <= m < 2 ^ k -> Zdigits2 m <= k.
Proof.
  intros Hk [H0 H]. destruct m as [|p|p]; cbn [Zdigits2]; try lia.
  now apply digits2_le_of_lt.
Qed.

(** What [shl_align] returns when it is asked for a smaller exponent. *)
Lemma shl_align_value mx ex ez :
  ez <= ex ->
  snd (shl_align mx ex ez) = ez /\
  Z.pos (fst (shl_align mx ex ez)) = Z.pos mx * 2 ^ (ex - ez).
Proof.
  intros H. unfold shl_align.
  destruct (ez - ex) as [|p|p] eqn:E; cbn [fst snd]; try lia.
  - replace (ex - ez) with 0 by lia. rewrite Z.pow_0_r. lia.
  - rewrite iter_xO. replace (ex - ez) with (Z.pos p) by lia. lia.
Qed.

(** Rounding a positive value below one gives a value that is at most
    one. *)
Lemma binary_round_aux_below mz ez :
  ez <= -52 -> Z.pos mz < 2 ^ (- ez) ->
  below_one (binary_round_aux prec emax false (Z.pos mz) ez loc_Exact).
Proof.
  intros He Hm. unfold binary_round_aux, shr_fexp.
  rewrite !fexp_64.
  pose proof (shr_m_shift (Z.pos mz) loc_Exact ez
                (Z.max (Zdigits2 (Z.pos mz) + ez - 53) (-1074) - ez)
                ltac:(lia)) as H1.
  destruct (shr (shr_record_of_loc (Z.pos mz) loc_Exact) ez _)
    as [mrs1 e1].
  assert (Hd : Zdigits2 (Z.pos mz) <= - ez)
    by (apply Zdigits2_le; lia).
  assert (H1' : e1 <= -52 /\ 0 <= shr_m mrs1 < 2 ^ (- e1)).
  { destruct H1 as [[Hn [-> ->]]|[Hn [-> ->]]].
    - split; [assumption | lia].
    - split; [lia|]. split.
      + apply Z.div_pos; [lia | apply Z.pow_pos_nonneg; lia].
      + apply Z.div_lt_upper_bound; [apply Z.pow_pos_nonneg; lia|].
        rewrite <- Z.pow_add_r by lia.
        match goal with |- _ < 2 ^ ?k => replace k with (- ez) by lia end.
        assumption. }
  clear H1 Hd. destruct H1' as [He1 Hm1].
  pose proof (round_nearest_even_bounds (shr_m mrs1)
                (loc_of_shr_record mrs1)) as Hr.
  set (m2 := round_nearest_even (shr_m mrs1) (loc_of_shr_record mrs1)) in *.
  assert (Hm2 : 0 <= m2 <= 2 ^ (- e1)) by lia.
  pose proof (shr_m_shift m2 loc_Exact e1
                (Z.max (Zdigits2 m2 + e1 - 53) (-1074) - e1)
                ltac:(lia)) as H2.
  destruct (shr (shr_record_of_loc m2 loc_Exact) e1 _) as [mrs2 e2].
  assert (Hd2 : Zdigits2 m2 <= - e1 + 1).
  { apply Zdigits2_le; [lia|]. split; [lia|].
    rewrite Z.pow_add_r by lia. lia. }
  assert (H2' : e2 <= -52 /\ 0 <= shr_m mrs2 <= 2 ^ (- e2)).
  { destruct H2 as [[Hn [-> ->]]|[Hn [-> ->]]].
    - split; [assumption | lia].
    - split; [lia|]. split.
      + apply Z.div_pos; [lia | apply Z.pow_pos_nonneg; lia].
      + apply Z.div_le_upper_bound; [apply Z.pow_pos_nonneg; lia|].
        rewrite <- Z.pow_add_r by lia.
        match goal with |- _ <= 2 ^ ?k => replace k with (- e1) by lia end.
        lia. }
  clear H2 Hd2. destruct H2' as [He2 Hm2'].
  destruct (shr_m mrs2) as [|p|p]; [exact I | | lia].
  replace (e2 <=? emax - prec) with true
    by (symmetry; apply Z.leb_le; change (emax - prec) with 971; lia).
  cbn [below_one].
  destruct (Z.eq_dec e2 (-52)) as [->|Hne]; [right | left; lia].
  split; [reflexivity|].
  apply Pos.leb_le. rewrite Pos2Z.inj_leb. apply Z.leb_le.
  rewrite two_pow_52. exact (proj2 Hm2').
Qed.

Lemma binary_round_below mx ex :
  ex <= -52 -> Z.pos mx < 2 ^ (- ex) ->
  below_one (binary_round prec emax false mx ex).
Proof.
  intros He Hm. unfold binary_round. rewrite fexp_64.
  set (ez := Z.max (Z.pos (digits2_pos mx) + ex - 53) (-1074)).
  destruct (Z.le_gt_cases ez ex) as [Hle|Hgt].
  - destruct (shl_align_value mx ex ez Hle) as [Hsnd Hfst].
    destruct (shl_align mx ex ez) as [mz ez']. cbn [fst snd] in *. subst ez'.
    apply binary_round_aux_below; [lia|].
    rewrite Hfst. replace (- ez) with (- ex + (ex - ez)) by lia.
    rewrite Z.pow_add_r by lia.
    apply Z.mul_lt_mono_pos_r; [apply Z.pow_pos_nonneg; lia | assumption].
  - assert (Hsame : shl_align mx ex ez = (mx, ex)).
    { unfold shl_align. destruct (ez - ex) eqn:E; try reflexivity. lia. }
    rewrite Hsame. now apply binary_round_aux_below.
Qed.

(** [1 - x] for a finite positive [x] that is at most one. *)
Lemma SFsub_one_below m e :
  e <= -52 -> Z.pos m <= 2 ^ (- e) ->
  below_one (SF64sub one (S754_finite false m e)).
Proof.
  intros He Hm. unfold SF64sub, SFsub, one. cbn [cond_Zopp].
  rewrite Z.min_r by lia.
  destruct (shl_align_value 4503599627370496 (-52) e He) as [_ H1].
  destruct (shl_align_value m e e (Z.le_refl e)) as [_ H2].
  rewrite H1, H2, two_pow_52, Z.sub_diag, Z.pow_0_r, Z.mul_1_r.
  rewrite <- Z.pow_add_r by lia.
  replace (52 + (-52 - e)) with (- e) by lia.
  unfold binary_normalize.
  destruct (2 ^ (- e) - Z.pos m) as [|p|p] eqn:E; [exact I | | lia].
  apply binary_round_below; [assumption | lia].
Qed.

(** A valid finite number has a mantissa of at most 53 bits. *)
Lemma valid_mantissa s m e :
  valid_binary (S754_finite s m e) = true -> Z.pos m < 2 ^ 53.
Proof.
  cbn [SpecFloat.valid_binary]. unfold bounded, canonical_mantissa.
  rewrite fexp_64. intros H. apply andb_true_iff in H as [H _].
  apply Z.eqb_eq in H.
  pose proof (digits2_lt m) as Hlt.
  assert (Z.pos (digits2_pos m) <= 53) by lia.
  assert (2 ^ Z.pos (digits2_pos m) <= 2 ^ 53)
    by (apply Z.pow_le_mono_r; lia).
  lia.
Qed.

Lemma SFsub_one_unit x :
  valid_binary x = true ->
  SFleb zero x = true -> SFleb x one = true ->
  SFleb zero (SF64sub one x) = true /\ SFleb (SF64sub one x) one = true.
Proof.
  intros Hv H0 H1. apply below_one_leb.
  destruct x as [s|s| |s m e].
  - change (below_one one). right. split; [reflexivity | apply Pos.le_refl].
  - destruct s; discriminate.
  - discriminate.
  - destruct s; [discriminate|].
    apply valid_mantissa in Hv.
    unfold SFleb in H1. rewrite SFcompare_pos_one in H1.
    destruct (Z.compare_spec e (-52)) as [->|Hlt|Hgt]; [| |discriminate].
    + apply SFsub_one_below; [lia|].
      rewrite Pos.compare_cont_spec in H1.
      change (- -52) with 52. rewrite <- two_pow_52.
      apply Pos2Z.pos_le_pos. unfold Pos.le.
      destruct (m ?= 4503599627370496)%positive; discriminate.
    + apply SFsub_one_below; [lia|].
      assert (2 ^ 53 <= 2 ^ (- e)) by (apply Z.pow_le_mono_r; lia). lia.
Qed.

End Binary64.

(** On binary64 numbers, [1 - d] is in the unit interval when [d] is. *)
Lemma sub_one_unit (d : float) :
  in_unit_interval d = true -> in_unit_interval (1 - d) = true.
Proof.
  unfold in_unit_interval. rewrite !andb_true_iff, !leb_spec, sub_spec.
  rewrite Binary64.Prim2SF_one, Binary64.Prim2SF_zero.
  intros [H0 H1]. apply Binary64.SFsub_one_unit; try assumption.
  apply Prim2SF_valid.
Qed.


(** C5, as the code has it.  Every result of [search] carries the
    score [1 - distance] of its document when the backend supplies
    distances, and [1.0] when it does not; the score is in the unit
    interval in the second case, and in the first whenever the distance
    is. *)
Theorem relevance_score_formula
    (backend_query : json -> Z -> res QueryResult) (query : json) (top_k : Z)
    (k : nat) (r : SearchResult.t) :
  nth_error (Search.search backend_query query top_k) k = Some r ->
  exists results,
    backend_query query top_k = Ok results /\
    match qr_distances results with
    | Some distances =>
        exists ds d,
          index_opt distances 0 = Ok ds /\ index ds k = Ok d /\
          SearchResult.relevance_score r = (1 - d)%float /\
          (in_unit_interval d = true ->
           in_unit_interval (SearchResult.relevance_score r) = true)
    | None =>
        SearchResult.relevance_score r = 1%float /\
        in_unit_interval (SearchResult.relevance_score r) = true
    end.
Proof.
  intros Hk.
  apply search_nonempty in Hk
    as [results [docs [rest [doc [Hq [_ [_ [_ Hf]]]]]]]].
  exists results. split; [exact Hq|].
  unfold Search.format_result in Hf.
  destruct (index_opt (qr_metadatas results) 0) as [metas|]; [|discriminate].
  cbn [Py.bind] in Hf.
  destruct (index metas k) as [[meta|]|]; try discriminate.
  cbn [Py.bind] in Hf.
  destruct (lookup "source" meta) as [src|]; [|discriminate].
  cbn [Py.bind] in Hf.
  destruct (qr_distances results) as [distances|].
  - destruct (index_opt distances 0) as [ds|] eqn:Eds; [|discriminate].
    cbn [Py.bind] in Hf.
    destruct (index ds k) as [d|] eqn:Ed; [|discriminate].
    cbn [Py.bind] in Hf. injection Hf as <-. cbn [SearchResult.relevance_score].
    exists ds, d. split; [reflexivity|]. split; [exact Ed|].
    split; [reflexivity | apply sub_one_unit].
  - cbn [Py.bind] in Hf. injection Hf as <-. split; reflexivity.
Qed.

Lemma relevance_score_formula_witness :
  exists results,
    collection_query Sample.kb (JStr "skills") 3 = Ok results /\
    match qr_distances results with
    | Some distances =>
        exists ds d,
          index_opt distances 0 = Ok ds /\ index ds 0 = Ok d /\
          SearchResult.relevance_score
            {| SearchResult.content := "Old resume text";
               SearchResult.source := MStr "cv.txt";
               SearchResult.relevance_score := 0.75%float |}
          = (1 - d)%float /\
          (in_unit_interval d = true ->
           in_unit_interval
             (SearchResult.relevance_score
                {| SearchResult.content := "Old resume text";
                   SearchResult.source := MStr "cv.txt";
                   SearchResult.relevance_score := 0.75%float |}) = true)
    | None =>
        SearchResult.relevance_score
          {| SearchResult.content := "Old resume text";
             SearchResult.source := MStr "cv.txt";
             SearchResult.relevance_score := 0.75%float |} = 1%float /\
        in_unit_interval
          (SearchResult.relevance_score
             {| SearchResult.content := "Old resume text";
                SearchResult.source := MStr "cv.txt";
                SearchResult.relevance_score := 0.75%float |}) = true
    end.
Proof.
  apply (relevance_score_formula (collection_query Sample.kb) (JStr "skills") 3
           0 {| SearchResult.content := "Old resume text";
                SearchResult.source := MStr "cv.txt";
                SearchResult.relevance_score := 0.75%float |}).
  reflexivity.
Defined.

(** C5, as stated, fails: under a metric that is not normalised to the
    unit interval a distance of 1.5 gives the score -0.5. *)
Lemma relevance_score_negative :
  Search.search (collection_query Sample.far_kb) (JStr "skills") 3
  = [ {| SearchResult.content := "Old resume text";
         SearchResult.source := MStr "cv.txt";
         SearchResult.relevance_score := (-0.5)%float |} ]
  /\ in_unit_interval (-0.5)%float = false
  /\ ((-0.5)%float <? 0)%float = true.
Proof. repeat split. Qed.

Example relevance_default :
  Search.search Sample.no_distances_query (JStr "skills") 3
  = [ {| SearchResult.content := "Old resume text";
         SearchResult.source := MStr "cv.txt";
         SearchResult.relevance_score := 1%float |} ].
Proof. reflexivity. Qed.

(* ===================================================================== *)
(** * More on the chunker: what the chunks hold *)
(* ===================================================================== *)

Lemma string_app_nil_r (s : string) : (s ++ "")%string = s.
Proof. induction s as [|c s IH]; simpl; [reflexivity | now rewrite IH]. Qed.

(** Reading a word: the characters of a word extend the current run. *)
Lemma split_from_word w : forall cur s,
  no_space w = true ->
  split_from cur (w ++ s)%string = split_from (cur ++ w)%string s.
Proof.
  induction w as [|c w IH]; intros cur s Hw; simpl.
  - now rewrite string_app_nil_r.
  - simpl in Hw. apply andb_true_iff in Hw as [Hc Hw].
    apply negb_true_iff in Hc. rewrite Hc, IH by assumption.
    now rewrite string_app_assoc.
Qed.

(** Joining words with single spaces and splitting again gives the words
    back. *)
Lemma split_join ws : Forall is_word ws -> split (join " " ws) = ws.
Proof.
  unfold split, join. induction 1 as [|w ws [Hne Hns] Hws IH]; [reflexivity|].
  destruct ws as [|w' ws].
  - simpl. rewrite <- (string_app_nil_r w) at 1.
    rewrite split_from_word by assumption. simpl. now rewrite Hne.
  - change (String.concat " " (w :: w' :: ws))
      with (w ++ String " " (String.concat " " (w' :: ws)))%string.
    rewrite split_from_word by assumption.
    cbn [split_from append]. change (isspace " ") with true. cbv iota.
    now rewrite Hne, IH.
Qed.

Lemma firstn_min_length {A} (n : nat) (l : list A) :
  firstn (Nat.min n (List.length l)) l = firstn n l.
Proof.
  destruct (Nat.le_ge_cases n (List.length l)).
  - now rewrite Nat.min_l.
  - rewrite Nat.min_r by assumption.
    rewrite firstn_all, firstn_all2 by assumption. reflexivity.
Qed.

(** A slice with non-negative bounds, by position and length. *)
Lemma slice_nat {A} (l : list A) (a b : nat) :
  slice l (Z.of_nat a) (Z.of_nat a + Z.of_nat b) = firstn b (skipn a l).
Proof.
  unfold slice, slice_bound.
  destruct (Z.ltb_spec (Z.of_nat a) 0); [lia|].
  destruct (Z.ltb_spec (Z.of_nat a + Z.of_nat b) 0); [lia|].
  destruct (Nat.le_gt_cases a (List.length l)) as [Hle|Hgt].
  - rewrite (Z.min_l (Z.of_nat a)) by lia. rewrite Nat2Z.id.
    rewrite <- (firstn_min_length b (skipn a l)), length_skipn.
    f_equal. lia.
  - rewrite (Z.min_r (Z.of_nat a)) by lia.
    rewrite Nat2Z.id, skipn_all, (skipn_all2 l) by lia.
    now rewrite !firstn_nil.
Qed.

Lemma slice_words text a b : Forall is_word (slice (split text) a b).
Proof.
  apply Forall_forall. intros x Hx. apply slice_In in Hx.
  eapply Forall_forall; [apply split_words | exact Hx].
Qed.

(** The chunks, one per index of the range, in order. *)
Lemma chunk_text_nth text chunk_size overlap chunks k c :
  0 < chunk_size - overlap -> 0 < chunk_size ->
  _chunk_text text chunk_size overlap = Ok chunks ->
  nth_error chunks k = Some c ->
  c = chunk_at (split text) chunk_size (Z.of_nat k * (chunk_size - overlap))
  /\ 0 <= Z.of_nat k * (chunk_size - overlap)
       < Z.of_nat (List.length (split text)).
Proof.
  intros Hstep Hsize Hrun Hk.
  rewrite chunk_text_positive in Hrun by assumption.
  injection Hrun as <-.
  rewrite !nth_error_map, nth_error_seq in Hk.
  destruct (Nat.ltb_spec k
              (Z.to_nat (if 0 <? Z.of_nat (List.length (split text))
                         then (Z.of_nat (List.length (split text)) - 1)
                              / (chunk_size - overlap) + 1
                         else 0))) as [Hlt|]; [|discriminate].
  simpl in Hk. injection Hk as <-. split; [reflexivity|].
  apply range_indices_inside; [assumption | lia].
Qed.

(** The [k]-th chunk of a text holds the words
    [k * step .. k * step + chunk_size - 1] of the text, where
    [step = chunk_size - overlap] is positive: splitting the chunk gives
    exactly that slice, which has at least one and at most [chunk_size]
    words. *)
Theorem chunk_words (text : string) (chunk_size overlap : Z)
    (chunks : list string) (k : nat) (c : string) :
  0 < chunk_size - overlap -> 0 < chunk_size ->
  _chunk_text text chunk_size overlap = Ok chunks ->
  nth_error chunks k = Some c ->
  split c = slice (split text) (Z.of_nat k * (chunk_size - overlap))
                  (Z.of_nat k * (chunk_size - overlap) + chunk_size)
  /\ (0 < List.length (split c) <= Z.to_nat chunk_size)%nat.
Proof.
  intros Hstep Hsize Hrun Hk.
  destruct (chunk_text_nth _ _ _ _ _ _ Hstep Hsize Hrun Hk) as [-> Hin].
  unfold chunk_at. rewrite split_join by apply slice_words.
  split; [reflexivity|]. split.
  - pose proof (slice_inside (split text) _ chunk_size Hin Hsize) as Hne.
    destruct (slice (split text) _ _); [contradiction | simpl; lia].
  - unfold slice. rewrite length_firstn.
    unfold slice_bound.
    destruct (Z.ltb_spec (Z.of_nat k * (chunk_size - overlap)) 0); [lia|].
    destruct (Z.ltb_spec (Z.of_nat k * (chunk_size - overlap) + chunk_size) 0);
      lia.
Qed.

Lemma chunk_words_witness :
  split "c d e"
  = slice (split "a b c d e") (Z.of_nat 1 * (3 - 1)) (Z.of_nat 1 * (3 - 1) + 3)
  /\ (0 < List.length (split "c d e") <= Z.to_nat 3)%nat.
Proof.
  apply (chunk_words "a b c d e" 3 1 ["a b c"; "c d e"; "e"] 1 "c d e");
    try lia; reflexivity.
Defined.

(** Cutting a list into consecutive pieces of [step] elements and
    putting them together again. *)
Lemma pieces_cover {A} (step : nat) : forall (n : nat) (l : list A),
  (List.length l <= n * step)%nat ->
  List.concat (map (fun k => firstn step (skipn (k * step) l)) (seq 0 n)) = l.
Proof.
  induction n as [|n IH]; intros l Hlen.
  - destruct l; [reflexivity | simpl in Hlen; lia].
  - cbn [seq map List.concat]. rewrite <- seq_shift, map_map.
    rewrite (map_ext _ (fun k => firstn step (skipn (k * step) (skipn step l)))).
    + rewrite IH by (rewrite length_skipn; lia).
      simpl. apply firstn_skipn.
    + intros k. rewrite skipn_skipn. do 2 f_equal. lia.
Qed.

(** When the overlap is not negative, no word is lost: the first
    [chunk_size - overlap] words of each chunk, put end to end in the
    order of the chunks, are the words of the text. *)
Theorem chunks_cover_text (text : string) (chunk_size overlap : Z)
    (chunks : list string) :
  0 < chunk_size - overlap -> 0 <= overlap ->
  _chunk_text text chunk_size overlap = Ok chunks ->
  List.concat (map (fun c => firstn (Z.to_nat (chunk_size - overlap)) (split c))
              chunks)
  = split text.
Proof.
  intros Hstep Hov Hrun.
  rewrite chunk_text_positive in Hrun by lia. injection Hrun as <-.
  set (words := split text). set (step := chunk_size - overlap) in *.
  set (W := Z.of_nat (List.length words)).
  rewrite !map_map.
  rewrite (map_ext _ (fun k => firstn (Z.to_nat step)
                                 (skipn (k * Z.to_nat step) words))).
  - apply pieces_cover.
    destruct (Z.ltb_spec 0 W) as [HW|HW]; [|unfold W in *; simpl; lia].
    assert (0 <= (W - 1) / step) by (apply Z.div_pos; lia).
    assert (W - 1 < step * Z.succ ((W - 1) / step))
      by (apply Z.mul_succ_div_gt; lia).
    unfold W in *. nia.
  - intros k. unfold chunk_at. rewrite split_join by apply slice_words.
    replace (Z.of_nat k * step) with (Z.of_nat (k * Z.to_nat step)) by lia.
    replace chunk_size with (Z.of_nat (Z.to_nat chunk_size)) at 1 by lia.
    rewrite slice_nat, firstn_firstn. f_equal. unfold step. lia.
Qed.

Lemma chunks_cover_text_witness :
  List.concat (map (fun c => firstn (Z.to_nat (3 - 1)) (split c))
              ["a b c"; "c d e"; "e"])
  = split "a b c d e".
Proof.
  apply (chunks_cover_text "a b c d e" 3 1 ["a b c"; "c d e"; "e"]);
    try lia; reflexivity.
Defined.

(** With a negative overlap the windows leave gaps, and the words in
    the gaps are in no chunk. *)
Example chunk_negative_overlap_drops_words :
  _chunk_text "a b c d e f" 2 (-1) = Ok ["a b"; "d e"].
Proof. reflexivity. Qed.

(** The filter of the chunker at work: whatever the parameters, no chunk
    is empty or made of whitespace only. *)
Lemma lstrip_blank s : has_word_char s = false -> lstrip s = "".
Proof.
  induction s as [|c s IH]; simpl; [reflexivity|].
  intros H. apply orb_false_iff in H as [Hc Hs].
  apply negb_false_iff in Hc. rewrite Hc. now apply IH.
Qed.

Lemma strip_nonempty_inv s : nonempty (strip s) = true -> has_word_char s = true.
Proof.
  intros H. destruct (has_word_char s) eqn:E; [reflexivity|].
  unfold strip in H. now rewrite (lstrip_blank s E) in H.
Qed.

Lemma chunk_not_blank text chunk_size overlap chunks c :
  _chunk_text text chunk_size overlap = Ok chunks ->
  In c chunks -> has_word_char c = true.
Proof.
  unfold _chunk_text. intros Hrun Hin.
  destruct (range 0 _ (chunk_size - overlap)) as [idx|e]; [|discriminate].
  cbn [Py.bind] in Hrun. injection Hrun as <-.
  rewrite chunk_fold in Hin. simpl in Hin.
  apply filter_In in Hin as [_ Hc]. now apply strip_nonempty_inv.
Qed.

Lemma split_from_nonempty s : forall cur,
  nonempty cur = true -> split_from cur s <> [].
Proof.
  induction s as [|c s IH]; intros cur Hcur; simpl.
  - now rewrite Hcur.
  - destruct (isspace c); [now rewrite Hcur|].
    apply IH, nonempty_app_char.
Qed.

Lemma split_has_word s : has_word_char s = true -> split s <> [].
Proof.
  unfold split. generalize "". induction s as [|c s IH]; intros cur H;
    [discriminate|]. simpl in *.
  destruct (isspace c); simpl in H.
  - destruct (nonempty cur); [discriminate | now apply IH].
  - apply split_from_nonempty, nonempty_app_char.
Qed.

(** A text with a word gives at least one chunk under the defaults. *)
Lemma chunk_text_default_some text chunks :
  has_word_char text = true -> _chunk_text_default text = Ok chunks ->
  chunks <> [].
Proof.
  intros Hw Hrun. unfold _chunk_text_default in Hrun.
  rewrite chunk_text_positive in Hrun by lia. injection Hrun as <-.
  apply split_has_word in Hw. intros Hnil.
  apply (f_equal (@List.length string)) in Hnil.
  rewrite !length_map, length_seq in Hnil. simpl List.length in Hnil.
  destruct (split text) as [|w ws] eqn:E; [contradiction|].
  set (W := Z.of_nat (List.length (w :: ws))) in *.
  assert (0 < W) by (unfold W; simpl List.length; lia).
  assert (0 <= (W - 1) / 450) by (apply Z.div_pos; lia).
  destruct (Z.ltb_spec 0 W); lia.
Qed.

(* ===================================================================== *)
(** * More on ingestion: what a scan of the folder collects *)
(* ===================================================================== *)

(** The entry describes a chunk of a regular file of the folder that
    has a supported suffix: its id and metadata are those the file gives,
    and its text is not blank. *)
Definition entry_of (paths : list Path) (e : Entry) : Prop :=
  exists p d i,
    In p paths /\ is_file p = true /\
    mem (lower (suffix p)) supported_extensions = true /\
    entry_id e = doc_id p d i /\
    entry_metadata e = [("source", MStr (name p));
                        ("chunk_index", MInt (Z.of_nat i));
                        ("file_type", MStr (suffix p))] /\
    has_word_char (entry_document e) = true.

(** The three lists of the batch go together, every entry is as
    [entry_of] says, and every counted file has given a chunk. *)
Definition batch_wellformed (paths : list Path) (b : Batch) : Prop :=
  List.length (documents b) = List.length (ids b) /\
  List.length (metadatas b) = List.length (ids b) /\
  (doc_count b <= List.length (ids b))%nat /\
  Forall (entry_of paths) (new_entries b).

Lemma zip3_app ids1 docs1 metas1 ids2 docs2 metas2 :
  List.length docs1 = List.length ids1 ->
  List.length metas1 = List.length ids1 ->
  zip3 (ids1 ++ ids2) (docs1 ++ docs2) (metas1 ++ metas2)
  = zip3 ids1 docs1 metas1 ++ zip3 ids2 docs2 metas2.
Proof.
  revert docs1 metas1.
  induction ids1 as [|i ids1 IH]; intros [|d docs1] [|m metas1] Hd Hm;
    try discriminate; [reflexivity|].
  simpl. f_equal. apply IH; simpl in *; lia.
Qed.

(** The inner loop keeps the batch well formed, and adds one entry per
    chunk. *)
Lemma add_chunks_wellformed paths p chunks : forall start b,
  In p paths -> is_file p = true ->
  mem (lower (suffix p)) supported_extensions = true ->
  Forall (fun c => has_word_char c = true) chunks ->
  List.length (documents b) = List.length (ids b) ->
  List.length (metadatas b) = List.length (ids b) ->
  Forall (entry_of paths) (new_entries b) ->
  let b' := fold_left (add_chunk p)
              (combine (seq start (List.length chunks)) chunks) b in
  List.length (documents b') = List.length (ids b') /\
  List.length (metadatas b') = List.length (ids b') /\
  List.length (ids b') = (List.length (ids b) + List.length chunks)%nat /\
  doc_count b' = doc_count b /\
  Forall (entry_of paths) (new_entries b').
Proof.
  induction chunks as [|c chunks IH]; intros start b Hp Hf Hs Hc Hd Hm Hall;
    cbn [fold_left combine seq List.length].
  - cbv zeta. repeat split; try assumption. lia.
  - inversion Hc as [|c' chunks' Hc1 Hc2]; subst.
    specialize (IH (S start) (add_chunk p b (start, c)) Hp Hf Hs Hc2).
    cbv zeta in IH.
    destruct IH as [H1 [H2 [H3 [H4 H5]]]].
    + cbn [add_chunk documents ids]. rewrite !length_app. simpl. lia.
    + cbn [add_chunk metadatas ids]. rewrite !length_app. simpl. lia.
    + unfold new_entries. cbn [add_chunk documents ids metadatas].
      rewrite zip3_app by assumption.
      apply Forall_app. split; [exact Hall|].
      constructor; [|constructor].
      exists p, (doc_count b), start. now repeat split.
    + cbv zeta. repeat split; try assumption.
      rewrite H3. cbn [add_chunk ids]. rewrite length_app. simpl. lia.
Qed.

Lemma load_file_wellformed paths folder b p :
  In p paths -> batch_wellformed paths b ->
  exists b', load_file folder b p = Ok b' /\ batch_wellformed paths b'.
Proof.
  intros Hp [Hd [Hm [Hn Hall]]]. unfold load_file.
  destruct (is_file p) eqn:Hf; [|exists b; now repeat split].
  destruct (mem (lower (suffix p)) supported_extensions) eqn:Hs;
    [|exists b; now repeat split].
  cbn [andb].
  match goal with |- context [strip ?c] => set (content := c) end.
  destruct (nonempty (strip content)) eqn:Hne; cbn [negb];
    [|exists b; now repeat split].
  destruct (chunk_text_default_ok content) as [chunks Hrun].
  rewrite Hrun. cbn [Py.bind]. eexists. split; [reflexivity|].
  assert (Hblank : Forall (fun c => has_word_char c = true) chunks).
  { apply Forall_forall. intros c Hc.
    eapply chunk_not_blank; [exact Hrun | exact Hc]. }
  assert (Hsome : chunks <> [])
    by (eapply chunk_text_default_some;
        [apply strip_nonempty_inv; exact Hne | exact Hrun]).
  destruct (add_chunks_wellformed paths p chunks 0 b Hp Hf Hs Hblank Hd Hm Hall)
    as [H1 [H2 [H3 [H4 H5]]]].
  unfold enumerate, batch_wellformed. cbn [documents metadatas ids doc_count].
  repeat split; try assumption.
  rewrite H3, H4. destruct chunks; [contradiction | simpl; lia].
Qed.

Lemma load_files_wellformed all folder paths : forall b,
  incl paths all -> batch_wellformed all b ->
  exists b', load_files folder b paths = Ok b' /\ batch_wellformed all b'.
Proof.
  induction paths as [|p paths IH]; intros b Hincl Hb; simpl.
  - now exists b.
  - destruct (load_file_wellformed all folder b p) as [b1 [-> Hb1]];
      [apply Hincl; now left | assumption |].
    cbn [Py.bind]. apply IH; [|assumption].
    intros x Hx. apply Hincl. now right.
Qed.

Lemma scan_wellformed (folder : Folder) :
  exists b, scan folder = Ok b /\ batch_wellformed (rglob folder) b.
Proof.
  apply load_files_wellformed; [apply incl_refl|].
  repeat split; simpl; try lia. constructor.
Qed.

Lemma zip3_length ids : forall docs metas,
  List.length docs = List.length ids ->
  List.length metas = List.length ids ->
  List.length (zip3 ids docs metas) = List.length ids.
Proof.
  induction ids as [|i l IH]; intros [|d ds] [|m ms] Hd Hm;
    try discriminate; [reflexivity|].
  simpl. f_equal. apply IH; simpl in *; lia.
Qed.

(** The scan of a folder never raises.  The three lists it fills have
    the same length; every entry of the batch belongs to a regular file of
    the folder with a supported suffix, carries that file's name, suffix
    and chunk number as metadata, and has a text that is not blank; and
    every file counted has given at least one chunk. *)
Theorem scan_batch_wellformed (folder : Folder) :
  exists b,
    scan folder = Ok b /\
    List.length (documents b) = List.length (ids b) /\
    List.length (metadatas b) = List.length (ids b) /\
    (doc_count b <= List.length (ids b))%nat /\
    List.length (new_entries b) = List.length (ids b) /\
    Forall (entry_of (rglob folder)) (new_entries b).
Proof.
  destruct (scan_wellformed folder) as [b [Hrun [Hd [Hm [Hn Hall]]]]].
  exists b. repeat split; try assumption.
  now apply zip3_length.
Qed.

(* ===================================================================== *)
(** * More on the knowledge base: construction, refresh and search *)
(* ===================================================================== *)

Lemma with_collection_twice kb c c' :
  with_collection (with_collection kb c) c' = with_collection kb c'.
Proof. reflexivity. Qed.

(** What a refresh leaves depends on the folder and on the store's
    answer to the batch only, not on what the collection held: when the
    store takes the batch, the refresh returns and the collection holds
    the batch of the scan; when the store refuses it, the refresh raises
    what the store raised and the collection is left empty, the old
    entries gone.  So refreshing twice is refreshing once. *)
Theorem refresh_depends_on_folder (kb : KB) :
  exists b,
    scan (about_me_folder kb) = Ok b /\
    (forall old,
       refresh_knowledge_base (with_collection kb old)
       = match batch_error kb b with
         | None => (Ok tt, with_collection kb (Some (new_entries b)))
         | Some e => (Raise e, with_collection kb (Some []))
         end) /\
    refresh_knowledge_base (snd (refresh_knowledge_base kb))
    = refresh_knowledge_base kb.
Proof.
  destruct (refresh_knowledge_base_steps kb) as [b [Hb [Hrun _]]].
  exists b. split; [exact Hb|].
  assert (Hany : forall old,
            refresh_knowledge_base (with_collection kb old)
            = match batch_error kb b with
              | None => (Ok tt, with_collection kb (Some (new_entries b)))
              | Some e => (Raise e, with_collection kb (Some []))
              end).
  { intros old.
    destruct (refresh_knowledge_base_steps (with_collection kb old))
      as [b' [Hb' [Hrun' _]]].
    cbn [with_collection about_me_folder] in Hb'.
    rewrite Hb in Hb'. injection Hb' as <-.
    rewrite Hrun'. unfold batch_error. cbn [with_collection add_error].
    now rewrite !with_collection_twice. }
  split; [exact Hany|].
  rewrite Hrun. destruct (batch_error kb b); cbn [snd]; apply Hany.
Qed.

(** A store that cannot embed: it refuses every batch. *)
Definition refusing_kb : KB :=
  {| about_me_folder := Sample.folder;
     collection := Some [Sample.old_entry];
     distance := fun _ _ => 0.25%float;
     add_error := fun _ => Some (ServiceError "embedding failed") |}.

Example refresh_refused_loses_index :
  fst (refresh_knowledge_base refusing_kb)
  = Raise (ServiceError "embedding failed")
  /\ collection (snd (refresh_knowledge_base refusing_kb)) = Some []
  /\ List.length (KnowledgeBase.search refusing_kb (JStr "skills") 3) = 1%nat
  /\ KnowledgeBase.search (snd (refresh_knowledge_base refusing_kb))
       (JStr "skills") 3 = [].
Proof. repeat split; vm_compute; reflexivity. Qed.

(** ** Construction *)

(** The three calls before the [try], in their order: the first that
    raises decides. *)
Definition setup (env : Startup.Setup) : res unit :=
  match Startup.mkdir env with
  | Raise e => Raise e
  | Ok _ =>
      match Startup.PersistentClient env with
      | Raise e => Raise e
      | Ok _ => Startup.SentenceTransformerEmbeddingFunction env
      end
  end.

(** When the folder, the client or the embedding function cannot be
    made, construction raises that exception and the store is not
    touched.  Otherwise, over a store that has the collection, the
    collection is taken as it is without reading the folder (files added
    since are not indexed, and an empty collection stays empty); over a
    store without it, construction does what a refresh does, and raises
    when the store refuses the batch, leaving the collection empty.  In
    both cases a second construction returns and takes what the first
    left: a build the store refused is not tried again. *)
Theorem init_keeps_existing_collection (env : Startup.Setup) (kb : KB) :
  match setup env with
  | Raise e => Startup.__init__ env kb = (Raise e, kb)
  | Ok _ =>
      match collection kb with
      | Some _ => Startup.__init__ env kb = (Ok tt, kb)
      | None => Startup.__init__ env kb = refresh_knowledge_base kb
      end
      /\ (forall e, fst (Startup.__init__ env kb) = Raise e ->
            collection (snd (Startup.__init__ env kb)) = Some [])
      /\ Startup.__init__ env (snd (Startup.__init__ env kb))
         = (Ok tt, snd (Startup.__init__ env kb))
  end.
Proof.
  destruct (refresh_knowledge_base_steps kb) as [b [Hb [Hrun _]]].
  destruct env as [[[]|e1] [[]|e2] [[]|e3]]; cbn [setup Startup.mkdir
    Startup.PersistentClient Startup.SentenceTransformerEmbeddingFunction];
    try reflexivity.
  destruct kb as [f [c|] d a].
  - split; [reflexivity|]. split; [discriminate | reflexivity].
  - set (env := {| Startup.mkdir := Ok tt; Startup.PersistentClient := Ok tt;
                   Startup.SentenceTransformerEmbeddingFunction := Ok tt |}).
    set (kb := {| about_me_folder := f; collection := None;
                  distance := d; add_error := a |}) in *.
    assert (Heq : Startup.__init__ env kb = refresh_knowledge_base kb)
      by reflexivity.
    split; [exact Heq|]. rewrite Heq, Hrun.
    destruct (batch_error kb b); cbn [fst snd];
      (split; [|reflexivity]).
    + intros e' _. reflexivity.
    + discriminate.
Qed.

Definition setup_ok : Startup.Setup :=
  {| Startup.mkdir := Ok tt; Startup.PersistentClient := Ok tt;
     Startup.SentenceTransformerEmbeddingFunction := Ok tt |}.

Example init_serves_stale_index :
  collection (snd (Startup.__init__ setup_ok Sample.kb))
  = Some [Sample.old_entry]
  /\ option_map (@List.length Entry)
       (collection (snd (Startup.__init__ setup_ok
                           (with_collection Sample.kb None))))
     = Some 3%nat.
Proof. split; reflexivity. Qed.

(** A first construction the store refuses raises; the second returns
    and serves an empty index. *)
Example init_after_refused_build :
  let first := Startup.__init__ setup_ok (with_collection refusing_kb None) in
  let second := Startup.__init__ setup_ok (snd first) in
  fst first = Raise (ServiceError "embedding failed")
  /\ fst second = Ok tt
  /\ collection (snd second) = Some []
  /\ KnowledgeBase.search (snd second) (JStr "skills") 3 = [].
Proof. repeat split; vm_compute; reflexivity. Qed.

(** Without the parent of the folder, [mkdir] raises and nothing is
    built. *)
Example init_without_folder :
  Startup.__init__
    {| Startup.mkdir := Raise NotFoundError; Startup.PersistentClient := Ok tt;
       Startup.SentenceTransformerEmbeddingFunction := Ok tt |}
    (with_collection Sample.kb None)
  = (Raise NotFoundError, with_collection Sample.kb None).
Proof. reflexivity. Qed.

(** ** Searching the store *)

(** The value of the key [source] of an entry, when it has one. *)
Definition source_of (e : Entry) : metaval :=
  match lookup "source" (entry_metadata e) with
  | Ok v => v
  | Raise _ => MStr ""
  end.

Definition has_source (e : Entry) : Prop :=
  exists v, lookup "source" (entry_metadata e) = Ok v.

(** The entries of a collection by increasing distance to [q]. *)
Definition ranked (kb : KB) (q : string) (entries : list Entry)
    : list (Entry * float) :=
  fold_right insert_by []
    (map (fun e => (e, distance kb q (entry_document e))) entries).

(** The result [search] makes of a ranked entry. *)
Definition result_of (x : Entry * float) : SearchResult.t :=
  {| SearchResult.content := entry_document (fst x);
     SearchResult.source := source_of (fst x);
     SearchResult.relevance_score := (1 - snd x)%float |}.

Lemma insert_by_In d l x : In x (insert_by d l) <-> x = d \/ In x l.
Proof.
  induction l as [|y l IH]; simpl; [intuition|].
  destruct (snd d <=? snd y)%float; simpl; [intuition|].
  rewrite IH. intuition.
Qed.

Lemma insert_by_length d l :
  List.length (insert_by d l) = S (List.length l).
Proof.
  induction l as [|y l IH]; simpl; [reflexivity|].
  destruct (snd d <=? snd y)%float; simpl; [reflexivity | now rewrite IH].
Qed.

Lemma ranked_In kb q entries x :
  In x (ranked kb q entries) -> In (fst x) entries.
Proof.
  unfold ranked. induction entries as [|e entries IH]; simpl; [tauto|].
  rewrite insert_by_In. intros [->|H]; [now left | right; now apply IH].
Qed.

Lemma ranked_length kb q entries :
  List.length (ranked kb q entries) = List.length entries.
Proof.
  unfold ranked. induction entries as [|e entries IH]; simpl; [reflexivity|].
  now rewrite insert_by_length, IH.
Qed.

(** Formatting what the store returns for the entries [best]. *)
Lemma format_from_store best : forall pre rest acc,
  best = pre ++ rest ->
  Forall (fun x => has_source (fst x)) rest ->
  Search.format_from
    {| qr_documents := Some [map (fun x => entry_document (fst x)) best];
       qr_metadatas := Some [map (fun x => Some (entry_metadata (fst x))) best];
       qr_distances := Some (Some [map snd best]) |}
    (List.length pre) (map (fun x => entry_document (fst x)) rest) acc
  = Ok (acc ++ map result_of rest).
Proof.
  intros pre rest. revert pre.
  induction rest as [|x rest IH]; intros pre acc Hbest Hsrc;
    cbn [map Search.format_from].
  - now rewrite app_nil_r.
  - inversion Hsrc as [|x' rest' [v Hv] Hrest]; subst x' rest'.
    unfold Search.format_result, index_opt, index.
    cbn [qr_metadatas qr_distances nth_error Py.bind].
    rewrite Hbest, !nth_error_map, nth_error_app2, Nat.sub_diag by lia.
    cbn [nth_error option_map Py.bind]. rewrite Hv. cbn [Py.bind].
    rewrite <- Hbest.
    specialize (IH (pre ++ [x])). rewrite length_app, Nat.add_1_r in IH.
    rewrite IH; [|now rewrite <- app_assoc | assumption].
    rewrite <- app_assoc. unfold result_of at 2, source_of. now rewrite Hv.
Qed.

Lemma search_results_of_store (kb : KB) (entries : list Entry)
    (q : string) (top_k : Z) :
  collection kb = Some entries ->
  Forall has_source entries ->
  0 < top_k ->
  KnowledgeBase.search kb (JStr q) top_k
  = map result_of (firstn (Z.to_nat top_k) (ranked kb q entries)).
Proof.
  intros Hc Hsrc Hk.
  unfold KnowledgeBase.search, Search.search, Search.search_body,
    collection_query.
  rewrite Hc. destruct (Z.leb_spec top_k 0); [lia|].
  cbn [Py.bind qr_documents]. fold (ranked kb q entries).
  set (best := firstn (Z.to_nat top_k) (ranked kb q entries)).
  assert (Hbest : Forall (fun x => has_source (fst x)) best).
  { apply Forall_forall. intros x Hx.
    eapply Forall_forall; [exact Hsrc|].
    apply (ranked_In kb q). unfold best in Hx.
    rewrite <- (firstn_skipn (Z.to_nat top_k) (ranked kb q entries)).
    apply in_or_app. now left. }
  clearbody best. destruct best as [|x best']; [reflexivity|].
  pose proof (format_from_store (x :: best') [] (x :: best') [] eq_refl Hbest)
    as Hfmt.
  cbn [map List.length app] in Hfmt. cbn [map]. rewrite Hfmt. reflexivity.
Qed.

Lemma entry_of_source paths e :
  entry_of paths e ->
  exists p, In p paths /\
    lookup "source" (entry_metadata e) = Ok (MStr (name p)) /\
    has_word_char (entry_document e) = true.
Proof.
  intros [p [d [i [Hp [_ [_ [_ [Hm Hw]]]]]]]].
  exists p. rewrite Hm. now repeat split.
Qed.

(** Refresh, then search.  When the refresh returns, a search for a
    text on the refreshed index gives at most [min top_k n] results, [n]
    being the number of chunks the folder gives, and each result is a
    chunk that is not blank together with the name of a file of the
    folder as its source.  When the refresh raises, every search
    returns the empty list. *)
Theorem search_after_refresh (kb : KB) (q : string) (top_k : Z) :
  0 < top_k ->
  exists b,
    scan (about_me_folder kb) = Ok b /\
    match fst (refresh_knowledge_base kb) with
    | Ok _ =>
        (List.length (KnowledgeBase.search (snd (refresh_knowledge_base kb))
                                           (JStr q) top_k)
         <= Nat.min (Z.to_nat top_k) (List.length (ids b)))%nat /\
        Forall (fun r =>
                  has_word_char (SearchResult.content r) = true /\
                  exists p, In p (rglob (about_me_folder kb)) /\
                            SearchResult.source r = MStr (name p))
               (KnowledgeBase.search (snd (refresh_knowledge_base kb))
                                     (JStr q) top_k)
    | Raise _ =>
        forall query k,
          KnowledgeBase.search (snd (refresh_knowledge_base kb)) query k = []
    end.
Proof.
  intros Hk.
  destruct (refresh_knowledge_base_steps kb) as [b [Hb [Hrun _]]].
  destruct (scan_wellformed (about_me_folder kb))
    as [b' [Hb' [Hd [Hm [_ Hall]]]]].
  rewrite Hb in Hb'. injection Hb' as <-.
  exists b. split; [exact Hb|]. rewrite Hrun.
  destruct (batch_error kb b) as [e|]; cbn [fst snd];
    [intros query k; now apply search_empty_collection|].
  set (kb' := with_collection kb (Some (new_entries b))).
  assert (Hsrc : Forall has_source (new_entries b)).
  { eapply Forall_impl; [|exact Hall].
    intros e He. apply entry_of_source in He as [p [_ [Hl _]]].
    now exists (MStr (name p)). }
  pose proof (search_results_of_store kb' (new_entries b) q top_k
                eq_refl Hsrc Hk) as Heq.
  rewrite Heq. split.
  - rewrite length_map, length_firstn, ranked_length.
    unfold new_entries. now rewrite zip3_length.
  - apply Forall_forall. intros r Hr.
    apply in_map_iff in Hr as [x [<- Hx]].
    assert (Hin : In (fst x) (new_entries b)).
    { apply (ranked_In kb' q).
      rewrite <- (firstn_skipn (Z.to_nat top_k) (ranked kb' q (new_entries b))).
      apply in_or_app. now left. }
    eapply Forall_forall in Hall; [|exact Hin].
    apply entry_of_source in Hall as [p [Hp [Hl Hw]]].
    cbn [result_of SearchResult.content SearchResult.source].
    split; [exact Hw|]. exists p. split; [exact Hp|].
    unfold source_of. now rewrite Hl.
Qed.

Lemma search_after_refresh_witness :
  exists b,
    scan (about_me_folder Sample.kb) = Ok b /\
    (List.length (KnowledgeBase.search (snd (refresh_knowledge_base Sample.kb))
                                       (JStr "hiking") 2)
     <= Nat.min (Z.to_nat 2) (List.length (ids b)))%nat /\
    Forall (fun r =>
              has_word_char (SearchResult.content r) = true /\
              exists p, In p (rglob (about_me_folder Sample.kb)) /\
                        SearchResult.source r = MStr (name p))
           (KnowledgeBase.search (snd (refresh_knowledge_base Sample.kb))
                                 (JStr "hiking") 2).
Proof. apply (search_after_refresh Sample.kb "hiking" 2). lia. Defined.

(** ** Searching any backend *)

Section SearchMore.

Variable backend_query : json -> Z -> res QueryResult.

Lemma format_result_content results i doc r :
  Search.format_result results i doc = Ok r -> SearchResult.content r = doc.
Proof.
  unfold Search.format_result.
  destruct (index_opt (qr_metadatas results) 0) as [metas|]; [|discriminate].
  cbn [Py.bind]. destruct (index metas i) as [meta|]; [|discriminate].
  cbn [Py.bind].
  destruct (match meta with
            | Some m => lookup "source" m
            | None => Raise TypeError
            end) as [src|]; [|discriminate].
  cbn [Py.bind].
  destruct (match qr_distances results with
            | Some distances =>
                ds <- index_opt distances 0 ;;
                d <- index ds i ;; Ok (1 - d)%float
            | None => Ok 1%float
            end) as [score|]; [|discriminate].
  cbn [Py.bind]. now intros [= <-].
Qed.

Lemma format_from_contents results docs : forall i acc out,
  Search.format_from results i docs acc = Ok out ->
  map SearchResult.content out = map SearchResult.content acc ++ docs.
Proof.
  induction docs as [|doc docs IH]; intros i acc out H; simpl in H.
  - injection H as <-. now rewrite app_nil_r.
  - destruct (Search.format_result results i doc) as [r|] eqn:E;
      [|discriminate].
    cbn [Py.bind] in H. apply IH in H. rewrite H, map_app. simpl.
    rewrite (format_result_content _ _ _ _ E). now rewrite <- app_assoc.
Qed.

Lemma format_from_raises results docs : forall i acc j doc e,
  nth_error docs j = Some doc ->
  Search.format_result results (i + j) doc = Raise e ->
  exists e', Search.format_from results i docs acc = Raise e'.
Proof.
  induction docs as [|d docs IH]; intros i acc j doc e Hj Hf.
  - destruct j; discriminate.
  - simpl. destruct j as [|j].
    + injection Hj as ->. rewrite Nat.add_0_r in Hf. rewrite Hf.
      now exists e.
    + destruct (Search.format_result results i d) as [r|e0];
        [|now exists e0].
      cbn [Py.bind]. apply (IH (S i) _ j doc e); [exact Hj|].
      now rewrite Nat.add_succ_comm.
Qed.

(** The results of [search] are the documents the backend returned, in
    the backend's order: when the list is not empty, its contents are the
    first list of documents of the backend's answer. *)
Theorem search_keeps_documents (query : json) (top_k : Z) :
  Search.search backend_query query top_k = []
  \/ exists results docs rest,
       backend_query query top_k = Ok results /\
       qr_documents results = Some (docs :: rest) /\
       map SearchResult.content (Search.search backend_query query top_k)
       = docs.
Proof.
  unfold Search.search, Search.search_body.
  destruct (backend_query query top_k) as [results|e]; [|now left].
  cbn [Py.bind].
  destruct (qr_documents results) as [[|[|d0 docs] rest]|] eqn:Hd;
    try (now left).
  destruct (Search.format_from results 0 (d0 :: docs) []) as [out|e] eqn:E;
    [|now left].
  right. exists results, (d0 :: docs), rest.
  split; [reflexivity|]. split; [exact Hd|].
  cbn [try_except]. now apply format_from_contents in E.
Qed.

(** The loop of [search] on an answer whose metadatas and distances
    reach as far as its documents, each metadata with a [source]. *)
Lemma format_from_pairs results metas rest' dists rest'' :
  qr_metadatas results = Some (metas :: rest') ->
  qr_distances results = Some (Some (dists :: rest'')) ->
  forall docs i acc,
    (i + List.length docs <= List.length metas)%nat ->
    (i + List.length docs <= List.length dists)%nat ->
    (forall j meta, (i <= j < i + List.length docs)%nat ->
       nth_error metas j = Some meta ->
       exists m v, meta = Some m /\ lookup "source" m = Ok v) ->
    exists out,
      Search.format_from results i docs acc = Ok (acc ++ out) /\
      List.length out = List.length docs /\
      forall j doc m v d,
        nth_error docs j = Some doc ->
        nth_error metas (i + j) = Some (Some m) ->
        lookup "source" m = Ok v ->
        nth_error dists (i + j) = Some d ->
        nth_error out j
        = Some {| SearchResult.content := doc;
                  SearchResult.source := v;
                  SearchResult.relevance_score := (1 - d)%float |}.
Proof.
  intros Hm Hd.
  induction docs as [|doc docs IH]; intros i acc Hlm Hld Hsrc;
    cbn [Search.format_from List.length] in *.
  - exists []. rewrite app_nil_r. split; [reflexivity|].
    split; [reflexivity|]. intros [|j]; discriminate.
  - destruct (nth_error metas i) as [meta|] eqn:Emeta;
      [|apply nth_error_None in Emeta; lia].
    destruct (nth_error dists i) as [d0|] eqn:Ed;
      [|apply nth_error_None in Ed; lia].
    destruct (Hsrc i meta ltac:(lia) Emeta) as [m0 [v0 [-> Hv0]]].
    assert (Hf : Search.format_result results i doc
                 = Ok {| SearchResult.content := doc;
                         SearchResult.source := v0;
                         SearchResult.relevance_score := (1 - d0)%float |}).
    { unfold Search.format_result, index_opt, index. rewrite Hm, Hd.
      cbn [nth_error Py.bind]. rewrite Emeta. cbn [Py.bind].
      rewrite Hv0. cbn [Py.bind]. now rewrite Ed. }
    rewrite Hf. cbn [Py.bind].
    destruct (IH (S i) (acc ++ [ {| SearchResult.content := doc;
                                    SearchResult.source := v0;
                                    SearchResult.relevance_score := (1 - d0)%float |} ]))
      as [out [Hout [Hlen Hnth]]]; try lia.
    { intros j meta Hj. apply Hsrc. lia. }
    eexists (_ :: out). rewrite Hout, <- app_assoc. split; [reflexivity|].
    split; [cbn [List.length]; now rewrite Hlen|].
    intros [|j] doc' m v d Hdoc Hmeta Hv Hdist; cbn [nth_error] in *.
    + rewrite Nat.add_0_r in Hmeta, Hdist.
      rewrite Emeta in Hmeta. rewrite Ed in Hdist.
      injection Hdoc as <-. injection Hmeta as <-. injection Hdist as <-.
      rewrite Hv0 in Hv. now injection Hv as <-.
    + apply (Hnth j doc' m v d Hdoc); [|exact Hv|];
        now rewrite Nat.add_succ_comm.
Qed.

(** [search] pairs what the backend returned by position.  When the
    metadatas and the distances of the answer reach as far as its
    documents and each of those metadatas has a [source], there is one
    result for each document, and the result at position [i] is the
    [i]-th document with the [source] of the [i]-th metadata and one
    minus the [i]-th distance. *)
Theorem search_pairs_by_position (query : json) (top_k : Z)
    (results : QueryResult) (docs : list string) (rest : list (list string))
    (metas : list (option Metadata)) (rest' : list (list (option Metadata)))
    (dists : list float) (rest'' : list (list float)) :
  backend_query query top_k = Ok results ->
  qr_documents results = Some (docs :: rest) ->
  qr_metadatas results = Some (metas :: rest') ->
  qr_distances results = Some (Some (dists :: rest'')) ->
  (List.length docs <= List.length metas)%nat ->
  (List.length docs <= List.length dists)%nat ->
  (forall j meta, (j < List.length docs)%nat ->
     nth_error metas j = Some meta ->
     exists m v, meta = Some m /\ lookup "source" m = Ok v) ->
  List.length (Search.search backend_query query top_k) = List.length docs
  /\ forall i doc m v d,
       nth_error docs i = Some doc ->
       nth_error metas i = Some (Some m) ->
       lookup "source" m = Ok v ->
       nth_error dists i = Some d ->
       nth_error (Search.search backend_query query top_k) i
       = Some {| SearchResult.content := doc;
                 SearchResult.source := v;
                 SearchResult.relevance_score := (1 - d)%float |}.
Proof.
  intros Hq Hdocs Hm Hd Hlm Hld Hsrc.
  unfold Search.search, Search.search_body. rewrite Hq. cbn [Py.bind].
  rewrite Hdocs.
  destruct (format_from_pairs results metas rest' dists rest'' Hm Hd
              docs 0 [] Hlm Hld) as [out [Hout [Hlen Hnth]]].
  { intros j meta Hj. apply Hsrc. lia. }
  destruct docs as [|d0 docs].
  - split; [reflexivity|]. intros [|i]; discriminate.
  - rewrite Hout. cbn [try_except app]. split; [exact Hlen | exact Hnth].
Qed.

(** [search] returns all or nothing: when one of the documents the
    backend returned has no [source] in its metadata, the lookup raises
    inside the [try] and the whole search returns the empty list, the
    documents that could be formatted included. *)
Theorem search_all_or_nothing (query : json) (top_k : Z)
    (results : QueryResult) (docs : list string) (rest : list (list string))
    (metas : list (option Metadata)) (rest' : list (list (option Metadata)))
    (j : nat) (doc : string) (m : Metadata) (e : exn) :
  backend_query query top_k = Ok results ->
  qr_documents results = Some (docs :: rest) ->
  qr_metadatas results = Some (metas :: rest') ->
  nth_error docs j = Some doc ->
  nth_error metas j = Some (Some m) ->
  lookup "source" m = Raise e ->
  Search.search backend_query query top_k = [].
Proof.
  intros Hq Hd Hm Hdoc Hmeta Hsrc.
  unfold Search.search, Search.search_body. rewrite Hq. cbn [Py.bind].
  rewrite Hd. destruct docs as [|d0 docs]; [reflexivity|].
  assert (Hf : Search.format_result results (0 + j) doc = Raise e).
  { unfold Search.format_result, index_opt, index. rewrite Hm.
    cbn [nth_error Py.bind Nat.add]. rewrite Hmeta. cbn [Py.bind].
    now rewrite Hsrc. }
  destruct (format_from_raises results (d0 :: docs) 0 [] j doc e Hdoc Hf)
    as [e' ->].
  reflexivity.
Qed.

End SearchMore.

(** A backend that answers with two documents, the nearer first. *)
Definition backend_two_documents (query : json) (top_k : Z)
    : res QueryResult :=
  Ok {| qr_documents := Some [["Python Go Rust"; "likes hiking"]];
        qr_metadatas := Some [[Some [("source", MStr "resume.txt")];
                               Some [("source", MStr "notes.md")]]];
        qr_distances := Some (Some [[0.25%float; 0.5%float]]) |}.

Lemma search_pairs_by_position_witness :
  List.length (Search.search backend_two_documents (JStr "skills") 3)
  = List.length ["Python Go Rust"; "likes hiking"]
  /\ forall i doc m v d,
       nth_error ["Python Go Rust"; "likes hiking"] i = Some doc ->
       nth_error [Some [("source", MStr "resume.txt")];
                  Some [("source", MStr "notes.md")]] i = Some (Some m) ->
       lookup "source" m = Ok v ->
       nth_error [0.25%float; 0.5%float] i = Some d ->
       nth_error (Search.search backend_two_documents (JStr "skills") 3) i
       = Some {| SearchResult.content := doc;
                 SearchResult.source := v;
                 SearchResult.relevance_score := (1 - d)%float |}.
Proof.
  apply (search_pairs_by_position backend_two_documents (JStr "skills") 3
           {| qr_documents := Some [["Python Go Rust"; "likes hiking"]];
              qr_metadatas := Some [[Some [("source", MStr "resume.txt")];
                                     Some [("source", MStr "notes.md")]]];
              qr_distances := Some (Some [[0.25%float; 0.5%float]]) |}
           ["Python Go Rust"; "likes hiking"] []
           [Some [("source", MStr "resume.txt")];
            Some [("source", MStr "notes.md")]] []
           [0.25%float; 0.5%float] []);
    try reflexivity; try (cbn; lia).
  intros [|[|j]] meta Hj Hmeta; cbn in Hj, Hmeta; try lia;
    injection Hmeta as <-; eexists; eexists; split; reflexivity.
Defined.

Example search_two_documents :
  Search.search backend_two_documents (JStr "skills") 3
  = [ {| SearchResult.content := "Python Go Rust";
         SearchResult.source := MStr "resume.txt";
         SearchResult.relevance_score := 0.75%float |};
      {| SearchResult.content := "likes hiking";
         SearchResult.source := MStr "notes.md";
         SearchResult.relevance_score := 0.5%float |} ].
Proof. reflexivity. Qed.

(** A backend whose second document has no [source]. *)
Definition backend_without_source (query : json) (top_k : Z)
    : res QueryResult :=
  Ok {| qr_documents := Some [["first"; "second"]];
        qr_metadatas := Some [[Some [("source", MStr "a.txt")];
                               Some [("file_type", MStr ".txt")]]];
        qr_distances := Some (Some [[0.25%float; 0.5%float]]) |}.

Lemma search_all_or_nothing_witness :
  Search.search backend_without_source (JStr "skills") 3 = [].
Proof.
  apply (search_all_or_nothing backend_without_source (JStr "skills") 3
           {| qr_documents := Some [["first"; "second"]];
              qr_metadatas := Some [[Some [("source", MStr "a.txt")];
                                     Some [("file_type", MStr ".txt")]]];
              qr_distances := Some (Some [[0.25%float; 0.5%float]]) |}
           ["first"; "second"] []
           [Some [("source", MStr "a.txt")]; Some [("file_type", MStr ".txt")]]
           [] 1 "second" [("file_type", MStr ".txt")] KeyError);
    reflexivity.
Defined.

(* ===================================================================== *)
(** * More on the chat protocol: its paths one by one *)
(* ===================================================================== *)

(** The steps of [chat] laid open. *)
Ltac chat_open :=
  unfold ChatBot.chat, mbind, new_message, append_history, get_bot, create,
    lift, ret, round1_request, user_message_of, remember, tool_round in *;
  chat_simpl.

Ltac chat_simpl_in H :=
  cbn [bot world sent snd fst conversation_history model max_tokens
       system_prompt] in H.

Section ChatPaths.

Variable World : Type.
Variable completions_create : Request -> World -> res ChatCompletion * World.
Variable now_isoformat : World -> string * World.
Variable json_loads : string -> res json.
Variable json_dumps : json -> string.
Variable collection_query : json -> Z -> res QueryResult.

Local Abbreviation chat :=
  (ChatBot.chat World completions_create now_isoformat json_loads json_dumps
                collection_query).
Local Abbreviation State := (St World).
Local Abbreviation request1 := (round1_request World now_isoformat).
Local Abbreviation user_of := (user_message_of World now_isoformat).

(** The world when round 1 is sent: the clock has been read once. *)
Definition world1 (st : State) : World := snd (now_isoformat (world st)).

(** Only user and assistant messages are stored. *)
Definition user_or_assistant (msg : Message) : Prop :=
  role msg = "user" \/ role msg = "assistant".

(** The two ways a call of [chat] ends: it raises and has stored the
    user message only, or it returns and has stored the answer too. *)
Lemma chat_outcome user_message (st : State) :
  system_prompt (bot (snd (chat user_message st))) = system_prompt (bot st) /\
  ((exists e,
      fst (chat user_message st) = Raise e /\
      conversation_history (bot (snd (chat user_message st)))
      = conversation_history (bot st) ++ [user_of user_message st])
   \/ (exists final_content t,
         fst (chat user_message st) = Ok final_content /\
         conversation_history (bot (snd (chat user_message st)))
         = conversation_history (bot st)
           ++ [user_of user_message st;
               {| role := "assistant"; content := final_content;
                  timestamp := t |}])).
Proof.
  chat_open.
  destruct (now_isoformat (world st)) as [t w1]. chat_simpl.
  match goal with |- context [completions_create ?r w1] =>
    destruct (completions_create r w1) as [[response|e] w2] end;
    chat_simpl; [|split; [reflexivity | left; now exists e]].
  destruct (index (choices response) 0) as [am|e];
    [|split; [reflexivity | left; now exists e]].
  destruct (am_tool_calls am) as [[|tc tcs]|].
  1,3: chat_simpl; destruct (now_isoformat w2) as [t2 w3]; chat_simpl;
    split; [reflexivity | right; exists (am_content am), t2];
    now rewrite <- app_assoc.
  unfold mbind, lift, create, ret. chat_simpl.
  destruct (json_loads (tc_arguments tc)) as [args|e];
    [|split; [reflexivity | left; now exists e]].
  destruct (_execute_function collection_query (tc_name tc) args)
    as [result|e]; [|split; [reflexivity | left; now exists e]].
  chat_simpl.
  match goal with |- context [completions_create ?r w2] =>
    destruct (completions_create r w2) as [[final|e] w3] end;
    chat_simpl; [|split; [reflexivity | left; now exists e]].
  destruct (index (choices final) 0) as [fm|e]; chat_simpl;
    [|split; [reflexivity | left; now exists e]].
  destruct (now_isoformat w3) as [t3 w4]. chat_simpl.
  split; [reflexivity | right; exists (am_content fm), t3].
  now rewrite <- app_assoc.
Qed.

(** When [chat] raises, whatever the cause (the model service, the
    JSON of the arguments, the tool), the user message it stored first
    stays in the history with no answer after it, and nothing else of the
    bot has changed. *)
Theorem chat_failure_keeps_user_message (user_message : string)
    (st st' : State) (e : exn) :
  chat user_message st = (Raise e, st') ->
  conversation_history (bot st')
  = conversation_history (bot st) ++ [user_of user_message st]
  /\ system_prompt (bot st') = system_prompt (bot st).
Proof.
  intros H.
  destruct (chat_outcome user_message st) as [Hp [[e' [_ Hh]]|[f [t [Hf _]]]]];
    rewrite H in *; cbn [fst snd] in *.
  - now split.
  - discriminate.
Qed.

(** The stored history holds user and assistant messages only, never a
    system or tool message: a call of [chat] keeps it so, whether it
    returns or raises. *)
Theorem chat_stores_user_and_assistant_only (user_message : string)
    (st : State) :
  Forall user_or_assistant (conversation_history (bot st)) ->
  Forall user_or_assistant
         (conversation_history (bot (snd (chat user_message st)))).
Proof.
  intros H.
  destruct (chat_outcome user_message st)
    as [_ [[e [_ ->]]|[f [t [_ ->]]]]];
    apply Forall_app; (split; [exact H|]).
  - constructor; [now left | constructor].
  - constructor; [now left|]. constructor; [now right | constructor].
Qed.

(** Without a tool call in the first choice of the round-1 answer, its
    content is the answer of [chat], and round 1 is the only request. *)
Theorem chat_direct_answer (user_message : string) (st : State)
    (response : ChatCompletion) (w2 : World)
    (assistant_message : AssistantMessage) :
  completions_create (request1 user_message st) (world1 st)
  = (Ok response, w2) ->
  index (choices response) 0 = Ok assistant_message ->
  am_tool_calls assistant_message = None
  \/ am_tool_calls assistant_message = Some [] ->
  fst (chat user_message st) = Ok (am_content assistant_message)
  /\ sent (snd (chat user_message st))
     = sent st ++ [request1 user_message st].
Proof.
  unfold world1. intros H1 Hc Ht. chat_open.
  destruct (now_isoformat (world st)) as [t w1]. chat_simpl.
  chat_simpl_in H1. rewrite H1. chat_simpl. rewrite Hc.
  destruct Ht as [-> | ->]; chat_simpl;
    destruct (now_isoformat w2) as [t2 w3]; chat_simpl; now split.
Qed.

(** When the first choice of the round-1 answer carries tool calls,
    the arguments of the first of them parse and the tool returns,
    [chat] runs that call and no other.  Exactly one second request is
    sent: it has no tools, and its messages are the round-1 context, then
    the assistant's tool-call message (the content of the answer, and the
    id, the name and the re-serialised arguments of the call), then the
    tool message (the serialised result under the id of the call).  What
    the service answers to it is the answer of [chat]. *)
Theorem chat_runs_first_tool_call (user_message : string) (st : State)
    (response : ChatCompletion) (w2 : World)
    (assistant_message : AssistantMessage)
    (tool_call : ToolCall) (others : list ToolCall)
    (function_args function_result : json) :
  completions_create (request1 user_message st) (world1 st)
  = (Ok response, w2) ->
  index (choices response) 0 = Ok assistant_message ->
  am_tool_calls assistant_message = Some (tool_call :: others) ->
  json_loads (tc_arguments tool_call) = Ok function_args ->
  _execute_function collection_query (tc_name tool_call) function_args
  = Ok function_result ->
  let second_request :=
    {| req_model := model (bot st);
       req_messages :=
         req_messages (request1 user_message st)
         ++ [ {| m_role := "assistant";
                 m_content := am_content assistant_message;
                 m_tool_calls :=
                   Some [ {| tcd_id := tc_id tool_call;
                             tcd_type := "function";
                             tcd_name := tc_name tool_call;
                             tcd_arguments := json_dumps function_args |} ];
                 m_tool_call_id := None |};
              {| m_role := "tool";
                 m_content := Some (json_dumps function_result);
                 m_tool_calls := None;
                 m_tool_call_id := Some (tc_id tool_call) |} ];
       req_tools := None;
       req_tool_choice := None;
       req_temperature := 0.7%float;
       req_max_tokens := max_tokens (bot st) |} in
  sent (snd (chat user_message st))
  = sent st ++ [request1 user_message st; second_request]
  /\ fst (chat user_message st)
     = match completions_create second_request w2 with
       | (Ok final_response, _) =>
           final_message <- index (choices final_response) 0 ;;
           Ok (am_content final_message)
       | (Raise e, _) => Raise e
       end.
Proof.
  unfold world1. intros H1 Hc Ht Hl Hx. cbv zeta. chat_open.
  unfold tool_messages.
  destruct (now_isoformat (world st)) as [t w1]. chat_simpl.
  chat_simpl_in H1. rewrite H1. chat_simpl. rewrite Hc, Ht.
  unfold mbind, lift, create, ret. chat_simpl. rewrite Hl, Hx. chat_simpl.
  cbn [req_messages].
  match goal with |- context [completions_create ?r w2] =>
    destruct (completions_create r w2) as [[final|e] w3] end;
    chat_simpl; [|now rewrite <- app_assoc].
  destruct (index (choices final) 0) as [fm|e]; chat_simpl;
    [|now rewrite <- app_assoc].
  destruct (now_isoformat w3) as [t3 w4]. chat_simpl.
  now rewrite <- app_assoc.
Qed.


(** A search call whose arguments have no [query] is not answered with
    an error descriptor: the lookup raises out of [chat], no round 2 is
    sent, and the user message stays stored without an answer. *)
Theorem chat_raises_without_query (user_message : string) (st : State)
    (response : ChatCompletion) (w2 : World)
    (assistant_message : AssistantMessage)
    (tool_call : ToolCall) (others : list ToolCall) (function_args : json)
    (e : exn) :
  completions_create (request1 user_message st) (world1 st)
  = (Ok response, w2) ->
  index (choices response) 0 = Ok assistant_message ->
  am_tool_calls assistant_message = Some (tool_call :: others) ->
  json_loads (tc_arguments tool_call) = Ok function_args ->
  tc_name tool_call = "search_knowledge_base" ->
  getitem function_args "query" = Raise e ->
  fst (chat user_message st) = Raise e
  /\ sent (snd (chat user_message st)) = sent st ++ [request1 user_message st]
  /\ conversation_history (bot (snd (chat user_message st)))
     = conversation_history (bot st) ++ [user_of user_message st].
Proof.
  unfold world1. intros H1 Hc Ht Hl Hn Hq. chat_open.
  destruct (now_isoformat (world st)) as [t w1]. chat_simpl.
  chat_simpl_in H1. rewrite H1. chat_simpl. rewrite Hc, Ht.
  unfold mbind, lift, create, ret, _execute_function. chat_simpl.
  rewrite Hl, Hn. cbn [String.eqb Ascii.eqb Bool.eqb andb]. rewrite Hq.
  chat_simpl. now repeat split.
Qed.

(** After [reset_conversation] the history is empty and the system
    prompt is as it was, and the next call of [chat] sends the system
    prompt and the new user message, and no earlier turn. *)
Theorem reset_forgets_history (user_message : string) (st : State) :
  conversation_history (bot (snd (reset_conversation World st))) = []
  /\ system_prompt (bot (snd (reset_conversation World st)))
     = system_prompt (bot st)
  /\ exists request later,
       sent (snd (chat user_message (snd (reset_conversation World st))))
       = sent st ++ request :: later
       /\ req_messages request
          = [ {| m_role := "system"; m_content := Some (system_prompt (bot st));
                 m_tool_calls := None; m_tool_call_id := None |};
              {| m_role := "user"; m_content := Some user_message;
                 m_tool_calls := None; m_tool_call_id := None |} ].
Proof.
  split; [reflexivity|]. split; [reflexivity|].
  destruct (chat_round1 World completions_create now_isoformat json_loads
              json_dumps collection_query user_message
              (snd (reset_conversation World st))) as [later [_ [Hs _]]].
  eexists. exists later. split; [exact Hs|]. reflexivity.
Qed.

End ChatPaths.

(** ** The paths of [chat] on the sample service *)


Definition search_call : ToolCall :=
  {| tc_id := "call_1"; tc_name := "search_knowledge_base";
     tc_arguments := "skills" |}.



Definition search_message : AssistantMessage :=
  {| am_content := None; am_tool_calls := Some [search_call] |}.

Definition direct_message : AssistantMessage :=
  {| am_content := Some "Hi there!"; am_tool_calls := None |}.

(** A JSON reader for arguments that hold no [query]. *)
Definition loads_empty (s : string) : res json := Ok (JDict []).

Definition chat_empty_args (user_message : string)
    : M Sample.World (option string) :=
  ChatBot.chat Sample.World Sample.completions_create Sample.now_isoformat
               loads_empty Sample.json_dumps (collection_query Sample.kb)
               user_message.

Lemma chat_failure_keeps_user_message_witness :
  conversation_history (bot (snd (Sample.chat "Hello" (Sample.start []))))
  = conversation_history (bot (Sample.start []))
    ++ [user_message_of Sample.World Sample.now_isoformat "Hello"
          (Sample.start [])]
  /\ system_prompt (bot (snd (Sample.chat "Hello" (Sample.start []))))
     = system_prompt (bot (Sample.start [])).
Proof.
  apply (chat_failure_keeps_user_message Sample.World
           Sample.completions_create Sample.now_isoformat Sample.json_loads
           Sample.json_dumps (collection_query Sample.kb) "Hello"
           (Sample.start []) (snd (Sample.chat "Hello" (Sample.start [])))
           (ServiceError "no reply")).
  reflexivity.
Defined.

Lemma chat_stores_user_and_assistant_only_witness :
  Forall user_or_assistant
    (conversation_history
       (bot (snd (Sample.chat "Hello" (Sample.start [Sample.direct_reply]))))).
Proof.
  apply (chat_stores_user_and_assistant_only Sample.World
           Sample.completions_create Sample.now_isoformat Sample.json_loads
           Sample.json_dumps (collection_query Sample.kb) "Hello"
           (Sample.start [Sample.direct_reply])).
  constructor.
Defined.

Lemma chat_direct_answer_witness :
  fst (Sample.chat "Hello" (Sample.start [Sample.direct_reply]))
  = Ok (am_content direct_message)
  /\ sent (snd (Sample.chat "Hello" (Sample.start [Sample.direct_reply])))
     = sent (Sample.start [Sample.direct_reply])
       ++ [round1_request Sample.World Sample.now_isoformat "Hello"
             (Sample.start [Sample.direct_reply])].
Proof.
  apply (chat_direct_answer Sample.World Sample.completions_create
           Sample.now_isoformat Sample.json_loads Sample.json_dumps
           (collection_query Sample.kb) "Hello"
           (Sample.start [Sample.direct_reply])
           Sample.direct_reply ([], 1%nat) direct_message).
  - reflexivity.
  - reflexivity.
  - left. reflexivity.
Defined.

(** What the search tool answers on the sample store. *)
Definition skills_result : json :=
  JDict [("success", JBool true);
         ("context", JStr ("[From cv.txt]" ++ String (ascii_of_nat 10) ""
                           ++ "Old resume text")%string);
         ("sources", JList [JStr "cv.txt"]);
         ("num_results", JInt 1)].

(** The second request of the sample conversation with a search. *)
Definition sample_second_request : Request :=
  {| req_model := "deepseek/deepseek-chat";
     req_messages :=
       [ {| m_role := "system";
            m_content := Some "You are Glory's AI Personal Assistant";
            m_tool_calls := None; m_tool_call_id := None |};
         {| m_role := "user"; m_content := Some "What are Glory's skills?";
            m_tool_calls := None; m_tool_call_id := None |};
         {| m_role := "assistant"; m_content := None;
            m_tool_calls :=
              Some [ {| tcd_id := "call_1"; tcd_type := "function";
                        tcd_name := "search_knowledge_base";
                        tcd_arguments := "<json>" |} ];
            m_tool_call_id := None |};
         {| m_role := "tool"; m_content := Some "<json>";
            m_tool_calls := None; m_tool_call_id := Some "call_1" |} ];
     req_tools := None;
     req_tool_choice := None;
     req_temperature := 0.7%float;
     req_max_tokens := 700 |}.

Lemma chat_runs_first_tool_call_witness :
  sent (snd (Sample.chat "What are Glory's skills?"
               (Sample.start [Sample.tool_reply; Sample.final_reply])))
  = sent (Sample.start [Sample.tool_reply; Sample.final_reply])
    ++ [round1_request Sample.World Sample.now_isoformat
          "What are Glory's skills?"
          (Sample.start [Sample.tool_reply; Sample.final_reply]);
        sample_second_request]
  /\ fst (Sample.chat "What are Glory's skills?"
            (Sample.start [Sample.tool_reply; Sample.final_reply]))
     = match Sample.completions_create sample_second_request
               ([Sample.final_reply], 1%nat) with
       | (Ok final_response, _) =>
           final_message <- index (choices final_response) 0 ;;
           Ok (am_content final_message)
       | (Raise e, _) => Raise e
       end.
Proof.
  apply (chat_runs_first_tool_call Sample.World Sample.completions_create
           Sample.now_isoformat Sample.json_loads Sample.json_dumps
           (collection_query Sample.kb) "What are Glory's skills?"
           (Sample.start [Sample.tool_reply; Sample.final_reply])
           Sample.tool_reply ([Sample.final_reply], 1%nat)
           search_message search_call []
           (JDict [("query", JStr "skills")]) skills_result);
    reflexivity.
Defined.


Lemma chat_raises_without_query_witness :
  fst (chat_empty_args "Skills?" (Sample.start [Sample.tool_reply]))
  = Raise KeyError
  /\ sent (snd (chat_empty_args "Skills?" (Sample.start [Sample.tool_reply])))
     = sent (Sample.start [Sample.tool_reply])
       ++ [round1_request Sample.World Sample.now_isoformat "Skills?"
             (Sample.start [Sample.tool_reply])]
  /\ conversation_history
       (bot (snd (chat_empty_args "Skills?" (Sample.start [Sample.tool_reply]))))
     = conversation_history (bot (Sample.start [Sample.tool_reply]))
       ++ [user_message_of Sample.World Sample.now_isoformat "Skills?"
             (Sample.start [Sample.tool_reply])].
Proof.
  apply (chat_raises_without_query Sample.World Sample.completions_create
           Sample.now_isoformat loads_empty Sample.json_dumps
           (collection_query Sample.kb) "Skills?"
           (Sample.start [Sample.tool_reply])
           Sample.tool_reply ([], 1%nat)
           search_message search_call [] (JDict []) KeyError);
    reflexivity.
Defined.

(* ===================================================================== *)
(** * Properties of the HTTP server *)
(* ===================================================================== *)

(** ** The dictionary *)

Lemma dict_get_set_same {A} (k : string) (v : A) d :
  Server.dict_get k (Server.dict_set k v d) = Some v.
Proof.
  induction d as [|[k' v'] d IH]; simpl.
  - now rewrite String.eqb_refl.
  - destruct (String.eqb_spec k' k); simpl.
    + now rewrite String.eqb_refl.
    + destruct (String.eqb_spec k' k); [contradiction | exact IH].
Qed.

Lemma dict_get_set_other {A} (k k' : string) (v : A) d :
  k' <> k ->
  Server.dict_get k' (Server.dict_set k v d) = Server.dict_get k' d.
Proof.
  intros Hne. induction d as [|[k0 v0] d IH]; simpl.
  - destruct (String.eqb_spec k k'); [now subst | reflexivity].
  - destruct (String.eqb_spec k0 k) as [->|]; simpl.
    + destruct (String.eqb_spec k k'); [now subst | reflexivity].
    + destruct (String.eqb_spec k0 k'); [reflexivity | exact IH].
Qed.

Lemma dict_set_present {A} (k : string) (v v0 : A) d :
  Server.dict_get k d = Some v0 ->
  map fst (Server.dict_set k v d) = map fst d.
Proof.
  induction d as [|[k' v'] d IH]; simpl; [discriminate|].
  destruct (String.eqb_spec k' k) as [->|]; simpl; [reflexivity|].
  intros H. now rewrite IH.
Qed.

Lemma dict_set_absent {A} (k : string) (v : A) d :
  Server.dict_get k d = None -> Server.dict_set k v d = d ++ [(k, v)].
Proof.
  induction d as [|[k' v'] d IH]; simpl; [reflexivity|].
  destruct (String.eqb_spec k' k); [discriminate|].
  intros H. now rewrite IH.
Qed.

Lemma dict_get_key {A} (k : string) (v : A) d :
  Server.dict_get k d = Some v -> In k (map fst d).
Proof.
  induction d as [|[k' v'] d IH]; simpl; [discriminate|].
  destruct (String.eqb_spec k' k); [now left | right; now apply IH].
Qed.

(** ** The keys of the sessions *)

(** [f"session_{timestamp}_{n}"] *)
Definition session_key (ts : string) (n : nat) : string :=
  ("session_" ++ ts ++ "_" ++ str_of_nat n)%string.

(** The key at each position ends in the number of that position. *)
Definition indexed_keys (keys : list string) : Prop :=
  forall i k, nth_error keys i = Some k -> exists ts, k = session_key ts i.

Lemma session_key_number ts ts' n n' :
  session_key ts n = session_key ts' n' -> n = n'.
Proof.
  unfold session_key. intros H.
  change "_" with (String underscore "") in H.
  assert (Hshape : forall a b,
            ("session_" ++ a ++ String underscore "" ++ b
             = ("session_" ++ a) ++ String underscore b)%string).
  { intros a b. now rewrite string_app_assoc. }
  rewrite !Hshape in H.
  apply split_at_last_underscore in H as [_ H];
    try apply no_underscore_str_of_nat.
  now apply str_of_nat_inj.
Qed.

Lemma indexed_keys_distinct keys : indexed_keys keys -> NoDup keys.
Proof.
  intros H. apply NoDup_nth_error. intros i j Hi Hij.
  destruct (nth_error keys i) as [k|] eqn:Ei;
    [|apply nth_error_None in Ei; lia].
  symmetry in Hij.
  destruct (H i k Ei) as [ts Hk]. destruct (H j k Hij) as [ts' Hk'].
  rewrite Hk in Hk'. now apply session_key_number in Hk'.
Qed.

Lemma indexed_keys_fresh {A} (d : list (string * A)) ts :
  indexed_keys (map fst d) ->
  Server.dict_get (session_key ts (List.length d)) d = None.
Proof.
  intros H.
  destruct (Server.dict_get (session_key ts (List.length d)) d) as [v|] eqn:E;
    [|reflexivity].
  apply dict_get_key, In_nth_error in E as [i Hi].
  assert (Hlt : (i < List.length (map fst d))%nat)
    by (apply nth_error_Some; congruence).
  rewrite length_map in Hlt.
  destruct (H i _ Hi) as [ts' Hk]. apply session_key_number in Hk. lia.
Qed.

Lemma indexed_keys_snoc keys ts :
  indexed_keys keys ->
  indexed_keys (keys ++ [session_key ts (List.length keys)]).
Proof.
  intros H i k Hi.
  destruct (Nat.lt_ge_cases i (List.length keys)) as [Hlt|Hge].
  - rewrite nth_error_app1 in Hi by assumption. now apply H.
  - rewrite nth_error_app2 in Hi by assumption.
    destruct (i - List.length keys)%nat as [|n] eqn:E; simpl in Hi.
    + injection Hi as <-. exists ts. f_equal. lia.
    + destruct n; discriminate.
Qed.

Section ServerFacts.

Variable World : Type.
Variable completions_create : Request -> World -> res ChatCompletion * World.
Variable now_isoformat : World -> string * World.
Variable json_loads : string -> res json.
Variable json_dumps : json -> string.
Variable now_timestamp : World -> string * World.
Variable knowledge_base_init : World -> res unit * World.
Variable the_system_prompt : string.
Variable str_of_exn : exn -> string.

Local Abbreviation Backend := (json -> Z -> res QueryResult).
Local Abbreviation Srv := (Server.Srv World).
Local Abbreviation get_or_create_session :=
  (Server.get_or_create_session World now_timestamp knowledge_base_init
                                the_system_prompt).
Local Abbreviation create_session :=
  (Server.create_session World now_timestamp knowledge_base_init
                         the_system_prompt).
Local Abbreviation new_bot :=
  (Server.new_bot World knowledge_base_init the_system_prompt).
Local Abbreviation server_chat collection_query :=
  (Server.chat World completions_create now_isoformat json_loads json_dumps
               collection_query now_timestamp knowledge_base_init
               the_system_prompt str_of_exn).
Local Abbreviation bot_chat collection_query :=
  (ChatBot.chat World completions_create now_isoformat json_loads json_dumps
                collection_query).
Local Abbreviation reachable :=
  (Server.reachable World completions_create now_isoformat json_loads
                    json_dumps now_timestamp
                    knowledge_base_init the_system_prompt str_of_exn).
Local Abbreviation handle collection_query :=
  (Server.handle World completions_create now_isoformat json_loads
                 json_dumps collection_query now_timestamp
                 knowledge_base_init the_system_prompt str_of_exn).

(** Making a session keeps the earlier sessions and puts the new one
    last, under a key that was not there. *)
Lemma create_session_appends (s : Srv) :
  indexed_keys (map fst (Server.chat_sessions s)) ->
  match create_session s with
  | (Ok (id, b), s') =>
      Server.chat_sessions s' = Server.chat_sessions s ++ [(id, b)] /\
      Server.dict_get id (Server.chat_sessions s) = None /\
      indexed_keys (map fst (Server.chat_sessions s'))
  | (Raise _, s') => Server.chat_sessions s' = Server.chat_sessions s
  end.
Proof.
  intros H. unfold Server.create_session.
  destruct (now_timestamp (Server.srv_world s)) as [ts w1].
  destruct (Server.new_bot World knowledge_base_init the_system_prompt w1)
    as [[b|e] w2]; cbn [Server.chat_sessions]; [|reflexivity].
  fold (session_key ts (List.length (Server.chat_sessions s))).
  pose proof (indexed_keys_fresh (Server.chat_sessions s) ts H) as Hfresh.
  rewrite (dict_set_absent _ _ _ Hfresh).
  split; [reflexivity|]. split; [exact Hfresh|].
  rewrite map_app. cbn [map fst].
  rewrite <- (length_map fst (Server.chat_sessions s)).
  now apply indexed_keys_snoc.
Qed.

(** What [get_or_create_session] returns is registered under the id it
    returns, and the keys stay numbered. *)
Lemma get_or_create_session_keys (sid : option string) (s : Srv) :
  indexed_keys (map fst (Server.chat_sessions s)) ->
  indexed_keys (map fst (Server.chat_sessions (snd (get_or_create_session sid s))))
  /\ forall id b, fst (get_or_create_session sid s) = Ok (id, b) ->
       Server.dict_get id (Server.chat_sessions (snd (get_or_create_session sid s)))
       = Some b.
Proof.
  intros H.
  assert (Hcreate :
    indexed_keys (map fst (Server.chat_sessions (snd (create_session s))))
    /\ forall id b, fst (create_session s) = Ok (id, b) ->
         Server.dict_get id (Server.chat_sessions (snd (create_session s)))
         = Some b).
  { pose proof (create_session_appends s H) as Hc.
    destruct (create_session s) as [[[id b]|e] s']; cbn [fst snd].
    - destruct Hc as [Hs [Hfresh Hk]]. split; [exact Hk|].
      intros id' b' [= <- <-]. rewrite Hs.
      rewrite <- (dict_set_absent id b _ Hfresh). apply dict_get_set_same.
    - rewrite Hc. split; [exact H | discriminate]. }
  unfold Server.get_or_create_session.
  destruct sid as [id0|]; [|exact Hcreate].
  destruct (nonempty id0); [|exact Hcreate].
  destruct (Server.dict_get id0 (Server.chat_sessions s)) as [b0|] eqn:E;
    [|exact Hcreate].
  cbn [fst snd]. split; [exact H|]. now intros id b [= <- <-].
Qed.

Lemma handle_keeps_keys (collection_query : Backend) (c : Server.call)
    (s : Srv) :
  indexed_keys (map fst (Server.chat_sessions s)) ->
  indexed_keys (map fst (Server.chat_sessions (handle collection_query c s))).
Proof.
  intros H. destruct c as [request|id]; cbn [Server.handle].
  - unfold Server.chat.
    destruct (get_or_create_session_keys (Server.session_id request) s H)
      as [Hk Hreg].
    destruct (get_or_create_session (Server.session_id request) s)
      as [[[id b]|e] s1]; cbn [fst snd] in *; [|exact Hk].
    specialize (Hreg id b eq_refl).
    destruct (bot_chat collection_query (Server.message request) _)
      as [r st].
    assert (Hsame : map fst (Server.dict_set id (bot st) (Server.chat_sessions s1))
                    = map fst (Server.chat_sessions s1))
      by (eapply dict_set_present; exact Hreg).
    destruct r as [answer|e]; cbn [snd Server.chat_sessions].
    + destruct (now_isoformat (world st)) as [t w].
      cbn [snd Server.chat_sessions]. now rewrite Hsame.
    + now rewrite Hsame.
  - unfold Server.reset_session.
    destruct (Server.dict_get id (Server.chat_sessions s)) as [b|] eqn:E;
      cbn [snd Server.chat_sessions]; [|exact H].
    now rewrite (dict_set_present _ _ _ _ E).
Qed.

(** Whatever calls the server has handled, the keys of its sessions are
    pairwise distinct, the key at position [i] is the one made for the
    [i]-th session, and so no session was ever replaced by another. *)
Theorem session_keys_distinct (s : Srv) :
  reachable s ->
  NoDup (map fst (Server.chat_sessions s))
  /\ indexed_keys (map fst (Server.chat_sessions s)).
Proof.
  intros H.
  assert (Hk : indexed_keys (map fst (Server.chat_sessions s))).
  { induction H as [w|cq c s Hs IH|w s Hs IH].
    - intros [|i] k Hi; discriminate.
    - now apply handle_keeps_keys.
    - exact IH. }
  split; [now apply indexed_keys_distinct | exact Hk].
Qed.

(** A request without a session id, with an empty one or with one the
    server does not know gets a new session when the bot can be built:
    the earlier sessions stay as they are, and the new one comes last,
    under a key no session had. *)
Theorem new_session_is_fresh (sid : option string) (s : Srv)
    (b : Bot) (w2 : World) :
  reachable s ->
  match sid with
  | Some id => nonempty id = false
               \/ Server.dict_get id (Server.chat_sessions s) = None
  | None => True
  end ->
  new_bot (snd (now_timestamp (Server.srv_world s))) = (Ok b, w2) ->
  exists id,
    fst (get_or_create_session sid s) = Ok (id, b)
    /\ Server.chat_sessions (snd (get_or_create_session sid s))
       = Server.chat_sessions s ++ [(id, b)]
    /\ Server.dict_get id (Server.chat_sessions s) = None
    /\ conversation_history b = [].
Proof.
  intros Hr Hsid Hnew.
  assert (Hk : indexed_keys (map fst (Server.chat_sessions s))).
  { clear Hsid Hnew. induction Hr as [w|cq c s Hs IH|w s Hs IH].
    - intros [|i] k Hi; discriminate.
    - now apply handle_keeps_keys.
    - exact IH. }
  assert (Hb : conversation_history b = []).
  { unfold Server.new_bot in Hnew.
    destruct (knowledge_base_init _) as [[[]|e] w]; [|discriminate].
    now injection Hnew as <- _. }
  assert (Hcreate : exists id,
            fst (create_session s) = Ok (id, b)
            /\ Server.chat_sessions (snd (create_session s))
               = Server.chat_sessions s ++ [(id, b)]
            /\ Server.dict_get id (Server.chat_sessions s) = None).
  { pose proof (create_session_appends s Hk) as Hc.
    unfold Server.create_session in *.
    destruct (now_timestamp (Server.srv_world s)) as [ts w1].
    cbn [snd] in Hnew. rewrite Hnew in *. cbn [fst snd].
    destruct Hc as [Hs [Hfresh _]]. eexists. now repeat split. }
  destruct Hcreate as [id [H1 [H2 H3]]]. exists id.
  unfold Server.get_or_create_session.
  destruct sid as [id0|]; [|now repeat split].
  destruct (nonempty id0); [|now repeat split].
  destruct Hsid as [Hne|Hnone]; [discriminate|].
  rewrite Hnone. now repeat split.
Qed.

(** The endpoint [POST /reset] touches the session it names and no
    other: an unknown id is answered with 404 and nothing changes; a
    known one has its history emptied and keeps its system prompt, and
    every other session and the order of the keys are as before. *)
Theorem reset_session_only_target (id : string) (s : Srv) :
  map fst (Server.chat_sessions (snd (Server.reset_session World id s)))
  = map fst (Server.chat_sessions s)
  /\ (forall id', id' <> id ->
        Server.dict_get id'
          (Server.chat_sessions (snd (Server.reset_session World id s)))
        = Server.dict_get id' (Server.chat_sessions s))
  /\ match Server.dict_get id (Server.chat_sessions s) with
     | Some b =>
         exists b',
           Server.dict_get id
             (Server.chat_sessions (snd (Server.reset_session World id s)))
           = Some b'
           /\ conversation_history b' = []
           /\ system_prompt b' = system_prompt b
     | None =>
         Server.reset_session World id s
         = (Server.HTTPException 404 "Session not found", s)
     end.
Proof.
  unfold Server.reset_session.
  destruct (Server.dict_get id (Server.chat_sessions s)) as [b|] eqn:E;
    cbn [snd Server.chat_sessions].
  - split; [now rewrite (dict_set_present _ _ _ _ E)|].
    split; [intros id' Hne; now apply dict_get_set_other|].
    eexists. split; [apply dict_get_set_same|]. split; reflexivity.
  - now repeat split.
Qed.

(** A chat that raises is answered with 500 and the text of the
    exception, and the user message stays stored under the session: the
    next request of that session sends it to the model again. *)
Theorem server_chat_failure_keeps_message (collection_query : Backend)
    (request : Server.ChatRequest) (s s1 : Srv) (id : string) (b : Bot)
    (e : exn) (st' : St World) :
  get_or_create_session (Server.session_id request) s = (Ok (id, b), s1) ->
  bot_chat collection_query (Server.message request)
           {| bot := b; world := Server.srv_world s1;
              sent := Server.srv_sent s1 |}
  = (Raise e, st') ->
  fst (server_chat collection_query request s)
  = Server.HTTPException 500 (str_of_exn e)
  /\ exists b',
       Server.dict_get id
         (Server.chat_sessions (snd (server_chat collection_query request s)))
       = Some b'
       /\ conversation_history b'
          = conversation_history b
            ++ [user_message_of World now_isoformat (Server.message request)
                  {| bot := b; world := Server.srv_world s1;
                     sent := Server.srv_sent s1 |}].
Proof.
  intros Hg Hc. unfold Server.chat. rewrite Hg, Hc.
  cbn [fst snd Server.chat_sessions]. split; [reflexivity|].
  exists (bot st'). split; [apply dict_get_set_same|].
  destruct (chat_outcome World completions_create now_isoformat json_loads
              json_dumps collection_query (Server.message request)
              {| bot := b; world := Server.srv_world s1;
                 sent := Server.srv_sent s1 |})
    as [_ [[e' [_ Hh]]|[f [t [Hf _]]]]];
    rewrite Hc in *; cbn [fst snd bot] in *; [exact Hh | discriminate].
Qed.

(** When the model's final content is [None], [bot.chat] returns and
    stores the turn, but the endpoint cannot build its response and
    answers 500: the session holds the user message and an assistant
    message without content. *)
Theorem server_none_answer_is_500 (collection_query : Backend)
    (request : Server.ChatRequest) (s s1 : Srv) (id : string) (b : Bot)
    (st' : St World) :
  get_or_create_session (Server.session_id request) s = (Ok (id, b), s1) ->
  bot_chat collection_query (Server.message request)
           {| bot := b; world := Server.srv_world s1;
              sent := Server.srv_sent s1 |}
  = (Ok None, st') ->
  fst (server_chat collection_query request s)
  = Server.HTTPException 500 (str_of_exn ValueError)
  /\ exists b' t1 t2,
       Server.dict_get id
         (Server.chat_sessions (snd (server_chat collection_query request s)))
       = Some b'
       /\ conversation_history b'
          = conversation_history b
            ++ [ {| role := "user"; content := Some (Server.message request);
                    timestamp := t1 |};
                 {| role := "assistant"; content := None; timestamp := t2 |} ].
Proof.
  intros Hg Hc. unfold Server.chat. rewrite Hg, Hc.
  destruct (now_isoformat (world st')) as [t w].
  cbn [fst snd Server.chat_sessions]. split; [reflexivity|].
  destruct (chat_outcome World completions_create now_isoformat json_loads
              json_dumps collection_query (Server.message request)
              {| bot := b; world := Server.srv_world s1;
                 sent := Server.srv_sent s1 |})
    as [_ [[e' [He _]]|[f [t2 [Hf Hh]]]]];
    rewrite Hc in *; cbn [fst snd bot] in *; [discriminate|].
  injection Hf as <-.
  exists (bot st'), (fst (now_isoformat (Server.srv_world s1))), t2.
  split; [apply dict_get_set_same | exact Hh].
Qed.

End ServerFacts.

(** ** The server on the sample service *)

Module SampleServer.

(** The POSIX time as an f-string writes a float, from the counting
    clock. *)
Definition now_timestamp (w : Sample.World) : string * Sample.World :=
  ((str_of_nat (snd w) ++ ".5")%string, (fst w, S (snd w))).

(** A knowledge base that can be built. *)
Definition knowledge_base_init (w : Sample.World) : res unit * Sample.World :=
  (Ok tt, w).

Definition str_of_exn (e : exn) : string :=
  match e with
  | ValueError => "validation error"
  | KeyError => "'query'"
  | IndexError => "list index out of range"
  | TypeError => "type error"
  | JSONDecodeError => "Expecting value"
  | NotFoundError => "not found"
  | ServiceError detail => detail
  end.

Definition start (replies : list ChatBot.ChatCompletion)
    : Server.Srv Sample.World :=
  {| Server.chat_sessions := []; Server.srv_world := (replies, 0%nat);
     Server.srv_sent := [] |}.

Definition get_or_create_session :=
  Server.get_or_create_session Sample.World now_timestamp knowledge_base_init
    (system_prompt Sample.bot).

Definition chat :=
  Server.chat Sample.World Sample.completions_create Sample.now_isoformat
    Sample.json_loads Sample.json_dumps (collection_query Sample.kb)
    now_timestamp knowledge_base_init (system_prompt Sample.bot) str_of_exn.

Definition reachable :=
  Server.reachable Sample.World Sample.completions_create
    Sample.now_isoformat Sample.json_loads Sample.json_dumps
    now_timestamp knowledge_base_init (system_prompt Sample.bot) str_of_exn.

(** The model answers without content and without tool calls. *)
Definition silent_reply : ChatBot.ChatCompletion :=
  {| ChatBot.choices :=
       [ {| ChatBot.am_content := None; ChatBot.am_tool_calls := None |} ] |}.

Definition hello : Server.ChatRequest :=
  {| Server.message := "Hello"; Server.session_id := None |}.

(** Two visitors have said hello, each in a session of their own. *)
Definition two_sessions : Server.Srv Sample.World :=
  snd (chat hello
         (snd (chat hello (start [Sample.direct_reply; Sample.direct_reply])))).

End SampleServer.

Lemma sample_two_sessions_reachable :
  SampleServer.reachable SampleServer.two_sessions.
Proof.
  unfold SampleServer.two_sessions.
  apply (Server.reachable_handle _ _ _ _ _ _ _ _ _ (collection_query Sample.kb)
           (Server.PostChat SampleServer.hello)).
  apply (Server.reachable_handle _ _ _ _ _ _ _ _ _ (collection_query Sample.kb)
           (Server.PostChat SampleServer.hello)).
  apply Server.reachable_start.
Defined.

Example sample_two_sessions_keys :
  map fst (Server.chat_sessions SampleServer.two_sessions)
  = ["session_0.5_0"; "session_4.5_1"].
Proof. reflexivity. Qed.

Lemma session_keys_distinct_witness :
  NoDup (map fst (Server.chat_sessions SampleServer.two_sessions))
  /\ indexed_keys (map fst (Server.chat_sessions SampleServer.two_sessions)).
Proof.
  apply (session_keys_distinct Sample.World Sample.completions_create
           Sample.now_isoformat Sample.json_loads Sample.json_dumps
           SampleServer.now_timestamp SampleServer.knowledge_base_init
           (system_prompt Sample.bot) SampleServer.str_of_exn).
  exact sample_two_sessions_reachable.
Defined.

(** An id the server never gave out starts a third session. *)
Lemma new_session_is_fresh_witness :
  exists id,
    fst (SampleServer.get_or_create_session (Some "session_9.5_0")
           SampleServer.two_sessions)
    = Ok (id, Sample.bot)
    /\ Server.chat_sessions
         (snd (SampleServer.get_or_create_session (Some "session_9.5_0")
                 SampleServer.two_sessions))
       = Server.chat_sessions SampleServer.two_sessions ++ [(id, Sample.bot)]
    /\ Server.dict_get id (Server.chat_sessions SampleServer.two_sessions)
       = None
    /\ conversation_history Sample.bot = [].
Proof.
  apply (new_session_is_fresh Sample.World Sample.completions_create
           Sample.now_isoformat Sample.json_loads Sample.json_dumps
           SampleServer.now_timestamp SampleServer.knowledge_base_init
           (system_prompt Sample.bot) SampleServer.str_of_exn
           (Some "session_9.5_0") SampleServer.two_sessions Sample.bot
           ([], 9%nat)).
  - exact sample_two_sessions_reachable.
  - right. reflexivity.
  - reflexivity.
Defined.

(** The model service is down at the first request of a visitor. *)
Lemma server_chat_failure_keeps_message_witness :
  fst (SampleServer.chat SampleServer.hello (SampleServer.start []))
  = Server.HTTPException 500 "no reply"
  /\ exists b',
       Server.dict_get "session_0.5_0"
         (Server.chat_sessions
            (snd (SampleServer.chat SampleServer.hello (SampleServer.start []))))
       = Some b'
       /\ conversation_history b'
          = conversation_history Sample.bot
            ++ [ {| role := "user"; content := Some "Hello";
                    timestamp := "1" |} ].
Proof.
  apply (server_chat_failure_keeps_message Sample.World
           Sample.completions_create
           Sample.now_isoformat Sample.json_loads Sample.json_dumps
           SampleServer.now_timestamp SampleServer.knowledge_base_init
           (system_prompt Sample.bot) SampleServer.str_of_exn
           (collection_query Sample.kb) SampleServer.hello
           (SampleServer.start [])
           {| Server.chat_sessions := [("session_0.5_0", Sample.bot)];
              Server.srv_world := ([], 1%nat); Server.srv_sent := [] |}
           "session_0.5_0" Sample.bot (ServiceError "no reply")
           (snd (Sample.chat "Hello"
                   {| bot := Sample.bot; world := ([], 1%nat); sent := [] |})));
    reflexivity.
Defined.

(** The model answers without content. *)
Lemma server_none_answer_is_500_witness :
  fst (SampleServer.chat SampleServer.hello
         (SampleServer.start [SampleServer.silent_reply]))
  = Server.HTTPException 500 "validation error"
  /\ exists b' t1 t2,
       Server.dict_get "session_0.5_0"
         (Server.chat_sessions
            (snd (SampleServer.chat SampleServer.hello
                    (SampleServer.start [SampleServer.silent_reply]))))
       = Some b'
       /\ conversation_history b'
          = conversation_history Sample.bot
            ++ [ {| role := "user"; content := Some "Hello"; timestamp := t1 |};
                 {| role := "assistant"; content := None; timestamp := t2 |} ].
Proof.
  apply (server_none_answer_is_500 Sample.World
           Sample.completions_create
           Sample.now_isoformat Sample.json_loads Sample.json_dumps
           SampleServer.now_timestamp SampleServer.knowledge_base_init
           (system_prompt Sample.bot) SampleServer.str_of_exn
           (collection_query Sample.kb) SampleServer.hello
           (SampleServer.start [SampleServer.silent_reply])
           {| Server.chat_sessions := [("session_0.5_0", Sample.bot)];
              Server.srv_world := ([SampleServer.silent_reply], 1%nat);
              Server.srv_sent := [] |}
           "session_0.5_0" Sample.bot
           (snd (Sample.chat "Hello"
                   {| bot := Sample.bot;
                      world := ([SampleServer.silent_reply], 1%nat);
                      sent := [] |})));
    reflexivity.
Defined.
